(** * Stratos tracking: consent gate, identity, sessions, transport

    A shallow embedding of the client-side tracking system of the site
    (modules [tracking/core/consent], [tracking/session], [tracking/core/api],
    [tracking/modules/*] and the [StratosTracker] facade), and the properties
    of it that the specification states.

    The browser is an explicit [World]: the two web storages, the module-level
    variables of the session and property modules, the clock, the source of
    UUIDs, the registered DOM listeners and the list of requests handed to the
    network.  Every JavaScript function is a computation [M A] over that world
    which either returns or throws, so that [try]/[catch] keeps its meaning.
    Console output ([console.log], the [log] callback) is not part of the
    world. *)

From stdpp Require Import base strings gmap list countable pretty.
From Stdlib Require Import ZArith Lia Ascii.

#[local] Open Scope string_scope.
#[local] Open Scope list_scope.
#[local] Open Scope Z_scope.

(** ** JavaScript values of type [any] *)

#[local] Set Warnings "-register-all".

Inductive jsval : Type :=
  | VUndef
  | VNull
  | VBool (b : bool)
  | VNum (z : Z)
  | VStr (s : string)
  | VObj (fields : list (string * jsval)).

(** [Record<string, any>]: keys in insertion order. *)
Abbreviation jsobj := (list (string * jsval)).

(** ToBoolean. *)
Definition truthy (v : jsval) : bool :=
  match v with
  | VUndef | VNull => false
  | VBool b => b
  | VNum z => negb (Z.eqb z 0)
  | VStr s => negb (String.eqb s "")
  | VObj _ => true
  end.

(** [a || b]. *)
Definition js_or (a b : jsval) : jsval := if truthy a then a else b.

(** [o.k] on an object literal; [undefined] when the key is absent. *)
Fixpoint obj_get (k : string) (o : jsobj) : jsval :=
  match o with
  | [] => VUndef
  | (k', v) :: o' => if String.eqb k k' then v else obj_get k o'
  end.

(** [o.k = v]: an existing key keeps its place, a new one goes last. *)
Fixpoint obj_set (k : string) (v : jsval) (o : jsobj) : jsobj :=
  match o with
  | [] => [(k, v)]
  | (k', v') :: o' =>
      if String.eqb k k' then (k, v) :: o' else (k', v') :: obj_set k v o'
  end.

(** [{ ...base, ...extra }] where [base] is the literal written so far. *)
Definition obj_spread (base extra : jsobj) : jsobj :=
  foldl (λ acc kv, obj_set kv.1 kv.2 acc) base extra.

(** An optional parameter [additionalData?: Record<string, any>]; spreading
    [undefined] adds nothing. *)
Definition spread_opt (base : jsobj) (extra : option jsobj) : jsobj :=
  match extra with
  | None => base
  | Some e => obj_spread base e
  end.

(** [s1 || s2] on optional strings ([undefined] and the empty string are
    falsy). *)
Definition str_truthy (o : option string) : bool :=
  match o with
  | None => false
  | Some s => negb (String.eqb s "")
  end.

Definition str_or (o : option string) (d : string) : string :=
  match o with
  | Some s => if String.eqb s "" then d else s
  | None => d
  end.

Definition of_opt_str (o : option string) : jsval :=
  match o with
  | None => VUndef
  | Some s => VStr s
  end.

(** ** Data model ([tracking/types]) *)

(** Timestamps are kept as epoch milliseconds: [created_at] and
    [last_activity_at] hold the instant that the ISO-8601 text written by
    [toISOString()] denotes and that [new Date(text).getTime()] reads back. *)
Record SessionData := {
  session_id : string;
  visitor_id : string;
  created_at : Z;
  last_activity_at : Z;
  page_views : Z
}.

(** What [getStoredSession] can return where the source says
    [SessionData]: [JSON.parse] is not checked, so it is a session object or
    whatever primitive the entry [sr_session] holds. *)
Inductive StoredSession :=
  | Session (session : SessionData)
  | Primitive (v : jsval).

Coercion Session : SessionData >-> StoredSession.

(** [!session] is [false] for it. *)
Definition is_truthy (session : StoredSession) : bool :=
  match session with
  | Session _ => true
  | Primitive v => truthy v
  end.

(** A [number] that can be [NaN]. *)
Inductive jsnumber :=
  | NaN
  | Num (z : Z).

Coercion Num : Z >-> jsnumber.

Record ConsentStatus := {
  necessary : bool;
  analytics : bool;
  marketing : bool;
  timestamp : string;
  version : string
}.

Record EventData := {
  event_type : string;
  ev_session_id : string;
  ev_visitor_id : string;
  page_url : string;
  page_title : option string;
  referrer : option string;
  property_id : jsval;
  article_id : jsval;
  event_data : option jsobj
}.

Record SearchTrackingData := {
  listing_type : string;
  search_timestamp : Z;
  location : option string;
  postcode : option string;
  min_price : jsval;
  max_price : jsval;
  bedrooms : jsval;
  bathrooms : jsval;
  property_type : option string;
  filters : jsobj;
  filters_count : Z;
  source_page : string;
  source_component : string
}.

(** [Partial<SearchTrackingData>], the argument of [storeSearchForTracking]. *)
Record PartialSearch := {
  p_listing_type : option string;
  p_location : option string;
  p_postcode : option string;
  p_min_price : jsval;
  p_max_price : jsval;
  p_bedrooms : jsval;
  p_bathrooms : jsval;
  p_property_type : option string;
  p_filters : option jsobj;
  p_filters_count : option Z;
  p_source_page : option string;
  p_source_component : option string
}.

Record RequiredTrackerConfig := {
  apiUrl : string;
  apiKey : string;
  trackingEnabled : bool;
  debug : bool
}.

Record ToggleFavouriteResult := {
  is_favourited : jsval;
  count : jsval
}.

(** A primitive: what is not an object. *)
Definition is_primitive (v : jsval) : bool :=
  match v with
  | VObj _ => false
  | _ => true
  end.

(** ** JSON

    [JSON.stringify], and [JSON.parse] read at the type [A] that the source
    declares for a stored text.  The source does not check what it parses,
    and neither does TypeScript, so the text can denote something else:
    [JSON_parse text = Some a] says that [JSON.parse(text)] is the object
    [a]; otherwise [JSON_parse_primitive text = Some v] says that it is the
    primitive [v] ([null], a boolean, a number or a string); where both are
    [None] the text is read as a [SyntaxError] (an object or array that is
    not an [A] is not told apart from one).  The laws are the only facts
    about them that the development uses: a serialised value is never the
    empty text, parsing it gives the value back, and a primitive is not an
    object.  The second law takes the values that are stored to be ones that
    JSON carries unchanged: a field that is [undefined] is read back as
    [undefined], but an [undefined] inside a nested object would be
    dropped. *)
Class JSON (A : Type) := {
  JSON_stringify : A → string;
  JSON_parse : string → option A;
  JSON_parse_primitive : string → option jsval;
  JSON_stringify_nonempty a : JSON_stringify a ≠ "";
  JSON_parse_stringify a : JSON_parse (JSON_stringify a) = Some a;
  JSON_parse_primitive_is_primitive text v :
    JSON_parse_primitive text = Some v → is_primitive v = true
}.

(** ** The browser *)

(** What a page cannot change. *)
Record Browser := {
  (** every access to web storage throws (storage disabled) *)
  storage_denied : bool;
  (** [setItem] throws (quota exceeded) *)
  storage_full : bool;
  (** [navigator.sendBeacon] exists *)
  navigator_sendBeacon : bool;
  (** the values that [crypto.randomUUID()] yields, in order *)
  randomUUID : nat → string;
  location_href : string;
  location_pathname : string;
  document_title : string;
  document_referrer : string;
  screen_width : Z;
  screen_height : Z;
  innerWidth : Z;
  innerHeight : Z
}.

(** Where a request ends up. *)
Inductive Transport := ViaFetch | ViaBeacon.

Inductive Body :=
  | EventBody (e : EventData)
  | FavouriteBody (visitor session property source : string).

(** A request handed to the network.  With [ViaFetch] the key travels in the
    [x-api-key] header, with [ViaBeacon] as the [api_key] query parameter of
    the same endpoint and the body is a [text/plain] blob. *)
Record Request := {
  req_transport : Transport;
  req_endpoint : string;
  req_api_key : string;
  req_body : Body
}.

(** DOM listeners are closures in the source; here they are data, run by
    [Tracker.dispatchEvent] below.  The closures capture the [config] and the
    getters of the facade that registered them, so they are run against that
    facade. *)
Inductive Listener :=
  | consentListener
  | propertyDurationHandler (propertyId : string)
  | propertyVisibilityHandler (propertyId : string)
  | blogTrackDuration (articleId : string) (cell : nat)
  | blogVisibilityHandler (articleId : string) (cell : nat)
  | trackScrollHandler (articleId : string) (cell : nat).

Inductive EventName :=
  | cookieConsentUpdated
  | beforeunload
  | pagehide
  | visibilitychange
  | scroll.

Record World := {
  browser : Browser;
  (** [Date.now()] *)
  Date_now : Z;
  (** how many UUIDs have been drawn *)
  uuid_drawn : nat;
  localStorage : gmap string string;
  sessionStorage : gmap string string;
  (** [let tempVisitorId] of the session module *)
  tempVisitorId : option string;
  (** [let tempSession] of the session module *)
  tempSession : option SessionData;
  (** [let currentPropertyDurationTracking] of the property module *)
  currentPropertyDurationTracking : option string;
  (** [addEventListener] registrations, oldest first *)
  listeners : list (EventName * Listener);
  (** the [maxScrollDepth] variable of each [setupScrollDepthTracking] call *)
  scroll_cells : list Z;
  (** requests handed to the network, oldest first *)
  network : list Request
}.

Definition set_Date_now (t : Z) (w : World) : World :=
  {| browser := browser w; Date_now := t; uuid_drawn := uuid_drawn w;
     localStorage := localStorage w; sessionStorage := sessionStorage w;
     tempVisitorId := tempVisitorId w; tempSession := tempSession w;
     currentPropertyDurationTracking := currentPropertyDurationTracking w;
     listeners := listeners w; scroll_cells := scroll_cells w;
     network := network w |}.

Definition set_uuid_drawn (n : nat) (w : World) : World :=
  {| browser := browser w; Date_now := Date_now w; uuid_drawn := n;
     localStorage := localStorage w; sessionStorage := sessionStorage w;
     tempVisitorId := tempVisitorId w; tempSession := tempSession w;
     currentPropertyDurationTracking := currentPropertyDurationTracking w;
     listeners := listeners w; scroll_cells := scroll_cells w;
     network := network w |}.

Definition set_localStorage (m : gmap string string) (w : World) : World :=
  {| browser := browser w; Date_now := Date_now w; uuid_drawn := uuid_drawn w;
     localStorage := m; sessionStorage := sessionStorage w;
     tempVisitorId := tempVisitorId w; tempSession := tempSession w;
     currentPropertyDurationTracking := currentPropertyDurationTracking w;
     listeners := listeners w; scroll_cells := scroll_cells w;
     network := network w |}.

Definition set_sessionStorage (m : gmap string string) (w : World) : World :=
  {| browser := browser w; Date_now := Date_now w; uuid_drawn := uuid_drawn w;
     localStorage := localStorage w; sessionStorage := m;
     tempVisitorId := tempVisitorId w; tempSession := tempSession w;
     currentPropertyDurationTracking := currentPropertyDurationTracking w;
     listeners := listeners w; scroll_cells := scroll_cells w;
     network := network w |}.

Definition set_tempVisitorId (o : option string) (w : World) : World :=
  {| browser := browser w; Date_now := Date_now w; uuid_drawn := uuid_drawn w;
     localStorage := localStorage w; sessionStorage := sessionStorage w;
     tempVisitorId := o; tempSession := tempSession w;
     currentPropertyDurationTracking := currentPropertyDurationTracking w;
     listeners := listeners w; scroll_cells := scroll_cells w;
     network := network w |}.

Definition set_tempSession (o : option SessionData) (w : World) : World :=
  {| browser := browser w; Date_now := Date_now w; uuid_drawn := uuid_drawn w;
     localStorage := localStorage w; sessionStorage := sessionStorage w;
     tempVisitorId := tempVisitorId w; tempSession := o;
     currentPropertyDurationTracking := currentPropertyDurationTracking w;
     listeners := listeners w; scroll_cells := scroll_cells w;
     network := network w |}.

Definition set_currentPropertyDurationTracking (o : option string) (w : World)
  : World :=
  {| browser := browser w; Date_now := Date_now w; uuid_drawn := uuid_drawn w;
     localStorage := localStorage w; sessionStorage := sessionStorage w;
     tempVisitorId := tempVisitorId w; tempSession := tempSession w;
     currentPropertyDurationTracking := o;
     listeners := listeners w; scroll_cells := scroll_cells w;
     network := network w |}.

Definition set_listeners (l : list (EventName * Listener)) (w : World) : World :=
  {| browser := browser w; Date_now := Date_now w; uuid_drawn := uuid_drawn w;
     localStorage := localStorage w; sessionStorage := sessionStorage w;
     tempVisitorId := tempVisitorId w; tempSession := tempSession w;
     currentPropertyDurationTracking := currentPropertyDurationTracking w;
     listeners := l; scroll_cells := scroll_cells w;
     network := network w |}.

Definition set_scroll_cells (l : list Z) (w : World) : World :=
  {| browser := browser w; Date_now := Date_now w; uuid_drawn := uuid_drawn w;
     localStorage := localStorage w; sessionStorage := sessionStorage w;
     tempVisitorId := tempVisitorId w; tempSession := tempSession w;
     currentPropertyDurationTracking := currentPropertyDurationTracking w;
     listeners := listeners w; scroll_cells := l;
     network := network w |}.

Definition set_network (l : list Request) (w : World) : World :=
  {| browser := browser w; Date_now := Date_now w; uuid_drawn := uuid_drawn w;
     localStorage := localStorage w; sessionStorage := sessionStorage w;
     tempVisitorId := tempVisitorId w; tempSession := tempSession w;
     currentPropertyDurationTracking := currentPropertyDurationTracking w;
     listeners := listeners w; scroll_cells := scroll_cells w;
     network := l |}.

(** ** Computations that may throw *)

Inductive outcome (A : Type) : Type :=
  | Returned (a : A) (w : World)
  | Threw (w : World).
Arguments Returned {A} & a w.
Arguments Threw {A} w.
#[local] Arguments Some {A} & a.

Definition M (A : Type) : Type := World → outcome A.

Definition ret {A} (a : A) : M A := λ w, Returned a w.
Definition throw {A} : M A := λ w, Threw w.
Definition bind {A B} (m : M A) (k : A → M B) : M B :=
  λ w, match m w with
       | Returned a w' => k a w'
       | Threw w' => Threw w'
       end.

Notation "'let*' x := m 'in' k" := (bind m (λ x, k))
  (at level 10, x pattern, m at level 100, k at level 200).
Notation "m ;; k" := (bind m (λ _, k))
  (at level 100, k at level 200, right associativity).

(** [try { body } catch { handler }] *)
Definition try_catch {A} (body handler : M A) : M A :=
  λ w, match body w with
       | Returned a w' => Returned a w'
       | Threw w' => handler w'
       end.

Definition get {A} (f : World → A) : M A := λ w, Returned (f w) w.
Definition modify (f : World → World) : M unit := λ w, Returned () (f w).

(** The world after a computation, whether it returned or threw. *)
Definition world_of {A} (o : outcome A) : World :=
  match o with
  | Returned _ w => w
  | Threw w => w
  end.

(** ** Web storage *)

Definition localStorage_getItem (k : string) : M (option string) :=
  λ w, if storage_denied (browser w) then Threw w
       else Returned (localStorage w !! k) w.

Definition localStorage_setItem (k v : string) : M unit :=
  λ w, if storage_denied (browser w) || storage_full (browser w) then Threw w
       else Returned () (set_localStorage (<[k := v]> (localStorage w)) w).

Definition localStorage_removeItem (k : string) : M unit :=
  λ w, if storage_denied (browser w) then Threw w
       else Returned () (set_localStorage (delete k (localStorage w)) w).

Definition sessionStorage_getItem (k : string) : M (option string) :=
  λ w, if storage_denied (browser w) then Threw w
       else Returned (sessionStorage w !! k) w.

Definition sessionStorage_setItem (k v : string) : M unit :=
  λ w, if storage_denied (browser w) || storage_full (browser w) then Threw w
       else Returned () (set_sessionStorage (<[k := v]> (sessionStorage w)) w).

Definition sessionStorage_removeItem (k : string) : M unit :=
  λ w, if storage_denied (browser w) then Threw w
       else Returned () (set_sessionStorage (delete k (sessionStorage w)) w).

(** [JSON.parse(text)] *)
Definition parse {A} `{JSON A} (text : string) : M A :=
  match JSON_parse text with
  | Some a => ret a
  | None => throw
  end.

Section Tracking.

Context `{!JSON ConsentStatus, !JSON SessionData, !JSON SearchTrackingData}.

(** ** Consent store ([tracking/core/consent]) *)

Definition CONSENT_STORAGE_KEY : string := "stratos_cookie_consent".

Definition hasAnalyticsConsent : M bool :=
  try_catch
    (let* stored := localStorage_getItem CONSENT_STORAGE_KEY in
     match stored with
     | None => ret false
     | Some text =>
         if String.eqb text "" then ret false
         else let* consent := parse text in
              ret (analytics consent)
     end)
    (ret false).

Definition hasMarketingConsent : M bool :=
  try_catch
    (let* stored := localStorage_getItem CONSENT_STORAGE_KEY in
     match stored with
     | None => ret false
     | Some text =>
         if String.eqb text "" then ret false
         else let* consent := parse text in
              ret (marketing consent)
     end)
    (ret false).

Definition hasConsentDecision : M bool :=
  try_catch
    (let* stored := localStorage_getItem CONSENT_STORAGE_KEY in
     ret (bool_decide (stored ≠ None)))
    (ret false).

(** [None] is [null]. *)
Definition getConsentStatus : M (option ConsentStatus) :=
  try_catch
    (let* stored := localStorage_getItem CONSENT_STORAGE_KEY in
     match stored with
     | None => ret None
     | Some text =>
         if String.eqb text "" then ret None
         else let* consent := parse text in
              ret (Some consent)
     end)
    (ret None).

(** ** Identity and sessions ([tracking/session]) *)

Definition STORAGE_KEYS_SESSION : string := "sr_session".
Definition STORAGE_KEYS_VISITOR : string := "sr_visitor".
Definition SESSION_TIMEOUT_MS : Z := 30 * 60 * 1000.

(** Both branches of the source ([crypto.randomUUID()] and the
    [Math.random] fallback) draw the next value of the generator. *)
Definition generateUUID : M string :=
  λ w, Returned (randomUUID (browser w) (uuid_drawn w))
                (set_uuid_drawn (S (uuid_drawn w)) w).

(** [if (!tempVisitorId) { tempVisitorId = generateUUID() }
     return tempVisitorId], written twice in [getVisitorId]. *)
Definition temporaryVisitorId : M string :=
  let* tmp := get tempVisitorId in
  match tmp with
  | Some id =>
      if String.eqb id "" then
        let* u := generateUUID in
        modify (set_tempVisitorId (Some u));; ret u
      else ret id
  | None =>
      let* u := generateUUID in
      modify (set_tempVisitorId (Some u));; ret u
  end.

Definition getVisitorId : M string :=
  let* consent := hasAnalyticsConsent in
  if negb consent then temporaryVisitorId
  else
    try_catch
      (let* stored := localStorage_getItem STORAGE_KEYS_VISITOR in
       if str_truthy stored then ret (str_or stored "")
       else
         let* tmp := get tempVisitorId in
         let* visitorId :=
           (if str_truthy tmp then ret (str_or tmp "") else generateUUID) in
         localStorage_setItem STORAGE_KEYS_VISITOR visitorId;;
         ret visitorId)
      temporaryVisitorId.

Definition clearVisitorId : M unit :=
  modify (set_tempVisitorId None);;
  try_catch (localStorage_removeItem STORAGE_KEYS_VISITOR) (ret ()).

(** [JSON.parse(stored)] on the session entry: a session object, a
    primitive ([null] is [None]), or a [SyntaxError]. *)
Definition parse_stored (text : string) : M (option StoredSession) :=
  match JSON_parse text with
  | Some session => ret (Some (Session session))
  | None =>
      match JSON_parse_primitive (A := SessionData) text with
      | Some VNull => ret None
      | Some v => ret (Some (Primitive v))
      | None => throw
      end
  end.

Definition getStoredSession : M (option StoredSession) :=
  let* consent := hasAnalyticsConsent in
  if negb consent then
    let* session := get tempSession in
    ret (Session <$> session)
  else
    try_catch
      (let* stored := localStorage_getItem STORAGE_KEYS_SESSION in
       match stored with
       | None => ret None
       | Some text =>
           if String.eqb text "" then ret None
           else parse_stored text
       end)
      (ret None).

Definition saveSession (session : SessionData) : M unit :=
  let* consent := hasAnalyticsConsent in
  if negb consent then modify (set_tempSession (Some session))
  else
    try_catch
      (localStorage_setItem STORAGE_KEYS_SESSION (JSON_stringify session);;
       modify (set_tempSession (Some session)))
      (ret ()).

(** On a primitive [session.last_activity_at] is [undefined], the time
    since it is [NaN], and [NaN > SESSION_TIMEOUT_MS] is [false]. *)
Definition isSessionExpired (session : StoredSession) : M bool :=
  match session with
  | Session session =>
      let lastActivity := last_activity_at session in
      let* now := get Date_now in
      let timeSinceActivity := now - lastActivity in
      ret (bool_decide (timeSinceActivity > SESSION_TIMEOUT_MS))
  | Primitive _ =>
      let* now := get Date_now in
      ret false
  end.

Definition createNewSession : M SessionData :=
  let* now := get Date_now in
  let* visitorId := getVisitorId in
  let* sessionId := generateUUID in
  let session :=
    {| session_id := sessionId;
       visitor_id := visitorId;
       created_at := now;
       last_activity_at := now;
       page_views := 0 |} in
  saveSession session;;
  ret session.

(** The module is strict code: on a primitive the assignment
    [session.last_activity_at = ...] throws a [TypeError]. *)
Definition updateSessionActivity (session : StoredSession) : M SessionData :=
  match session with
  | Session session =>
      let* now := get Date_now in
      let session :=
        {| session_id := session_id session;
           visitor_id := visitor_id session;
           created_at := created_at session;
           last_activity_at := now;
           page_views := page_views session + 1 |} in
      saveSession session;;
      ret session
  | Primitive _ =>
      let* now := get Date_now in
      throw
  end.

Definition getSessionId : M string :=
  let* session := getStoredSession in
  match session with
  | None =>
      let* s := createNewSession in ret (session_id s)
  | Some session =>
      if negb (is_truthy session) then
        let* s := createNewSession in ret (session_id s)
      else
        let* expired := isSessionExpired session in
        if expired then
          let* s := createNewSession in ret (session_id s)
        else
          let* s := updateSessionActivity session in
          ret (session_id s)
  end.

Definition getSession : M (option SessionData) :=
  let* session := getStoredSession in
  match session with
  | None =>
      let* s := createNewSession in ret (Some s)
  | Some session =>
      if negb (is_truthy session) then
        let* s := createNewSession in ret (Some s)
      else
        let* expired := isSessionExpired session in
        if expired then
          let* s := createNewSession in ret (Some s)
        else
          let* s := updateSessionActivity session in
          ret (Some s)
  end.

Definition clearSession : M unit :=
  modify (set_tempSession None);;
  try_catch (localStorage_removeItem STORAGE_KEYS_SESSION) (ret ()).

Definition clearAllTrackingData : M unit :=
  modify (set_tempVisitorId None);;
  modify (set_tempSession None);;
  try_catch
    (localStorage_removeItem STORAGE_KEYS_SESSION;;
     localStorage_removeItem STORAGE_KEYS_VISITOR)
    (ret ()).

Definition initSession : M unit :=
  let* consent := hasAnalyticsConsent in
  if negb consent then ret ()
  else getSession;; ret ().

(** ** Transport and event builder ([tracking/core/api]) *)

Definition track_event_endpoint (config : RequiredTrackerConfig) : string :=
  apiUrl config +:+ "/functions/v1/track-event".

(** [fetch(url, init)] and [navigator.sendBeacon(url, blob)]: the request is
    handed to the network.  What the server answers only reaches the console
    in [sendEvent]; [toggleFavourite] below takes the answer as an argument. *)
Definition hand_over (r : Request) : M unit :=
  modify (λ w, set_network (network w ++ [r]) w).

Definition sendEvent (config : RequiredTrackerConfig) (payload : EventData)
  : M unit :=
  try_catch
    (hand_over {| req_transport := ViaFetch;
                  req_endpoint := track_event_endpoint config;
                  req_api_key := apiKey config;
                  req_body := EventBody payload |})
    (ret ()).

(** [eventData?.k] *)
Definition opt_get (k : string) (eventData : option jsobj) : jsval :=
  match eventData with
  | None => VUndef
  | Some o => obj_get k o
  end.

Definition promote_ids (eventData : option jsobj) (payload : EventData)
  : EventData :=
  {| event_type := event_type payload;
     ev_session_id := ev_session_id payload;
     ev_visitor_id := ev_visitor_id payload;
     page_url := page_url payload;
     page_title := page_title payload;
     referrer := referrer payload;
     property_id :=
       (if truthy (opt_get "property_id" eventData)
        then opt_get "property_id" eventData else property_id payload);
     article_id :=
       (if truthy (opt_get "article_id" eventData)
        then opt_get "article_id" eventData else article_id payload);
     event_data := event_data payload |}.

Definition sendBeacon (config : RequiredTrackerConfig) (eventType : string)
    (eventData : option jsobj) : M unit :=
  let* sessionId := getSessionId in
  let* visitorId := getVisitorId in
  let* href := get (λ w, location_href (browser w)) in
  let* title := get (λ w, document_title (browser w)) in
  let payload :=
    promote_ids eventData
      {| event_type := eventType;
         ev_session_id := sessionId;
         ev_visitor_id := visitorId;
         page_url := href;
         page_title := Some title;
         referrer := None;
         property_id := VUndef;
         article_id := VUndef;
         event_data := eventData |} in
  let* has_beacon := get (λ w, navigator_sendBeacon (browser w)) in
  if has_beacon then
    hand_over {| req_transport := ViaBeacon;
                 req_endpoint := track_event_endpoint config;
                 req_api_key := apiKey config;
                 req_body := EventBody payload |}
  else sendEvent config payload.

Definition buildEventPayload (eventType : string) (eventData : option jsobj)
  : M EventData :=
  let* sessionId := getSessionId in
  let* visitorId := getVisitorId in
  let* href := get (λ w, location_href (browser w)) in
  let* title := get (λ w, document_title (browser w)) in
  let* ref := get (λ w, document_referrer (browser w)) in
  ret (promote_ids eventData
         {| event_type := eventType;
            ev_session_id := sessionId;
            ev_visitor_id := visitorId;
            page_url := href;
            page_title := Some title;
            referrer := (if String.eqb ref "" then None else Some ref);
            property_id := VUndef;
            article_id := VUndef;
            event_data := eventData |}).

(** [window.location.href] as an event field. *)
Definition href_val (w : World) : jsval := VStr (location_href (browser w)).

(** [document.referrer || undefined] as an event field. *)
Definition referrer_val (w : World) : jsval :=
  if String.eqb (document_referrer (browser w)) "" then VUndef
  else VStr (document_referrer (browser w)).

(** [Math.floor((Date.now() - start) / 1000)] *)
Definition seconds_since (start : Z) : M Z :=
  let* now := get Date_now in ret ((now - start) `div` 1000).

End Tracking.

(** ** Page and session-end tracking ([tracking/modules/page]) *)

Module pageTracking.
Section pageTracking.
Context `{!JSON ConsentStatus, !JSON SessionData}.

Definition trackPageView (config : RequiredTrackerConfig)
    (additionalData : option jsobj) : M unit :=
  let* href := get href_val in
  let* title := get (λ w, VStr (document_title (browser w))) in
  let* ref := get referrer_val in
  let* sw := get (λ w, VNum (screen_width (browser w))) in
  let* sh := get (λ w, VNum (screen_height (browser w))) in
  let* vw := get (λ w, VNum (innerWidth (browser w))) in
  let* vh := get (λ w, VNum (innerHeight (browser w))) in
  let* payload :=
    buildEventPayload "page_view"
      (Some (spread_opt
               [("page_url", href); ("page_title", title); ("referrer", ref);
                ("screen_width", sw); ("screen_height", sh);
                ("viewport_width", vw); ("viewport_height", vh)]
               additionalData)) in
  sendEvent config payload.

(** Disabled in the source: the body is empty. *)
Definition setupPageExitTracking (config : RequiredTrackerConfig) : M unit :=
  ret ().

Definition trackSessionEnd (config : RequiredTrackerConfig)
    (sessionStartTime : Z) (additionalData : option jsobj) : M unit :=
  let* durationSeconds :=
    (if Z.eqb sessionStartTime 0 then ret 0
     else seconds_since sessionStartTime) in
  let* href := get href_val in
  sendBeacon config "session_end"
    (Some (spread_opt
             [("duration_seconds", VNum durationSeconds); ("page_url", href)]
             additionalData)).

End pageTracking.
End pageTracking.

(** ** Property tracking ([tracking/modules/property]) *)

#[export] Instance EventName_eq_dec : EqDecision EventName.
Proof. solve_decision. Defined.

#[export] Instance Listener_eq_dec : EqDecision Listener.
Proof. solve_decision. Defined.

(** [target.addEventListener(name, l)] *)
Definition addEventListener (name : EventName) (l : Listener) : M unit :=
  modify (λ w, set_listeners (listeners w ++ [(name, l)]) w).

(** [target.removeEventListener(name, l)] *)
Definition removeEventListener (name : EventName) (l : Listener) : M unit :=
  modify (λ w, set_listeners
                 (filter (λ r, r ≠ (name, l)) (listeners w)) w).

Module propertyTracking.
Section propertyTracking.
Context `{!JSON ConsentStatus, !JSON SessionData}.

Definition trackPropertyView (config : RequiredTrackerConfig)
    (propertyId : string) (additionalData : option jsobj) : M unit :=
  let* href := get href_val in
  let* payload :=
    buildEventPayload "property_view"
      (Some (spread_opt
               [("property_id", VStr propertyId); ("page_url", href)]
               additionalData)) in
  sendEvent config payload.

Definition trackPropertyDuration (config : RequiredTrackerConfig)
    (propertyId : string) (startTime : Z) : M unit :=
  if Z.eqb startTime 0 then ret ()
  else
    let* duration := seconds_since startTime in
    if bool_decide (duration < 3) then ret ()
    else
      let* href := get href_val in
      sendBeacon config "property_view"
        (Some [("property_id", VStr propertyId);
               ("view_duration_seconds", VNum duration);
               ("page_url", href)]).

(** The module variables [propertyDurationHandler] and
    [propertyVisibilityHandler] hold the closures made for the property in
    [currentPropertyDurationTracking]; they are [null] exactly when it is. *)
Definition setupPropertyDurationTracking (propertyId : string) : M unit :=
  let* current := get currentPropertyDurationTracking in
  if bool_decide (current = Some propertyId) then ret ()
  else
    match current with
    | Some previous =>
        removeEventListener beforeunload (propertyDurationHandler previous);;
        removeEventListener pagehide (propertyDurationHandler previous);;
        removeEventListener visibilitychange
          (propertyVisibilityHandler previous)
    | None => ret ()
    end;;
    modify (set_currentPropertyDurationTracking (Some propertyId));;
    addEventListener beforeunload (propertyDurationHandler propertyId);;
    addEventListener pagehide (propertyDurationHandler propertyId);;
    addEventListener visibilitychange (propertyVisibilityHandler propertyId).

Definition trackVirtualTourClick (config : RequiredTrackerConfig)
    (propertyId : string) (tourType : option string) : M unit :=
  let* href := get href_val in
  let* payload :=
    buildEventPayload "virtual_tour_click"
      (Some [("property_id", VStr propertyId);
             ("tour_type", of_opt_str tourType);
             ("page_url", href)]) in
  sendEvent config payload.

Definition trackMapView (config : RequiredTrackerConfig)
    (propertyId : string) (mapAction : option string) : M unit :=
  let* href := get href_val in
  let* payload :=
    buildEventPayload "map_view"
      (Some [("property_id", VStr propertyId);
             ("map_action", of_opt_str mapAction);
             ("page_url", href)]) in
  sendEvent config payload.

Definition trackGalleryView (config : RequiredTrackerConfig)
    (propertyId : string) (imageIndex totalImages : jsval) : M unit :=
  let* href := get href_val in
  let* payload :=
    buildEventPayload "gallery_view"
      (Some [("property_id", VStr propertyId);
             ("image_index", imageIndex);
             ("total_images", totalImages);
             ("page_url", href)]) in
  sendEvent config payload.

Definition trackSimilarPropertiesClick (config : RequiredTrackerConfig)
    (propertyId clickedPropertyId : string) (position : jsval) : M unit :=
  let* href := get href_val in
  let* payload :=
    buildEventPayload "similar_properties_click"
      (Some [("property_id", VStr propertyId);
             ("clicked_property_id", VStr clickedPropertyId);
             ("position", position);
             ("page_url", href)]) in
  sendEvent config payload.

End propertyTracking.
End propertyTracking.

(** ** Blog tracking ([tracking/modules/blog]) *)

Module blogTracking.
Section blogTracking.
Context `{!JSON ConsentStatus, !JSON SessionData}.

Definition trackBlogView (config : RequiredTrackerConfig)
    (articleId : string) (additionalData : option jsobj) : M unit :=
  let* href := get href_val in
  let* payload :=
    buildEventPayload "blog_view"
      (Some (spread_opt
               [("article_id", VStr articleId); ("page_url", href)]
               additionalData)) in
  sendEvent config payload.

Definition trackBlogDuration (config : RequiredTrackerConfig)
    (articleId : string) (startTime maxScrollDepth : Z) : M unit :=
  if Z.eqb startTime 0 then ret ()
  else
    let* duration := seconds_since startTime in
    if bool_decide (duration < 5) then ret ()
    else
      let* href := get href_val in
      sendBeacon config "blog_read_time"
        (Some [("article_id", VStr articleId);
               ("read_duration_seconds", VNum duration);
               ("max_scroll_depth", VNum maxScrollDepth);
               ("page_url", href)]).

(** The getters and [config] are the facade's; the registered closures are
    the [blogTrackDuration] and [blogVisibilityHandler] listeners, which read
    the scroll depth from the variable [cell] of the scroll tracker. *)
Definition setupBlogDurationTracking (articleId : string) (cell : nat)
  : M unit :=
  addEventListener beforeunload (blogTrackDuration articleId cell);;
  addEventListener pagehide (blogTrackDuration articleId cell);;
  addEventListener visibilitychange (blogVisibilityHandler articleId cell).

Definition milestones : list Z := [25; 50; 75; 100].

(** The double nearest to [n / d], ties to even, for positive [n] and [d]:
    a mantissa [m] of 53 bits and an exponent [e], the double being
    [m * 2 ^ e].  This is what [/] and [*] compute on doubles, which whole
    numbers below 2^53 are. *)
Definition nearest_double (n d : Z) : Z * Z :=
  let scaled (e : Z) : Z * Z :=
    if 0 <=? e then (n, d * 2 ^ e) else (n * 2 ^ (- e), d) in
  let e0 := Z.log2 n - Z.log2 d - 52 in
  let e := if (scaled e0).1 <? (scaled e0).2 * 2 ^ 52 then e0 - 1 else e0 in
  let a := (scaled e).1 in
  let b := (scaled e).2 in
  let q := a `div` b in
  let r := a `mod` b in
  let m := if 2 * r <? b then q
           else if b <? 2 * r then q + 1
           else if Z.even q then q else q + 1 in
  (m, e).

(** [docHeight > 0 ? Math.round((scrollTop / docHeight) * 100) : 0] on
    whole numbers of pixels: the quotient [x] and the product [y] are
    rounded to doubles, and [Math.round] rounds [y] to the nearest whole
    number, a half upwards. *)
Definition scrollPercent (scrollTop docHeight : Z) : Z :=
  if bool_decide (docHeight > 0) then
    if Z.eqb scrollTop 0 then 0
    else
      let x := nearest_double (Z.abs scrollTop) docHeight in
      let y := if 0 <=? x.2
               then nearest_double (100 * x.1 * 2 ^ x.2) 1
               else nearest_double (100 * x.1) (2 ^ (- x.2)) in
      let num := if 0 <=? y.2 then y.1 * 2 ^ y.2 else y.1 in
      let den := if 0 <=? y.2 then 1 else 2 ^ (- y.2) in
      if 0 <? scrollTop then (2 * num + den) `div` (2 * den)
      else (- 2 * num + den) `div` (2 * den)
  else 0.

(** The closure [trackScroll]; its variable [maxScrollDepth] goes in and
    comes out. *)
Definition trackScroll (config : RequiredTrackerConfig) (articleId : string)
    (maxScrollDepth : Z) (scrollTop docHeight : Z) : M Z :=
  let percent := scrollPercent scrollTop docHeight in
  let currentMilestone :=
    find (λ m, bool_decide (percent >= m) && bool_decide (maxScrollDepth < m))
         milestones in
  match currentMilestone with
  | Some m =>
      if negb (Z.eqb m 0) && bool_decide (percent > maxScrollDepth) then
        let* href := get href_val in
        let* payload :=
          buildEventPayload "blog_scroll_depth"
            (Some [("article_id", VStr articleId);
                   ("scroll_depth", VNum m);
                   ("page_url", href)]) in
        sendEvent config payload;;
        ret percent
      else if bool_decide (percent > maxScrollDepth) then ret percent
      else ret maxScrollDepth
  | None =>
      if bool_decide (percent > maxScrollDepth) then ret percent
      else ret maxScrollDepth
  end.

(** Allocates the closure variable, registers the scroll listener and
    returns the variable, which is what [getMaxScrollDepth] reads. *)
Definition setupScrollDepthTracking (articleId : string) : M nat :=
  let* cell := get (λ w, length (scroll_cells w)) in
  modify (λ w, set_scroll_cells (scroll_cells w ++ [0]) w);;
  addEventListener scroll (trackScrollHandler articleId cell);;
  ret cell.

Definition trackBlogShare (config : RequiredTrackerConfig)
    (articleId shareMethod : string) : M unit :=
  let* href := get href_val in
  let* payload :=
    buildEventPayload "blog_share"
      (Some [("article_id", VStr articleId);
             ("share_method", VStr shareMethod);
             ("page_url", href)]) in
  sendEvent config payload.

Definition trackBlogLinkClick (config : RequiredTrackerConfig)
    (articleId linkUrl : string) (linkText : option string) : M unit :=
  let* href := get href_val in
  let* payload :=
    buildEventPayload "blog_link_click"
      (Some [("article_id", VStr articleId);
             ("link_url", VStr linkUrl);
             ("link_text", of_opt_str linkText);
             ("page_url", href)]) in
  sendEvent config payload.

Definition trackRelatedArticleClick (config : RequiredTrackerConfig)
    (articleId relatedArticleId : string)
    (relatedArticleTitle : option string) : M unit :=
  let* href := get href_val in
  let* payload :=
    buildEventPayload "blog_related_click"
      (Some [("article_id", VStr articleId);
             ("related_article_id", VStr relatedArticleId);
             ("related_article_title", of_opt_str relatedArticleTitle);
             ("page_url", href)]) in
  sendEvent config payload.

End blogTracking.
End blogTracking.

(** ** Interaction tracking ([tracking/modules/interactions]) *)

Module interactionTracking.
Section interactionTracking.
Context `{!JSON ConsentStatus, !JSON SessionData}.

Definition trackPhoneClick (config : RequiredTrackerConfig)
    (phoneNumber : option string) : M unit :=
  let* href := get href_val in
  let* payload :=
    buildEventPayload "phone_click"
      (Some [("phone_number", of_opt_str phoneNumber); ("page_url", href)]) in
  sendEvent config payload.

Definition trackEmailClick (config : RequiredTrackerConfig)
    (email : option string) : M unit :=
  let* href := get href_val in
  let* payload :=
    buildEventPayload "email_click"
      (Some [("email_address", of_opt_str email); ("page_url", href)]) in
  sendEvent config payload.

Definition trackSearch (config : RequiredTrackerConfig)
    (searchData : jsobj) : M unit :=
  let* href := get href_val in
  sendBeacon config "search"
    (Some [("page_url", href); ("search_params", VObj searchData)]).

Definition trackFilterChange (config : RequiredTrackerConfig)
    (filterName : string) (filterValue : jsval) : M unit :=
  let* href := get href_val in
  let* payload :=
    buildEventPayload "filter_change"
      (Some [("page_url", href);
             ("filter_name", VStr filterName);
             ("filter_value", filterValue)]) in
  sendEvent config payload.

Definition trackCtaClick (config : RequiredTrackerConfig)
    (ctaName : string) (ctaData : option jsobj) : M unit :=
  let* href := get href_val in
  let* payload :=
    buildEventPayload "cta_click"
      (Some (spread_opt
               [("page_url", href); ("cta_name", VStr ctaName)] ctaData)) in
  sendEvent config payload.

Definition trackShare (config : RequiredTrackerConfig)
    (propertyId shareMethod : string) : M unit :=
  let* href := get href_val in
  let* payload :=
    buildEventPayload "share"
      (Some [("property_id", VStr propertyId);
             ("share_method", VStr shareMethod);
             ("page_url", href)]) in
  sendEvent config payload.

End interactionTracking.
End interactionTracking.

(** ** Enquiry tracking ([tracking/modules/enquiry]) *)

Module enquiryTracking.
Section enquiryTracking.
Context `{!JSON ConsentStatus, !JSON SessionData}.

Definition trackEnquiryStarted (config : RequiredTrackerConfig)
    (enquiryData : option jsobj) : M unit :=
  let* href := get href_val in
  let* payload :=
    buildEventPayload "enquiry_started"
      (Some [("property_id", opt_get "property_id" enquiryData);
             ("enquiry_type",
              js_or (opt_get "enquiry_type" enquiryData) (VStr "general"));
             ("form_location", opt_get "form_location" enquiryData);
             ("page_url", href)]) in
  sendEvent config payload.

Definition trackEnquirySubmitted (config : RequiredTrackerConfig)
    (enquiryData : option jsobj) : M unit :=
  let* href := get href_val in
  let* payload :=
    buildEventPayload "enquiry_submitted"
      (Some [("property_id", opt_get "property_id" enquiryData);
             ("enquiry_type",
              js_or (opt_get "enquiry_type" enquiryData) (VStr "general"));
             ("form_location", opt_get "form_location" enquiryData);
             ("has_phone", opt_get "has_phone" enquiryData);
             ("has_message", opt_get "has_message" enquiryData);
             ("page_url", href)]) in
  sendEvent config payload.

End enquiryTracking.
End enquiryTracking.

(** ** Favourites ([tracking/modules/favourites]) *)

(** What [await fetch(...)] brings: the request fails, or a response whose
    [json()] yields a value or rejects ([None]). *)
Inductive HttpOutcome :=
  | NetworkError
  | Response (ok : bool) (json : option jsval).

(** [await response.json()] *)
Definition response_json (json : option jsval) : M jsval :=
  match json with
  | Some v => ret v
  | None => throw
  end.

(** [v.k]: a [TypeError] on [null] and [undefined], [undefined] on the other
    primitives. *)
Definition prop (v : jsval) (k : string) : M jsval :=
  match v with
  | VUndef | VNull => throw
  | VObj o => ret (obj_get k o)
  | _ => ret VUndef
  end.

Definition not_favourited : ToggleFavouriteResult :=
  {| is_favourited := VBool false; count := VNum 0 |}.

Module favouritesModule.
Section favouritesModule.
Context `{!JSON ConsentStatus, !JSON SessionData}.

Definition toggleFavourite (config : RequiredTrackerConfig)
    (propertyId source : string) (http : HttpOutcome)
  : M ToggleFavouriteResult :=
  let* visitorId := getVisitorId in
  let* sessionId := getSessionId in
  try_catch
    (hand_over
       {| req_transport := ViaFetch;
          req_endpoint := apiUrl config +:+ "/functions/v1/toggle-favourite";
          req_api_key := apiKey config;
          req_body := FavouriteBody visitorId sessionId propertyId source |};;
     match http with
     | NetworkError => throw
     | Response ok json =>
         if negb ok then
           let* error := response_json json in
           ret not_favourited
         else
           let* result := response_json json in
           let* favourited := prop result "is_favourited" in
           let* payload :=
             buildEventPayload
               (if truthy favourited then "property_favourited"
                else "property_unfavourited")
               (Some [("property_id", VStr propertyId);
                      ("source", VStr source)]) in
           sendEvent config payload;;
           let* n := prop result "count" in
           ret {| is_favourited := favourited;
                  count := js_or n (VNum 0) |}
     end)
    (ret not_favourited).

End favouritesModule.
End favouritesModule.

(** ** The facade ([tracking/core/StratosTracker]) *)

(** The fields of a [StratosTracker] object.  [previousConsent] is the
    variable [previousConsent.value] that the consent listener of this object
    closes over. *)
Record StratosTracker := {
  config : RequiredTrackerConfig;
  pageLoadTime : Z;
  propertyViewStartTime : Z;
  blogViewStartTime : Z;
  maxScrollDepth : Z;
  sessionStartTime : Z;
  isInitialized : bool;
  consentGiven : bool;
  previousConsent : bool
}.

(** [TrackerConfig]: the two flags are optional.  [None] is a key that is
    absent, [Some None] one that is present and [undefined]. *)
Record TrackerConfig := {
  tc_apiUrl : string;
  tc_apiKey : string;
  tc_trackingEnabled : option (option bool);
  tc_debug : option (option bool)
}.

(** [{ flag: d, ...config }.flag] read as a boolean: a key that is present
    overrides the default, also with [undefined], which is falsy. *)
Definition spread_flag (d : bool) (o : option (option bool)) : bool :=
  match o with
  | None => d
  | Some None => false
  | Some (Some b) => b
  end.

(** What the environment can do to a page. *)
Inductive DomEvent :=
  | Ev_cookieConsentUpdated (detail : jsval)
  | Ev_beforeunload
  | Ev_pagehide
  | Ev_visibilitychange (hidden : bool)
  | Ev_scroll (scrollTop docHeight : Z).

Definition event_name (e : DomEvent) : EventName :=
  match e with
  | Ev_cookieConsentUpdated _ => cookieConsentUpdated
  | Ev_beforeunload => beforeunload
  | Ev_pagehide => pagehide
  | Ev_visibilitychange _ => visibilitychange
  | Ev_scroll _ _ => scroll
  end.

Module Tracker.
Section Tracker.
Context `{!JSON ConsentStatus, !JSON SessionData}.

Definition set_config (c : RequiredTrackerConfig) (this : StratosTracker)
  : StratosTracker :=
  {| config := c; pageLoadTime := pageLoadTime this;
     propertyViewStartTime := propertyViewStartTime this;
     blogViewStartTime := blogViewStartTime this;
     maxScrollDepth := maxScrollDepth this;
     sessionStartTime := sessionStartTime this;
     isInitialized := isInitialized this; consentGiven := consentGiven this;
     previousConsent := previousConsent this |}.

Definition set_propertyViewStartTime (t : Z) (this : StratosTracker)
  : StratosTracker :=
  {| config := config this; pageLoadTime := pageLoadTime this;
     propertyViewStartTime := t;
     blogViewStartTime := blogViewStartTime this;
     maxScrollDepth := maxScrollDepth this;
     sessionStartTime := sessionStartTime this;
     isInitialized := isInitialized this; consentGiven := consentGiven this;
     previousConsent := previousConsent this |}.

Definition set_blogViewStartTime (t : Z) (this : StratosTracker)
  : StratosTracker :=
  {| config := config this; pageLoadTime := pageLoadTime this;
     propertyViewStartTime := propertyViewStartTime this;
     blogViewStartTime := t;
     maxScrollDepth := maxScrollDepth this;
     sessionStartTime := sessionStartTime this;
     isInitialized := isInitialized this; consentGiven := consentGiven this;
     previousConsent := previousConsent this |}.

Definition set_maxScrollDepth (d : Z) (this : StratosTracker)
  : StratosTracker :=
  {| config := config this; pageLoadTime := pageLoadTime this;
     propertyViewStartTime := propertyViewStartTime this;
     blogViewStartTime := blogViewStartTime this;
     maxScrollDepth := d;
     sessionStartTime := sessionStartTime this;
     isInitialized := isInitialized this; consentGiven := consentGiven this;
     previousConsent := previousConsent this |}.

Definition set_isInitialized (b : bool) (this : StratosTracker)
  : StratosTracker :=
  {| config := config this; pageLoadTime := pageLoadTime this;
     propertyViewStartTime := propertyViewStartTime this;
     blogViewStartTime := blogViewStartTime this;
     maxScrollDepth := maxScrollDepth this;
     sessionStartTime := sessionStartTime this;
     isInitialized := b; consentGiven := consentGiven this;
     previousConsent := previousConsent this |}.

Definition set_consentGiven (b : bool) (this : StratosTracker)
  : StratosTracker :=
  {| config := config this; pageLoadTime := pageLoadTime this;
     propertyViewStartTime := propertyViewStartTime this;
     blogViewStartTime := blogViewStartTime this;
     maxScrollDepth := maxScrollDepth this;
     sessionStartTime := sessionStartTime this;
     isInitialized := isInitialized this; consentGiven := b;
     previousConsent := previousConsent this |}.

Definition set_previousConsent (b : bool) (this : StratosTracker)
  : StratosTracker :=
  {| config := config this; pageLoadTime := pageLoadTime this;
     propertyViewStartTime := propertyViewStartTime this;
     blogViewStartTime := blogViewStartTime this;
     maxScrollDepth := maxScrollDepth this;
     sessionStartTime := sessionStartTime this;
     isInitialized := isInitialized this; consentGiven := consentGiven this;
     previousConsent := b |}.

(** [this.pageLoadTime = Date.now(); this.sessionStartTime = Date.now();
     this.isInitialized = true] *)
Definition started (t : Z) (this : StratosTracker) : StratosTracker :=
  {| config := config this; pageLoadTime := t;
     propertyViewStartTime := propertyViewStartTime this;
     blogViewStartTime := blogViewStartTime this;
     maxScrollDepth := maxScrollDepth this;
     sessionStartTime := t;
     isInitialized := true; consentGiven := consentGiven this;
     previousConsent := previousConsent this |}.

(** [new StratosTracker(config)] *)
Definition new (c : TrackerConfig) : M StratosTracker :=
  let* consent := hasAnalyticsConsent in
  addEventListener cookieConsentUpdated consentListener;;
  ret {| config :=
           {| apiUrl := tc_apiUrl c; apiKey := tc_apiKey c;
              trackingEnabled := spread_flag true (tc_trackingEnabled c);
              debug := spread_flag false (tc_debug c) |};
         pageLoadTime := 0; propertyViewStartTime := 0;
         blogViewStartTime := 0; maxScrollDepth := 0; sessionStartTime := 0;
         isInitialized := false; consentGiven := consent;
         previousConsent := consent |}.

Definition canTrack (this : StratosTracker) : bool :=
  trackingEnabled (config this) && consentGiven this.

Definition hasConsent (this : StratosTracker) : bool := consentGiven this.

Definition setupAutomaticTracking (this : StratosTracker) : M unit :=
  pageTracking.setupPageExitTracking (config this).

Definition init (this : StratosTracker) : M StratosTracker :=
  if negb (consentGiven this) then ret this
  else if isInitialized this then ret this
  else
    let* now := get Date_now in
    let this := started now this in
    setupAutomaticTracking this;;
    ret this.

Definition setConsent (hasConsent : bool) (this : StratosTracker)
  : M StratosTracker :=
  let previous := consentGiven this in
  let this := set_consentGiven hasConsent this in
  if hasConsent && negb previous then
    initSession;; init this
  else if negb hasConsent then
    clearAllTrackingData;; ret (set_isInitialized false this)
  else ret this.

Definition trackPageView (additionalData : option jsobj)
    (this : StratosTracker) : M StratosTracker :=
  if negb (canTrack this) then ret this
  else pageTracking.trackPageView (config this) additionalData;; ret this.

Definition trackPropertyView (propertyId : string)
    (additionalData : option jsobj) (this : StratosTracker)
  : M StratosTracker :=
  if negb (canTrack this) then ret this
  else
    let* now := get Date_now in
    let this := set_propertyViewStartTime now this in
    propertyTracking.trackPropertyView (config this) propertyId additionalData;;
    ret this.

Definition trackPropertyDuration (propertyId : string)
    (this : StratosTracker) : M StratosTracker :=
  if negb (trackingEnabled (config this))
     || Z.eqb (propertyViewStartTime this) 0
  then ret this
  else
    propertyTracking.trackPropertyDuration (config this) propertyId
      (propertyViewStartTime this);;
    ret this.

Definition setupPropertyDurationTracking (propertyId : string)
    (this : StratosTracker) : M StratosTracker :=
  let* now := get Date_now in
  let this := set_propertyViewStartTime now this in
  propertyTracking.setupPropertyDurationTracking propertyId;;
  ret this.

Definition trackVirtualTourClick (propertyId : string)
    (tourType : option string) (this : StratosTracker) : M StratosTracker :=
  if negb (canTrack this) then ret this
  else
    propertyTracking.trackVirtualTourClick (config this) propertyId tourType;;
    ret this.

Definition trackMapView (propertyId : string) (mapAction : option string)
    (this : StratosTracker) : M StratosTracker :=
  if negb (canTrack this) then ret this
  else
    propertyTracking.trackMapView (config this) propertyId mapAction;;
    ret this.

Definition trackGalleryView (propertyId : string)
    (imageIndex totalImages : jsval) (this : StratosTracker)
  : M StratosTracker :=
  if negb (canTrack this) then ret this
  else
    propertyTracking.trackGalleryView (config this) propertyId
      imageIndex totalImages;;
    ret this.

Definition trackSimilarPropertiesClick (propertyId clickedPropertyId : string)
    (position : jsval) (this : StratosTracker) : M StratosTracker :=
  if negb (canTrack this) then ret this
  else
    propertyTracking.trackSimilarPropertiesClick (config this) propertyId
      clickedPropertyId position;;
    ret this.

Definition trackBlogView (articleId : string) (additionalData : option jsobj)
    (this : StratosTracker) : M StratosTracker :=
  if negb (canTrack this) then ret this
  else
    let* now := get Date_now in
    let this := set_maxScrollDepth 0 (set_blogViewStartTime now this) in
    blogTracking.trackBlogView (config this) articleId additionalData;;
    ret this.

Definition trackBlogDuration (articleId : string) (this : StratosTracker)
  : M StratosTracker :=
  if negb (trackingEnabled (config this))
     || Z.eqb (blogViewStartTime this) 0
  then ret this
  else
    blogTracking.trackBlogDuration (config this) articleId
      (blogViewStartTime this) (maxScrollDepth this);;
    ret this.

Definition setupBlogDurationTracking (articleId : string)
    (this : StratosTracker) : M StratosTracker :=
  let* now := get Date_now in
  let this := set_maxScrollDepth 0 (set_blogViewStartTime now this) in
  let* cell := blogTracking.setupScrollDepthTracking articleId in
  blogTracking.setupBlogDurationTracking articleId cell;;
  ret this.

Definition trackBlogShare (articleId shareMethod : string)
    (this : StratosTracker) : M StratosTracker :=
  if negb (canTrack this) then ret this
  else
    blogTracking.trackBlogShare (config this) articleId shareMethod;;
    ret this.

Definition trackBlogLinkClick (articleId linkUrl : string)
    (linkText : option string) (this : StratosTracker) : M StratosTracker :=
  if negb (canTrack this) then ret this
  else
    blogTracking.trackBlogLinkClick (config this) articleId linkUrl linkText;;
    ret this.

Definition trackRelatedArticleClick (articleId relatedArticleId : string)
    (relatedArticleTitle : option string) (this : StratosTracker)
  : M StratosTracker :=
  if negb (canTrack this) then ret this
  else
    blogTracking.trackRelatedArticleClick (config this) articleId
      relatedArticleId relatedArticleTitle;;
    ret this.

Definition trackPhoneClick (phoneNumber : option string)
    (this : StratosTracker) : M StratosTracker :=
  if negb (canTrack this) then ret this
  else
    interactionTracking.trackPhoneClick (config this) phoneNumber;; ret this.

Definition trackEmailClick (email : option string) (this : StratosTracker)
  : M StratosTracker :=
  if negb (canTrack this) then ret this
  else interactionTracking.trackEmailClick (config this) email;; ret this.

Definition trackSearch (searchData : jsobj) (this : StratosTracker)
  : M StratosTracker :=
  if negb (canTrack this) then ret this
  else interactionTracking.trackSearch (config this) searchData;; ret this.

Definition trackFilterChange (filterName : string) (filterValue : jsval)
    (this : StratosTracker) : M StratosTracker :=
  if negb (canTrack this) then ret this
  else
    interactionTracking.trackFilterChange (config this) filterName
      filterValue;;
    ret this.

Definition trackCtaClick (ctaName : string) (ctaData : option jsobj)
    (this : StratosTracker) : M StratosTracker :=
  if negb (canTrack this) then ret this
  else
    interactionTracking.trackCtaClick (config this) ctaName ctaData;;
    ret this.

Definition trackShare (propertyId shareMethod : string)
    (this : StratosTracker) : M StratosTracker :=
  if negb (canTrack this) then ret this
  else
    interactionTracking.trackShare (config this) propertyId shareMethod;;
    ret this.

Definition trackEnquiryStarted (enquiryData : option jsobj)
    (this : StratosTracker) : M StratosTracker :=
  if negb (canTrack this) then ret this
  else
    enquiryTracking.trackEnquiryStarted (config this) enquiryData;; ret this.

Definition trackEnquirySubmitted (enquiryData : option jsobj)
    (this : StratosTracker) : M StratosTracker :=
  if negb (canTrack this) then ret this
  else
    enquiryTracking.trackEnquirySubmitted (config this) enquiryData;;
    ret this.

Definition trackSessionEnd (additionalData : option jsobj)
    (this : StratosTracker) : M StratosTracker :=
  if negb (trackingEnabled (config this)) then ret this
  else
    pageTracking.trackSessionEnd (config this) (sessionStartTime this)
      additionalData;;
    ret this.

(** [source] defaults to ['unknown']. *)
Definition toggleFavourite (propertyId : string) (source : option string)
    (http : HttpOutcome) (this : StratosTracker) : M ToggleFavouriteResult :=
  if negb (canTrack this) then ret not_favourited
  else
    favouritesModule.toggleFavourite (config this) propertyId
      (default "unknown" source) http.

Definition trackEvent (eventType : string) (eventData : option jsobj)
    (this : StratosTracker) : M StratosTracker :=
  if negb (canTrack this) then ret this
  else
    let* payload := buildEventPayload eventType eventData in
    sendEvent (config this) payload;;
    ret this.

Definition getSessionDuration (this : StratosTracker) : M Z :=
  if Z.eqb (sessionStartTime this) 0 then ret 0
  else seconds_since (sessionStartTime this).

Definition setTrackingEnabled (enabled : bool) (this : StratosTracker)
  : StratosTracker :=
  set_config {| apiUrl := apiUrl (config this); apiKey := apiKey (config this);
                trackingEnabled := enabled; debug := debug (config this) |}
             this.

Definition setDebug (d : bool) (this : StratosTracker) : StratosTracker :=
  set_config {| apiUrl := apiUrl (config this); apiKey := apiKey (config this);
                trackingEnabled := trackingEnabled (config this);
                debug := d |}
             this.

(** [createTracker(config)] *)
Definition createTracker (c : TrackerConfig) : M StratosTracker :=
  let* tracker := new c in init tracker.

(** *** The listeners *)

(** [consent?.analytics === true] *)
Definition detail_analytics (detail : jsval) : bool :=
  match detail with
  | VObj o => match obj_get "analytics" o with VBool b => b | _ => false end
  | _ => false
  end.

Definition onConsentGranted (this : StratosTracker) : M StratosTracker :=
  if negb (previousConsent this) then
    let this := set_previousConsent true (set_consentGiven true this) in
    initSession;;
    let* this := init this in
    trackPageView None this
  else ret this.

Definition onConsentRevoked (this : StratosTracker) : M StratosTracker :=
  if previousConsent this then
    let this := set_previousConsent false (set_consentGiven false this) in
    clearAllTrackingData;;
    ret (set_isInitialized false this)
  else ret this.

(** [document.visibilityState === 'hidden'] when the event is delivered. *)
Definition hidden_at (e : DomEvent) : bool :=
  match e with
  | Ev_visibilitychange hidden => hidden
  | _ => false
  end.

(** The [trackDuration] closure of [blogTracking.setupBlogDurationTracking]
    with the getters that [setupBlogDurationTracking] of the facade passes:
    the second one first copies the scroll tracker's variable into
    [this.maxScrollDepth]. *)
Definition trackDuration (articleId : string) (cell : nat)
    (this : StratosTracker) : M StratosTracker :=
  let startTime := blogViewStartTime this in
  let* depth := get (λ w, default 0 (scroll_cells w !! cell)) in
  let this := set_maxScrollDepth depth this in
  blogTracking.trackBlogDuration (config this) articleId startTime
    (maxScrollDepth this);;
  ret this.

Definition run_listener (l : Listener) (e : DomEvent) (this : StratosTracker)
  : M StratosTracker :=
  match l with
  | consentListener =>
      match e with
      | Ev_cookieConsentUpdated detail =>
          if detail_analytics detail then onConsentGranted this
          else onConsentRevoked this
      | _ => ret this
      end
  | propertyDurationHandler propertyId =>
      propertyTracking.trackPropertyDuration (config this) propertyId
        (propertyViewStartTime this);;
      ret this
  | propertyVisibilityHandler propertyId =>
      if hidden_at e then
        propertyTracking.trackPropertyDuration (config this) propertyId
          (propertyViewStartTime this);;
        ret this
      else ret this
  | blogTrackDuration articleId cell => trackDuration articleId cell this
  | blogVisibilityHandler articleId cell =>
      if hidden_at e then trackDuration articleId cell this else ret this
  | trackScrollHandler articleId cell =>
      match e with
      | Ev_scroll scrollTop docHeight =>
          let* depth := get (λ w, default 0 (scroll_cells w !! cell)) in
          let* depth' :=
            blogTracking.trackScroll (config this) articleId depth
              scrollTop docHeight in
          modify (λ w, set_scroll_cells (<[cell := depth']> (scroll_cells w)) w);;
          ret this
      | _ => ret this
      end
  end.

Fixpoint run_listeners (ls : list (EventName * Listener)) (e : DomEvent)
    (this : StratosTracker) : M StratosTracker :=
  match ls with
  | [] => ret this
  | (name, l) :: ls' =>
      if bool_decide (name = event_name e) then
        let* this := try_catch (run_listener l e this) (ret this) in
        run_listeners ls' e this
      else run_listeners ls' e this
  end.

(** The browser delivers [e]: the listeners registered for it run in the
    order of registration; an exception in one does not stop the others. *)
Definition dispatchEvent (e : DomEvent) (this : StratosTracker)
  : M StratosTracker :=
  let* ls := get listeners in
  run_listeners ls e this.

(** *** The public tracking methods as data *)

Inductive Call :=
  | c_trackPageView (additionalData : option jsobj)
  | c_trackPropertyView (propertyId : string) (additionalData : option jsobj)
  | c_trackPropertyDuration (propertyId : string)
  | c_setupPropertyDurationTracking (propertyId : string)
  | c_trackVirtualTourClick (propertyId : string) (tourType : option string)
  | c_trackMapView (propertyId : string) (mapAction : option string)
  | c_trackGalleryView (propertyId : string) (imageIndex totalImages : jsval)
  | c_trackSimilarPropertiesClick (propertyId clickedPropertyId : string)
      (position : jsval)
  | c_trackBlogView (articleId : string) (additionalData : option jsobj)
  | c_trackBlogDuration (articleId : string)
  | c_setupBlogDurationTracking (articleId : string)
  | c_trackBlogShare (articleId shareMethod : string)
  | c_trackBlogLinkClick (articleId linkUrl : string) (linkText : option string)
  | c_trackRelatedArticleClick (articleId relatedArticleId : string)
      (relatedArticleTitle : option string)
  | c_trackPhoneClick (phoneNumber : option string)
  | c_trackEmailClick (email : option string)
  | c_trackSearch (searchData : jsobj)
  | c_trackFilterChange (filterName : string) (filterValue : jsval)
  | c_trackCtaClick (ctaName : string) (ctaData : option jsobj)
  | c_trackShare (propertyId shareMethod : string)
  | c_trackEnquiryStarted (enquiryData : option jsobj)
  | c_trackEnquirySubmitted (enquiryData : option jsobj)
  | c_trackSessionEnd (additionalData : option jsobj)
  | c_trackEvent (eventType : string) (eventData : option jsobj).

Definition invoke (c : Call) : StratosTracker → M StratosTracker :=
  match c with
  | c_trackPageView d => trackPageView d
  | c_trackPropertyView p d => trackPropertyView p d
  | c_trackPropertyDuration p => trackPropertyDuration p
  | c_setupPropertyDurationTracking p => setupPropertyDurationTracking p
  | c_trackVirtualTourClick p t => trackVirtualTourClick p t
  | c_trackMapView p a => trackMapView p a
  | c_trackGalleryView p i n => trackGalleryView p i n
  | c_trackSimilarPropertiesClick p q n => trackSimilarPropertiesClick p q n
  | c_trackBlogView a d => trackBlogView a d
  | c_trackBlogDuration a => trackBlogDuration a
  | c_setupBlogDurationTracking a => setupBlogDurationTracking a
  | c_trackBlogShare a m => trackBlogShare a m
  | c_trackBlogLinkClick a u t => trackBlogLinkClick a u t
  | c_trackRelatedArticleClick a r t => trackRelatedArticleClick a r t
  | c_trackPhoneClick n => trackPhoneClick n
  | c_trackEmailClick m => trackEmailClick m
  | c_trackSearch d => trackSearch d
  | c_trackFilterChange n v => trackFilterChange n v
  | c_trackCtaClick n d => trackCtaClick n d
  | c_trackShare p m => trackShare p m
  | c_trackEnquiryStarted d => trackEnquiryStarted d
  | c_trackEnquirySubmitted d => trackEnquirySubmitted d
  | c_trackSessionEnd d => trackSessionEnd d
  | c_trackEvent t d => trackEvent t d
  end.

(** The methods whose first statement is [if (!this.canTrack()) return]. *)
Definition guarded_by_canTrack (c : Call) : bool :=
  match c with
  | c_trackPropertyDuration _ | c_setupPropertyDurationTracking _
  | c_trackBlogDuration _ | c_setupBlogDurationTracking _
  | c_trackSessionEnd _ => false
  | _ => true
  end.

End Tracker.
End Tracker.

(** ** Numbers of the platform

    [formatPriceRange] computes on IEEE doubles with [Number], [>=], [/],
    [%], [===], [toFixed], [Math.round] and [toString].  These are the
    platform's; the code is written over them as an interface, as it is over
    [JSON]. *)
Class Numbers := {
  double : Type;
  (** [Number(v)] *)
  Number_ : jsval → double;
  (** A literal. *)
  double_of_Z : Z → double;
  (** ToBoolean: neither zero nor NaN. *)
  double_truthy : double → bool;
  (** [a >= b], [a / b], [a % b], [a === b] *)
  double_ge : double → double → bool;
  double_div : double → double → double;
  double_rem : double → double → double;
  double_strict_eq : double → double → bool;
  (** [a.toFixed(digits)], [Math.round(a)], [a.toString()] *)
  double_toFixed : double → Z → string;
  Math_round : double → double;
  double_toString : double → string
}.

(** ** Search store-and-forward ([tracking/modules/search]) *)

Module searchTracking.

Section formatPriceRange.
Context `{!Numbers}.

Definition formatPrice (value : double) : string :=
  if double_ge value (double_of_Z 1000000) then
    double_toFixed (double_div value (double_of_Z 1000000))
      (if double_strict_eq (double_rem value (double_of_Z 1000000))
            (double_of_Z 0)
       then 0 else 1)
    +:+ "M"
  else if double_ge value (double_of_Z 1000) then
    double_toString (Math_round (double_div value (double_of_Z 1000))) +:+ "k"
  else double_toString value.

(** [min ? Number(min) : null], and whether the result is truthy. *)
Definition price_value (v : jsval) : option double :=
  if truthy v then Some (Number_ v) else None.

Definition usable (o : option double) : option double :=
  match o with
  | Some n => if double_truthy n then Some n else None
  | None => None
  end.

Definition formatPriceRange (min max : jsval) : string :=
  let minVal := price_value min in
  let maxVal := price_value max in
  match usable minVal, usable maxVal with
  | Some minVal, Some maxVal =>
      "£" +:+ formatPrice minVal +:+ " - £" +:+ formatPrice maxVal
  | Some minVal, None => "£" +:+ formatPrice minVal +:+ "+"
  | None, Some maxVal => "Up to £" +:+ formatPrice maxVal
  | None, None => "Any price"
  end.

End formatPriceRange.

Section searchTracking.
Context `{!JSON ConsentStatus, !JSON SessionData, !JSON SearchTrackingData}.

(** The functions below take the price text as an argument, so that what
    does not depend on it is stated for any; [sendPendingSearchEvent] of the
    module is [sendPendingSearchEvent formatPriceRange] at the function
    above. *)
Variable formatPriceRange : jsval → jsval → string.

Definition STORAGE_KEY : string := "stratos_pending_search".

(** The object literal [trackingData] of [storeSearchForTracking], given
    what [Date.now()] and [window.location.pathname] read. *)
Definition trackingData (data : PartialSearch) (now : Z) (pathname : string)
  : SearchTrackingData :=
  {| listing_type := str_or (p_listing_type data) "sale";
     search_timestamp := now;
     location :=
       Some (str_or (p_location data) (str_or (p_postcode data) ""));
     postcode := Some (str_or (p_postcode data) "");
     min_price := p_min_price data;
     max_price := p_max_price data;
     bedrooms := p_bedrooms data;
     bathrooms := p_bathrooms data;
     property_type := p_property_type data;
     filters := default [] (p_filters data);
     filters_count := default 0 (p_filters_count data);
     source_page := str_or (p_source_page data) pathname;
     source_component := str_or (p_source_component data) "unknown" |}.

Definition storeSearchForTracking (data : PartialSearch) : M unit :=
  try_catch
    (let* now := get Date_now in
     let* pathname := get (λ w, location_pathname (browser w)) in
     sessionStorage_setItem STORAGE_KEY
       (JSON_stringify (trackingData data now pathname)))
    (ret ()).

(** The [event_data] of the forwarded ['search'] event. *)
Definition search_event_data (data : SearchTrackingData) (now : Z) : jsobj :=
  [("location", VStr (str_or (location data) (str_or (postcode data) "")));
   ("postcode", VStr (str_or (postcode data) ""));
   ("min_price", js_or (min_price data) VNull);
   ("max_price", js_or (max_price data) VNull);
   ("price_range", VStr (formatPriceRange (min_price data) (max_price data)));
   ("bedrooms", js_or (bedrooms data) VNull);
   ("bathrooms", js_or (bathrooms data) VNull);
   ("property_type", js_or (of_opt_str (property_type data)) VNull);
   ("listing_type", VStr (listing_type data));
   ("filters", VObj (filters data));
   ("filters_count", VNum (filters_count data));
   ("source_page", VStr (source_page data));
   ("source_component", VStr (source_component data));
   ("search_timestamp", VNum (search_timestamp data));
   ("tracking_delay_ms", VNum (now - search_timestamp data))].

(** [window_StratosTracker] is [window.StratosTracker]. *)
Definition sendPendingSearchEvent (window_StratosTracker : option StratosTracker)
  : M bool :=
  try_catch
    (let* stored := sessionStorage_getItem STORAGE_KEY in
     match stored with
     | None => ret false
     | Some text =>
         if String.eqb text "" then ret false
         else
           sessionStorage_removeItem STORAGE_KEY;;
           let* data := parse text in
           let* now := get Date_now in
           if bool_decide (now - search_timestamp data > 30000) then ret false
           else
             match window_StratosTracker with
             | Some tracker =>
                 Tracker.trackEvent "search"
                   (Some (search_event_data data now)) tracker;;
                 ret true
             | None => ret false
             end
     end)
    (ret false).

End searchTracking.
End searchTracking.

(** ** What the consent and session readers compute *)

Section Readers.
Context `{!JSON ConsentStatus, !JSON SessionData}.

(** The consent record as the readers see it: [None] when storage cannot be
    read, the key is absent or empty, or the text does not parse. *)
Definition readable_consent (w : World) : option ConsentStatus :=
  if storage_denied (browser w) then None
  else match localStorage w !! CONSENT_STORAGE_KEY with
       | Some text => if String.eqb text "" then None else JSON_parse text
       | None => None
       end.

Definition analytics_granted (w : World) : bool :=
  match readable_consent w with
  | Some c => analytics c
  | None => false
  end.

(** What [JSON.parse] makes of a session entry, a [SyntaxError] read as
    [None]. *)
Definition read_stored (text : string) : option StoredSession :=
  match JSON_parse text with
  | Some session => Some (Session session)
  | None =>
      match JSON_parse_primitive (A := SessionData) text with
      | Some VNull => None
      | Some v => Some (Primitive v)
      | None => None
      end
  end.

(** The session that [getStoredSession] finds. *)
Definition stored_session (w : World) : option StoredSession :=
  if analytics_granted w then
    match localStorage w !! STORAGE_KEYS_SESSION with
    | Some text => if String.eqb text "" then None else read_stored text
    | None => None
    end
  else Session <$> tempSession w.

(** The entry [sr_session], where there is one, is a session as
    [saveSession] writes it. *)
Definition session_entry_sound (w : World) : Prop :=
  ∀ text, localStorage w !! STORAGE_KEYS_SESSION = Some text →
          ∃ session : SessionData, text = JSON_stringify session.

(** What identity and session code leaves alone. *)
Record frame (w w' : World) : Prop := {
  frame_browser : browser w' = browser w;
  frame_now : Date_now w' = Date_now w;
  frame_network : network w' = network w;
  frame_sessionStorage : sessionStorage w' = sessionStorage w;
  frame_listeners : listeners w' = listeners w;
  frame_scroll_cells : scroll_cells w' = scroll_cells w;
  frame_current :
    currentPropertyDurationTracking w' = currentPropertyDurationTracking w;
  frame_consent :
    localStorage w' !! CONSENT_STORAGE_KEY
    = localStorage w !! CONSENT_STORAGE_KEY;
  frame_uuid : (uuid_drawn w ≤ uuid_drawn w')%nat;
  frame_sound : session_entry_sound w → session_entry_sound w'
}.

(** [m] returns from every world and changes identity state only. *)
Definition quiet {A} (m : M A) : Prop :=
  ∀ w, ∃ a w', m w = Returned a w' ∧ frame w w'.

(** What [getVisitorId] leaves alone besides. *)
Record visitor_frame (w w' : World) : Prop := {
  vf_frame : frame w w';
  vf_tempSession : tempSession w' = tempSession w;
  vf_other :
    ∀ k, k ≠ STORAGE_KEYS_VISITOR → localStorage w' !! k = localStorage w !! k
}.

(** No usable consent record: storage cannot be read, the key is absent, or
    its text does not parse. *)
Definition consent_unreadable (w : World) : bool :=
  storage_denied (browser w)
  || match localStorage w !! CONSENT_STORAGE_KEY with
     | None => true
     | Some text =>
         match JSON_parse (A := ConsentStatus) text with
         | None => true
         | Some _ => false
         end
     end.

End Readers.

(** The milestone that a position reports: the lowest one it has reached
    that lies above the depth recorded so far. *)
Definition crossed (percent maxScrollDepth : Z) : option Z :=
  find (λ m, bool_decide (percent >= m) && bool_decide (maxScrollDepth < m))
       blogTracking.milestones.

(** [favourited: false, count: 0] as the server would send it. *)
Definition server_says_not_favourited : HttpOutcome :=
  Response true
    (Some (VObj [("is_favourited", VBool false); ("count", VNum 0)])).

(** ** The environment between calls *)

(** Time passes: the clock reads [t]. *)
Definition clock_reads (t : Z) : M unit := modify (set_Date_now t).

(** One call of [getSessionId] at each of the given times. *)
Fixpoint getSessionId_at {JC : JSON ConsentStatus} {JS : JSON SessionData}
    (times : list Z) : M (list string) :=
  match times with
  | [] => ret []
  | t :: times' =>
      clock_reads t;;
      let* id := getSessionId in
      let* ids := getSessionId_at times' in
      ret (id :: ids)
  end.

(** Each call comes no later than 30 minutes after the activity before it. *)
Fixpoint within_idle_window (last : Z) (times : list Z) : Prop :=
  match times with
  | [] => True
  | t :: times' =>
      t - last ≤ SESSION_TIMEOUT_MS ∧ within_idle_window t times'
  end.

(** The scroll positions of a reader, delivered to the closure made by one
    [setupScrollDepthTracking] call; the result is its [maxScrollDepth]. *)
Fixpoint scroll_through {JC : JSON ConsentStatus} {JS : JSON SessionData}
    (config : RequiredTrackerConfig) (articleId : string)
    (maxScrollDepth : Z) (positions : list (Z * Z)) : M Z :=
  match positions with
  | [] => ret maxScrollDepth
  | (scrollTop, docHeight) :: positions' =>
      let* depth :=
        blogTracking.trackScroll config articleId maxScrollDepth
          scrollTop docHeight in
      scroll_through config articleId depth positions'
  end.

(** The events among the requests, and one field of each. *)
Definition event_of (r : Request) : option EventData :=
  match req_body r with
  | EventBody e => Some e
  | FavouriteBody _ _ _ _ => None
  end.

Definition events (rs : list Request) : list EventData :=
  omap event_of rs.

Definition field (k : string) (e : EventData) : jsval :=
  opt_get k (event_data e).

(** ** A codec to run examples on

    Any injective rendering with a decoder is an instance of [JSON]; this one
    writes the bits of stdpp's numbering of a countable type after a [#], so
    that the examples below evaluate.  The theorems hold for every
    instance. *)

Fixpoint bits_of (p : positive) : string :=
  match p with
  | xH => ""
  | xO q => String "0"%char (bits_of q)
  | xI q => String "1"%char (bits_of q)
  end.

Fixpoint of_bits (s : string) : option positive :=
  match s with
  | EmptyString => Some xH
  | String c s' =>
      if Ascii.eqb c "0"%char then xO <$> of_bits s'
      else if Ascii.eqb c "1"%char then xI <$> of_bits s'
      else None
  end.

Definition render `{Countable A} (a : A) : string :=
  String "#"%char (bits_of (encode a)).

Definition unrender `{Countable A} (s : string) : option A :=
  match s with
  | String c s' => if Ascii.eqb c "#"%char then of_bits s' ≫= decode else None
  | EmptyString => None
  end.

Lemma of_bits_of p : of_bits (bits_of p) = Some p.
Proof. induction p as [q IH|q IH|]; simpl; by rewrite ?IH. Qed.

Lemma unrender_render `{Countable A} (a : A) : unrender (render a) = Some a.
Proof.
  unfold unrender, render. rewrite of_bits_of. simpl. apply decode_encode.
Qed.

Lemma render_nonempty `{Countable A} (a : A) : render a ≠ "".
Proof. unfold render. discriminate. Qed.

(** ** Numbers to run examples on

    Quotients of two integers, computed exactly, and NaN ([None]).  The
    platform computes on doubles, which are exact on the whole numbers below
    2^53 that the examples use.  [Number] reads the strings of decimal
    digits only, a quotient by zero is NaN, and a number that is not whole
    prints as a quotient, which the platform never does; no example reaches
    them.  The theorems hold for every instance. *)

Fixpoint digits_value (s : string) (acc : Z) : option Z :=
  match s with
  | "" => Some acc
  | String c s' =>
      let n := Z.of_nat (nat_of_ascii c) in
      if bool_decide (48 ≤ n ≤ 57) then digits_value s' (10 * acc + (n - 48))
      else None
  end.

Definition exact_Number (v : jsval) : option (Z * Z) :=
  match v with
  | VUndef => None
  | VNull => Some (0, 1)
  | VBool b => Some (if b then 1 else 0, 1)
  | VNum z => Some (z, 1)
  | VStr s => (λ z, (z, 1)) <$> digits_value s 0
  | VObj _ => None
  end.

Definition exact_div (x y : option (Z * Z)) : option (Z * Z) :=
  match x, y with
  | Some (a, b), Some (c, d) =>
      if Z.eqb c 0 then None
      else if Z.ltb c 0 then Some (- (a * d), - (b * c))
      else Some (a * d, b * c)
  | _, _ => None
  end.

Definition exact_rem (x y : option (Z * Z)) : option (Z * Z) :=
  match x, y with
  | Some (a, b), Some (c, d) =>
      if Z.eqb c 0 then None else Some (Z.rem (a * d) (c * b), b * d)
  | _, _ => None
  end.

Fixpoint pad_zeros (n : nat) (s : string) : string :=
  match n with
  | O => s
  | S n' => if bool_decide (String.length s ≤ n')%nat
            then pad_zeros n' ("0" +:+ s) else s
  end.

(** Rounded to [digits] decimals, halves upwards. *)
Definition exact_toFixed (x : option (Z * Z)) (digits : Z) : string :=
  match x with
  | None => "NaN"
  | Some (a, b) =>
      let scale := 10 ^ digits in
      let n := (2 * Z.abs a * scale + b) `div` (2 * b) in
      (if Z.ltb a 0 then "-" else "")
      +:+ pretty (n `div` scale)
      +:+ (if Z.eqb digits 0 then ""
           else "." +:+ pad_zeros (Z.to_nat digits) (pretty (n `mod` scale)))
  end.

Definition exact_toString (x : option (Z * Z)) : string :=
  match x with
  | None => "NaN"
  | Some (a, b) =>
      if Z.eqb (a `mod` b) 0 then pretty (a `div` b)
      else pretty a +:+ "/" +:+ pretty b
  end.

#[export] Instance exact_Numbers : Numbers := {|
  double := option (Z * Z);
  Number_ := exact_Number;
  double_of_Z z := Some (z, 1);
  double_truthy x :=
    match x with Some (a, _) => negb (Z.eqb a 0) | None => false end;
  double_ge x y :=
    match x, y with
    | Some (a, b), Some (c, d) => bool_decide (c * b ≤ a * d)
    | _, _ => false
    end;
  double_div := exact_div;
  double_rem := exact_rem;
  double_strict_eq x y :=
    match x, y with
    | Some (a, b), Some (c, d) => bool_decide (a * d = c * b)
    | _, _ => false
    end;
  double_toFixed := exact_toFixed;
  Math_round x :=
    match x with
    | Some (a, b) => Some ((2 * a + b) `div` (2 * b), 1)
    | None => None
    end;
  double_toString := exact_toString
|}.

(** The primitives that the examples store: [null], the booleans and the
    numbers of one digit. *)
Definition primitive_of_text (text : string) : option jsval :=
  if String.eqb text "null" then Some VNull
  else if String.eqb text "true" then Some (VBool true)
  else if String.eqb text "false" then Some (VBool false)
  else
    match text with
    | String c "" =>
        let n := nat_of_ascii c in
        if bool_decide (48 ≤ n ≤ 57)%nat then Some (VNum (Z.of_nat n - 48))
        else None
    | _ => None
    end.

Lemma primitive_of_text_is_primitive text v :
  primitive_of_text text = Some v → is_primitive v = true.
Proof.
  unfold primitive_of_text. repeat case_match; by intros [= <-].
Qed.

Definition countable_JSON `{Countable A} : JSON A :=
  {| JSON_stringify := render;
     JSON_parse := unrender;
     JSON_parse_primitive := primitive_of_text;
     JSON_stringify_nonempty := render_nonempty;
     JSON_parse_stringify := unrender_render;
     JSON_parse_primitive_is_primitive := primitive_of_text_is_primitive |}.

Fixpoint jsval_eq_dec (x y : jsval) : Decision (x = y).
Proof.
  refine
    (match x, y with
     | VUndef, VUndef => left eq_refl
     | VNull, VNull => left eq_refl
     | VBool a, VBool b => cast_if (decide (a = b))
     | VNum a, VNum b => cast_if (decide (a = b))
     | VStr a, VStr b => cast_if (decide (a = b))
     | VObj a, VObj b =>
         cast_if (@list_eq_dec _ (@prod_eq_dec _ _ _ jsval_eq_dec) a b)
     | _, _ => right _
     end); congruence.
Defined.

#[export] Instance jsval_eq : EqDecision jsval := jsval_eq_dec.

(** A numbering of [jsval], through stdpp's generic trees. *)
Fixpoint jsval_tree (v : jsval) : gen_tree (bool + Z + string) :=
  match v with
  | VUndef => GenNode 0 []
  | VNull => GenNode 1 []
  | VBool b => GenLeaf (inl (inl b))
  | VNum z => GenLeaf (inl (inr z))
  | VStr s => GenLeaf (inr s)
  | VObj o =>
      GenNode 2
        ((fix fields (o : jsobj) :=
            match o with
            | [] => []
            | (k, v) :: o' => GenLeaf (inr k) :: jsval_tree v :: fields o'
            end) o)
  end.

Fixpoint tree_jsval (t : gen_tree (bool + Z + string)) : option jsval :=
  match t with
  | GenNode 0 [] => Some VUndef
  | GenNode 1 [] => Some VNull
  | GenLeaf (inl (inl b)) => Some (VBool b)
  | GenLeaf (inl (inr z)) => Some (VNum z)
  | GenLeaf (inr s) => Some (VStr s)
  | GenNode 2 ts =>
      VObj <$>
        (fix fields (ts : list (gen_tree (bool + Z + string))) :=
           match ts with
           | [] => Some []
           | GenLeaf (inr k) :: t :: ts' =>
               match tree_jsval t, fields ts' with
               | Some v, Some o => Some ((k, v) :: o)
               | _, _ => None
               end
           | _ => None
           end) ts
  | _ => None
  end.

Lemma tree_jsval_tree (v : jsval) : tree_jsval (jsval_tree v) = Some v.
Proof.
  revert v. fix IH 1. intros [| | b | z | s | o]; try reflexivity.
  simpl. induction o as [|[k v] o IHo]; [reflexivity|].
  rewrite IH.
  destruct ((fix fields (ts : list (gen_tree (bool + Z + string))) :=
               match ts with
               | [] => Some []
               | GenLeaf (inr k) :: t :: ts' =>
                   match tree_jsval t, fields ts' with
                   | Some v, Some o => Some ((k, v) :: o)
                   | _, _ => None
                   end
               | _ => None
               end) _) as [o'|] eqn:E; simpl in *; congruence.
Qed.

#[export] Instance jsval_countable : Countable jsval :=
  inj_countable jsval_tree tree_jsval tree_jsval_tree.

#[export] Instance SessionData_eq : EqDecision SessionData.
Proof. solve_decision. Defined.

#[export] Instance SessionData_countable : Countable SessionData :=
  inj_countable'
    (λ s, (session_id s, visitor_id s, created_at s, last_activity_at s,
           page_views s))
    (λ '(a, b, c, d, e),
       {| session_id := a; visitor_id := b; created_at := c;
          last_activity_at := d; page_views := e |})
    (λ s, match s with Build_SessionData _ _ _ _ _ => eq_refl end).

#[export] Instance ConsentStatus_eq : EqDecision ConsentStatus.
Proof. solve_decision. Defined.

#[export] Instance ConsentStatus_countable : Countable ConsentStatus :=
  inj_countable'
    (λ c, (necessary c, analytics c, marketing c, timestamp c, version c))
    (λ '(a, b, c, d, e),
       {| necessary := a; analytics := b; marketing := c; timestamp := d;
          version := e |})
    (λ c, match c with Build_ConsentStatus _ _ _ _ _ => eq_refl end).

#[export] Instance SearchTrackingData_eq : EqDecision SearchTrackingData.
Proof. solve_decision. Defined.

#[export] Instance SearchTrackingData_countable
  : Countable SearchTrackingData :=
  inj_countable'
    (λ d, (listing_type d, search_timestamp d, location d, postcode d,
           min_price d, max_price d, bedrooms d, bathrooms d,
           property_type d, filters d, filters_count d, source_page d,
           source_component d))
    (λ '(a, b, c, d, e, f, g, h, i, j, k, l, m),
       {| listing_type := a; search_timestamp := b; location := c;
          postcode := d; min_price := e; max_price := f; bedrooms := g;
          bathrooms := h; property_type := i; filters := j;
          filters_count := k; source_page := l; source_component := m |})
    (λ d, match d with
          | Build_SearchTrackingData _ _ _ _ _ _ _ _ _ _ _ _ _ => eq_refl
          end).

(** ** A page to run examples on *)

Definition JSON_ConsentStatus : JSON ConsentStatus := countable_JSON.
Definition JSON_SessionData : JSON SessionData := countable_JSON.
Definition JSON_SearchTrackingData : JSON SearchTrackingData := countable_JSON.

Definition sample_uuid (n : nat) : string :=
  "uuid-" +:+ String (ascii_of_nat (97 + n)) "".

Definition sample_browser : Browser :=
  {| storage_denied := false;
     storage_full := false;
     navigator_sendBeacon := true;
     randomUUID := sample_uuid;
     location_href := "https://agent.example/blog/moving-house";
     location_pathname := "/blog/moving-house";
     document_title := "Moving house";
     document_referrer := "";
     screen_width := 1920;
     screen_height := 1080;
     innerWidth := 1280;
     innerHeight := 720 |}.

(** A page just loaded, nothing stored: no consent decision yet. *)
Definition fresh_page : World :=
  {| browser := sample_browser;
     Date_now := 1700000000000;
     uuid_drawn := 0;
     localStorage := ∅;
     sessionStorage := ∅;
     tempVisitorId := None;
     tempSession := None;
     currentPropertyDurationTracking := None;
     listeners := [];
     scroll_cells := [];
     network := [] |}.

Definition analytics_accepted : ConsentStatus :=
  {| necessary := true; analytics := true; marketing := false;
     timestamp := "2024-05-01T09:00:00.000Z"; version := "1.0" |}.

(** What the consent banner does when the visitor accepts analytics. *)
Definition banner_accepts (w : World) : World :=
  set_localStorage
    (<[CONSENT_STORAGE_KEY := JSON_stringify (JSON := JSON_ConsentStatus)
                                analytics_accepted]> (localStorage w)) w.

(** The same page for a visitor who accepted analytics. *)
Definition consented_page : World := banner_accepts fresh_page.

Definition sample_config : TrackerConfig :=
  {| tc_apiUrl := "https://api.example"; tc_apiKey := "key-1";
     tc_trackingEnabled := None; tc_debug := None |}.

Definition sample_required_config : RequiredTrackerConfig :=
  {| apiUrl := "https://api.example"; apiKey := "key-1";
     trackingEnabled := true; debug := false |}.

(** A facade that may track: enabled, consent given, initialised. *)
Definition sample_tracker : StratosTracker :=
  {| config := sample_required_config;
     pageLoadTime := 1700000000000;
     propertyViewStartTime := 0;
     blogViewStartTime := 0;
     maxScrollDepth := 0;
     sessionStartTime := 1700000000000;
     isInitialized := true;
     consentGiven := true;
     previousConsent := true |}.

(** A search for two-bedroom lets in Leeds from the home page. *)
Definition sample_search : PartialSearch :=
  {| p_listing_type := Some "let";
     p_location := Some "Leeds";
     p_postcode := None;
     p_min_price := VUndef;
     p_max_price := VNum 1200;
     p_bedrooms := VNum 2;
     p_bathrooms := VUndef;
     p_property_type := None;
     p_filters := Some [("beds", VStr "2"); ("max_price", VStr "1200")];
     p_filters_count := Some 2;
     p_source_page := None;
     p_source_component := Some "hero_search" |}.

(** Positions at 10%, 30%, 60%, 40% and 100% of a page that scrolls over
    1000 pixels. *)
Definition sample_scroll : list (Z * Z) :=
  [(100, 1000); (300, 1000); (600, 1000); (400, 1000); (1000, 1000)].

(** *** Visits without consent *)

Section Visits.
#[local] Existing Instance JSON_ConsentStatus.
#[local] Existing Instance JSON_SessionData.

(** A page creates its tracker and reports the end of the session. *)
Definition visit_session_end : M StratosTracker :=
  let* tracker := Tracker.createTracker sample_config in
  Tracker.trackSessionEnd None tracker.

(** A property page arms duration tracking; the visitor leaves 4 seconds
    later. *)
Definition visit_property : M StratosTracker :=
  let* tracker := Tracker.createTracker sample_config in
  let* tracker := Tracker.setupPropertyDurationTracking "property-7" tracker in
  let* now := get Date_now in
  clock_reads (now + 4000);;
  Tracker.dispatchEvent Ev_pagehide tracker.

(** The same, with the page calling [trackPropertyDuration] itself. *)
Definition visit_property_direct : M StratosTracker :=
  let* tracker := Tracker.createTracker sample_config in
  let* tracker := Tracker.setupPropertyDurationTracking "property-7" tracker in
  let* now := get Date_now in
  clock_reads (now + 4000);;
  Tracker.trackPropertyDuration "property-7" tracker.

(** A blog page arms duration tracking; the visitor scrolls to 30% and leaves
    6 seconds later. *)
Definition visit_article : M StratosTracker :=
  let* tracker := Tracker.createTracker sample_config in
  let* tracker := Tracker.setupBlogDurationTracking "article-3" tracker in
  let* tracker := Tracker.dispatchEvent (Ev_scroll 300 1000) tracker in
  let* now := get Date_now in
  clock_reads (now + 6000);;
  Tracker.dispatchEvent Ev_pagehide tracker.

(** The page withdraws consent by [setConsent(false)] while the stored
    consent record still grants analytics, then reports the end of the
    session. *)
Definition visit_after_setConsent_false : M StratosTracker :=
  let* tracker := Tracker.createTracker sample_config in
  let* tracker := Tracker.setConsent false tracker in
  Tracker.trackSessionEnd None tracker.

(** The consented page after its first [getSessionId], and the session that
    call stored. *)
Definition after_first_call : World := world_of (getSessionId consented_page).

Definition first_session : SessionData :=
  {| session_id := "uuid-b"; visitor_id := "uuid-a";
     created_at := 1700000000000; last_activity_at := 1700000000000;
     page_views := 0 |}.

(** The fresh page after handing out a temporary visitor id. *)
Definition with_temporary_id : World := world_of (getVisitorId fresh_page).

(** The price text of the examples. *)
Definition any_price (min max : jsval) : string := "Any price".

End Visits.

(** ** Further functions *)

(** *** Read-only session queries ([tracking/session]) *)

Section Session_queries.
Context `{!JSON ConsentStatus, !JSON SessionData}.

(** [new Date(session.created_at).getTime()] and the like: [NaN] on a
    primitive, whose fields are [undefined]. *)
Definition getSessionAge : M jsnumber :=
  let* session := getStoredSession in
  match session with
  | None => ret (Num 0)
  | Some session =>
      if negb (is_truthy session) then ret (Num 0)
      else
        match session with
        | Session session =>
            let created := created_at session in
            let* now := get Date_now in
            ret (Num (now - created))
        | Primitive _ =>
            let* now := get Date_now in
            ret NaN
        end
  end.

Definition getTimeSinceActivity : M jsnumber :=
  let* session := getStoredSession in
  match session with
  | None => ret (Num 0)
  | Some session =>
      if negb (is_truthy session) then ret (Num 0)
      else
        match session with
        | Session session =>
            let lastActivity := last_activity_at session in
            let* now := get Date_now in
            ret (Num (now - lastActivity))
        | Primitive _ =>
            let* now := get Date_now in
            ret NaN
        end
  end.

(** [NaN < 10000] is [false]. *)
Definition isNewVisitor : M bool :=
  let* session := getStoredSession in
  match session with
  | None => ret true
  | Some session =>
      if negb (is_truthy session) then ret true
      else
        match session with
        | Session session =>
            let created := created_at session in
            let* now := get Date_now in
            let timeSinceCreation := now - created in
            ret (bool_decide (timeSinceCreation < 10000)
                 && bool_decide (page_views session ≤ 1))
        | Primitive _ =>
            let* now := get Date_now in
            ret false
        end
  end.

End Session_queries.

(** *** Search parameters from the URL ([tracking/modules/search]) *)

(** [URLSearchParams] is the list of its decoded pairs, in order;
    [params.get(k)] is the value of the first pair named [k]. *)
Fixpoint params_get (k : string) (params : list (string * string))
  : option string :=
  match params with
  | [] => None
  | (k', v) :: params' =>
      if String.eqb k k' then Some v else params_get k params'
  end.

(** [s || undefined] *)
Definition or_undefined (o : option string) : jsval :=
  if str_truthy o then of_opt_str o else VUndef.

(** [a || b || undefined] *)
Definition first_or_undefined (a b : option string) : jsval :=
  if str_truthy a then of_opt_str a else or_undefined b.

(** [filters[key] = value] on the object literal [filters]: the key
    [__proto__] names the setter that [filters] inherits, which ignores a
    string, so nothing is stored. *)
Definition assign_filter (key value : string) (filters : jsobj) : jsobj :=
  if String.eqb key "__proto__" then filters
  else obj_set key (VStr value) filters.

(** One step of the [params.forEach] loop on [filters] and [filtersCount]. *)
Definition count_filter (acc : jsobj * Z) (kv : string * string) : jsobj * Z :=
  if negb (String.eqb kv.2 "") && negb (String.eqb kv.2 "false")
  then (assign_filter kv.1 kv.2 acc.1, acc.2 + 1)
  else acc.

Definition collect_filters (params : list (string * string)) : jsobj * Z :=
  foldl count_filter ([], 0) params.

Definition extractSearchParamsFromUrl (params : list (string * string))
  : M (option PartialSearch) :=
  try_catch
    (if bool_decide (params = []) then ret None
     else
       let collected := collect_filters params in
       let* ref := get (λ w, document_referrer (browser w)) in
       ret (Some
              {| p_listing_type :=
                   Some (str_or (params_get "listing_type" params) "sale");
                 p_location :=
                   Some (str_or (params_get "location" params)
                           (str_or (params_get "q" params) ""));
                 p_postcode := Some (str_or (params_get "postcode" params) "");
                 p_min_price := or_undefined (params_get "min_price" params);
                 p_max_price := or_undefined (params_get "max_price" params);
                 p_bedrooms :=
                   first_or_undefined (params_get "beds" params)
                     (params_get "bedrooms" params);
                 p_bathrooms :=
                   first_or_undefined (params_get "min_baths" params)
                     (params_get "bathrooms" params);
                 p_property_type :=
                   (if str_truthy (params_get "property_type" params)
                    then params_get "property_type" params else None);
                 p_filters := Some collected.1;
                 p_filters_count := Some collected.2;
                 p_source_page := Some (str_or (Some ref) "direct");
                 p_source_component := Some "url_direct" |}))
    (ret None).

(** *** The search page on load ([initSearchTracking] of the search page
    client)

    [location_search] is [window.location.search], [params] what
    [URLSearchParams] makes of it, [results_count] the value of
    [parseInt(resultsCount)]. *)
Section Search_page.
Context `{!JSON ConsentStatus, !JSON SessionData, !JSON SearchTrackingData}.
Variable formatPriceRange : jsval → jsval → string.

Definition direct_search_event_data (d : PartialSearch) (results_count : jsval)
  : jsobj :=
  [("location", VStr (str_or (p_location d) ""));
   ("postcode", VStr (str_or (p_postcode d) ""));
   ("min_price", js_or (p_min_price d) VNull);
   ("max_price", js_or (p_max_price d) VNull);
   ("bedrooms", js_or (p_bedrooms d) VNull);
   ("bathrooms", js_or (p_bathrooms d) VNull);
   ("property_type", js_or (of_opt_str (p_property_type d)) VNull);
   ("listing_type", VStr (str_or (p_listing_type d) "sale"));
   ("filters", from_option VObj VUndef (p_filters d));
   ("filters_count", from_option VNum VUndef (p_filters_count d));
   ("results_count", results_count);
   ("source_page", VStr (str_or (p_source_page d) "direct"));
   ("source_component", VStr "url_direct")].

Definition initSearchTracking (location_search : string)
    (params : list (string * string)) (results_count : jsval)
    (window_StratosTracker : option StratosTracker) : M unit :=
  let* sentPending :=
    searchTracking.sendPendingSearchEvent formatPriceRange
      window_StratosTracker in
  if negb sentPending && negb (String.eqb location_search "") then
    let* directSearchParams := extractSearchParamsFromUrl params in
    match directSearchParams with
    | Some d =>
        if bool_decide (0 < default 0 (p_filters_count d)) then
          match window_StratosTracker with
          | Some tracker =>
              Tracker.trackEvent "search"
                (Some (direct_search_event_data d results_count)) tracker;;
              ret ()
          | None => ret ()
          end
        else ret ()
    | None => ret ()
    end
  else ret ().

End Search_page.

(** *** Enquiry forms ([setupEnquiryFormTracking])

    One form matched by the selector: the inputs whose once-only [focus]
    listener is still attached, and the closure variable
    [hasStartedTracking] of that form. *)
Record FormTracking := {
  armed_inputs : list nat;
  hasStartedTracking : bool
}.

(** What the visitor does to a form: focus one of its inputs, or submit it
    with the values that [FormData.get] gives for the four field names. *)
Inductive FormEvent :=
  | Focus (input : nat)
  | Submit (phone telephone message comments : option string).

Section Enquiry_forms.
Context `{!JSON ConsentStatus, !JSON SessionData}.

(** The listeners that [enquiryTracking.setupEnquiryFormTracking] attaches
    to one form with the given inputs. *)
Definition attach_form_listeners (inputs : list nat) : FormTracking :=
  {| armed_inputs := inputs; hasStartedTracking := false |}.

Definition form_event (config : RequiredTrackerConfig) (formSelector : string)
    (options : option jsobj) (e : FormEvent) (form : FormTracking)
  : M FormTracking :=
  match e with
  | Focus input =>
      if bool_decide (input ∈ armed_inputs form) then
        let armed := filter (λ i, i ≠ input) (armed_inputs form) in
        if negb (hasStartedTracking form) then
          enquiryTracking.trackEnquiryStarted config
            (Some [("property_id", opt_get "property_id" options);
                   ("enquiry_type", opt_get "enquiry_type" options);
                   ("form_location", VStr formSelector)]);;
          ret {| armed_inputs := armed; hasStartedTracking := true |}
        else
          ret {| armed_inputs := armed;
                 hasStartedTracking := hasStartedTracking form |}
      else ret form
  | Submit phone telephone message comments =>
      enquiryTracking.trackEnquirySubmitted config
        (Some [("property_id", opt_get "property_id" options);
               ("enquiry_type", opt_get "enquiry_type" options);
               ("form_location", VStr formSelector);
               ("has_phone",
                VBool (str_truthy phone || str_truthy telephone));
               ("has_message",
                VBool (str_truthy message || str_truthy comments))]);;
      ret form
  end.

(** The events of a visit to one form, in order. *)
Fixpoint form_events (config : RequiredTrackerConfig) (formSelector : string)
    (options : option jsobj) (es : list FormEvent) (form : FormTracking)
  : M FormTracking :=
  match es with
  | [] => ret form
  | e :: es' =>
      let* form := form_event config formSelector options e form in
      form_events config formSelector options es' form
  end.

(** The facade's [setupEnquiryFormTracking]: [forms] are the inputs of each
    form that [document.querySelectorAll(formSelector)] finds. *)
Definition setupEnquiryFormTracking (forms : list (list nat))
    (this : StratosTracker) : list FormTracking :=
  if negb (Tracker.canTrack this) then []
  else map attach_form_listeners forms.

End Enquiry_forms.

(** *** Vocabulary of the further properties *)

Section Vocabulary.
Context `{!JSON ConsentStatus, !JSON SessionData}.

(** [m] returns from every world whose session entry is sound, and leaves
    it sound; it leaves the browser, the consent record and [sessionStorage]
    alone; and it leaves all of [localStorage] alone when no analytics
    consent is stored. *)
Definition harmless {A} (m : M A) : Prop :=
  ∀ w, session_entry_sound w →
    ∃ a w',
      m w = Returned a w'
      ∧ session_entry_sound w'
      ∧ browser w' = browser w
      ∧ localStorage w' !! CONSENT_STORAGE_KEY
        = localStorage w !! CONSENT_STORAGE_KEY
      ∧ sessionStorage w' = sessionStorage w
      ∧ (analytics_granted w = false → localStorage w' = localStorage w).

(** The three handlers that [setupPropertyDurationTracking] registers. *)
Definition property_handlers (propertyId : string)
  : list (EventName * Listener) :=
  [(beforeunload, propertyDurationHandler propertyId);
   (pagehide, propertyDurationHandler propertyId);
   (visibilitychange, propertyVisibilityHandler propertyId)].

(** A registration made by [setupPropertyDurationTracking]. *)
Definition is_property_handler (r : EventName * Listener) : bool :=
  match r.2 with
  | propertyDurationHandler _ | propertyVisibilityHandler _ => true
  | _ => false
  end.

(** [setupPropertyDurationTracking] for each property in turn. *)
Fixpoint setup_properties (propertyIds : list string) : M unit :=
  match propertyIds with
  | [] => ret ()
  | p :: ps =>
      propertyTracking.setupPropertyDurationTracking p;;
      setup_properties ps
  end.

(** The milestones carried by the [blog_scroll_depth] events among the
    requests. *)
Definition milestone_of (e : EventData) : option Z :=
  match field "scroll_depth" e with
  | VNum m => Some m
  | _ => None
  end.

Definition milestones_fired (rs : list Request) : list Z :=
  omap milestone_of (events rs).

(** How many events of a type are among the requests. *)
Definition count_events (eventType : string) (rs : list Request) : nat :=
  length (filter (λ e, event_type e = eventType) (events rs)).

End Vocabulary.

(** The listeners registered when the property tracked last is
    [current]. *)
Definition handlers_of (current : option string)
  : list (EventName * Listener) :=
  match current with
  | Some p => property_handlers p
  | None => []
  end.

(** Strictly increasing, and above [lo]. *)
Fixpoint increasing_from (lo : Z) (ms : list Z) : Prop :=
  match ms with
  | [] => True
  | m :: ms' => lo < m ∧ increasing_from m ms'
  end.

(** The two methods of the facade that only arm listeners. *)
Definition arms_listeners (c : Tracker.Call) : bool :=
  match c with
  | Tracker.c_setupPropertyDurationTracking _
  | Tracker.c_setupBlogDurationTracking _ => true
  | _ => false
  end.

(** A pair of the query string that [extractSearchParamsFromUrl] counts as
    a filter. *)
Definition is_filter (kv : string * string) : bool :=
  negb (String.eqb kv.2 "") && negb (String.eqb kv.2 "false").

Definition is_submit (e : FormEvent) : bool :=
  match e with
  | Submit _ _ _ _ => true
  | Focus _ => false
  end.

(** Some event focuses an input whose listener is attached. *)
Definition focuses_on (inputs : list nat) (es : list FormEvent) : bool :=
  existsb (λ e, match e with
                | Focus i => bool_decide (i ∈ inputs)
                | Submit _ _ _ _ => false
                end) es.

(** *** More of the sample page *)

(** A facade as [createTracker] leaves it where no consent is stored. *)
Definition tracker_without_consent : StratosTracker :=
  {| config := sample_required_config;
     pageLoadTime := 0;
     propertyViewStartTime := 0;
     blogViewStartTime := 0;
     maxScrollDepth := 0;
     sessionStartTime := 0;
     isInitialized := false;
     consentGiven := false;
     previousConsent := false |}.

(** The visitor has just accepted analytics; the facade's consent listener
    is the only listener. *)
Definition page_with_banner : World :=
  set_listeners [(cookieConsentUpdated, consentListener)] consented_page.

(** A property page 4 seconds after the view, with the three handlers
    armed, and its facade. *)
Definition property_page_on_exit : World :=
  set_listeners (property_handlers "property-7") consented_page.

Definition tracker_on_property : StratosTracker :=
  Tracker.set_propertyViewStartTime (1700000000000 - 4000) sample_tracker.

(** A second search, for houses to buy in York. *)
Definition second_search : PartialSearch :=
  {| p_listing_type := Some "sale";
     p_location := Some "York";
     p_postcode := None;
     p_min_price := VNum 200000;
     p_max_price := VUndef;
     p_bedrooms := VNum 3;
     p_bathrooms := VUndef;
     p_property_type := Some "house";
     p_filters := Some [("beds", VStr "3"); ("min_price", VStr "200000")];
     p_filters_count := Some 2;
     p_source_page := None;
     p_source_component := Some "hero_search" |}.

(** What the visitor does on an enquiry form with three inputs. *)
Definition sample_form_visit : list FormEvent :=
  [Focus 1%nat; Focus 2%nat; Submit (Some "0113 496 0000") None None None;
   Focus 1%nat].

(** The consented page with a session entry that is no session: the text
    [5]. *)
Definition corrupt_session_page : World :=
  set_localStorage (<[STORAGE_KEYS_SESSION := "5"]> (localStorage consented_page))
    consented_page.

(** The fresh page for a visitor who was here before: a visitor id from an
    earlier visit is still in storage, the consent is not. *)
Definition returning_visitor_page : World :=
  set_localStorage
    (<[STORAGE_KEYS_VISITOR := "old-visitor"]> (localStorage fresh_page))
    fresh_page.

(** * Properties *)


Section Session_facts.
Context `{!JSON ConsentStatus, !JSON SessionData}.

Lemma frame_refl w : frame w w.
Proof. by constructor. Qed.

Lemma frame_trans w1 w2 w3 : frame w1 w2 → frame w2 w3 → frame w1 w3.
Proof.
  intros [] []. constructor; try congruence; [lia | auto].
Qed.

Lemma frame_granted w w' : frame w w' → analytics_granted w' = analytics_granted w.
Proof.
  intros F. unfold analytics_granted, readable_consent.
  by rewrite (frame_browser _ _ F), (frame_consent _ _ F).
Qed.

(** The session entry stays sound where it stays as it is, and where a
    session is written to it. *)
Lemma sound_same w w' :
  localStorage w' !! STORAGE_KEYS_SESSION = localStorage w !! STORAGE_KEYS_SESSION →
  session_entry_sound w → session_entry_sound w'.
Proof. intros E Hs text. rewrite E. apply Hs. Qed.

Lemma sound_written w (s : SessionData) :
  localStorage w !! STORAGE_KEYS_SESSION = Some (JSON_stringify s) →
  session_entry_sound w.
Proof. intros E text. rewrite E. intros [= <-]. by exists s. Qed.

Lemma sound_absent w :
  localStorage w !! STORAGE_KEYS_SESSION = None → session_entry_sound w.
Proof. intros E text. by rewrite E. Qed.

Lemma read_stored_stringify (s : SessionData) :
  read_stored (JSON_stringify s) = Some (Session s).
Proof. unfold read_stored. by rewrite JSON_parse_stringify. Qed.

Lemma quiet_ret {A} (a : A) : quiet (ret a).
Proof. intros w. exists a, w. split; [done | apply frame_refl]. Qed.

Lemma quiet_bind {A B} (m : M A) (k : A → M B) :
  quiet m → (∀ a, quiet (k a)) → quiet (bind m k).
Proof.
  intros Hm Hk w. destruct (Hm w) as (a & w1 & E1 & F1).
  destruct (Hk a w1) as (b & w2 & E2 & F2).
  exists b, w2. unfold bind. rewrite E1. eauto using frame_trans.
Qed.

Lemma quiet_get {A} (f : World → A) : quiet (get f).
Proof. intros w. exists (f w), w. split; [done | apply frame_refl]. Qed.

Lemma hasAnalyticsConsent_eq w :
  hasAnalyticsConsent w = Returned (analytics_granted w) w.
Proof.
  unfold hasAnalyticsConsent, analytics_granted, readable_consent, try_catch,
    bind, localStorage_getItem, parse, ret, throw.
  destruct (storage_denied (browser w)); [done|].
  destruct (localStorage w !! CONSENT_STORAGE_KEY) as [text|]; [|done].
  destruct (String.eqb text ""); [done|].
  by destruct (JSON_parse text).
Qed.

Lemma hasMarketingConsent_eq w :
  hasMarketingConsent w
  = Returned (from_option marketing false (readable_consent w)) w.
Proof.
  unfold hasMarketingConsent, readable_consent, try_catch,
    bind, localStorage_getItem, parse, ret, throw.
  destruct (storage_denied (browser w)); [done|].
  destruct (localStorage w !! CONSENT_STORAGE_KEY) as [text|]; [|done].
  destruct (String.eqb text ""); [done|].
  by destruct (JSON_parse text).
Qed.

Lemma getConsentStatus_eq w :
  getConsentStatus w = Returned (readable_consent w) w.
Proof.
  unfold getConsentStatus, readable_consent, try_catch,
    bind, localStorage_getItem, parse, ret, throw.
  destruct (storage_denied (browser w)); [done|].
  destruct (localStorage w !! CONSENT_STORAGE_KEY) as [text|]; [|done].
  destruct (String.eqb text ""); [done|].
  by destruct (JSON_parse text).
Qed.

Lemma granted_not_denied w :
  analytics_granted w = true → storage_denied (browser w) = false.
Proof.
  unfold analytics_granted, readable_consent.
  by destruct (storage_denied (browser w)).
Qed.

Lemma getStoredSession_eq w :
  getStoredSession w = Returned (stored_session w) w.
Proof.
  unfold getStoredSession, stored_session, bind.
  rewrite hasAnalyticsConsent_eq.
  destruct (analytics_granted w) eqn:G; simpl; [|done].
  unfold try_catch, bind, localStorage_getItem, parse_stored, read_stored,
    ret, throw.
  rewrite (granted_not_denied _ G).
  destruct (localStorage w !! STORAGE_KEYS_SESSION) as [text|]; [|done].
  destruct (String.eqb text ""); [done|].
  destruct (JSON_parse text); [done|].
  destruct (JSON_parse_primitive text) as [[]|]; done.
Qed.

(** With a sound entry [getStoredSession] finds nothing or a session
    object. *)
Lemma stored_session_sound w :
  session_entry_sound w →
  stored_session w = None ∨ ∃ s : SessionData, stored_session w = Some s.
Proof.
  intros Hs. unfold stored_session.
  destruct (analytics_granted w).
  - destruct (localStorage w !! STORAGE_KEYS_SESSION) as [text|] eqn:E;
      [|by left].
    destruct (Hs text E) as [s ->]. right. exists s.
    destruct (String.eqb_spec (JSON_stringify s) "") as [E0|_].
    + by destruct (JSON_stringify_nonempty s).
    + apply read_stored_stringify.
  - destruct (tempSession w) as [s|]; [right; by exists s | by left].
Qed.

End Session_facts.

(** The last field of a [frame]. *)
Ltac sound_step :=
  first
    [ exact (λ H, H)
    | let Hsound := fresh "Hsound" in
      intros Hsound; eapply sound_same; [|exact Hsound]; simpl;
      first [reflexivity | by rewrite lookup_insert_ne]
    | intros _; eapply sound_written; simpl; apply lookup_insert_eq ].


Section Identity_facts.
Context `{!JSON ConsentStatus, !JSON SessionData}.


Lemma visitor_frame_stored w w' :
  visitor_frame w w' → stored_session w' = stored_session w.
Proof.
  intros [F T O]. unfold stored_session.
  rewrite (frame_granted _ _ F), T, (O STORAGE_KEYS_SESSION); done.
Qed.

Lemma visitor_frame_refl w : visitor_frame w w.
Proof. constructor; [apply frame_refl | done | done]. Qed.

Lemma visitor_frame_trans w1 w2 w3 :
  visitor_frame w1 w2 → visitor_frame w2 w3 → visitor_frame w1 w3.
Proof.
  intros [F1 T1 O1] [F2 T2 O2]. constructor.
  - eauto using frame_trans.
  - congruence.
  - intros k Hk. rewrite O2, O1; done.
Qed.

Lemma temporaryVisitorId_spec w :
  ∃ id w', temporaryVisitorId w = Returned id w' ∧ visitor_frame w w'
           ∧ tempVisitorId w' = Some id
           ∧ localStorage w' = localStorage w.
Proof.
  unfold temporaryVisitorId, bind, get, generateUUID, modify, ret.
  destruct (tempVisitorId w) as [id|] eqn:E.
  - destruct (String.eqb id "").
    + eexists _, _. split; [reflexivity|].
      split; [|done].
      constructor; [constructor|..]; simpl; auto with lia; sound_step.
    + exists id, w. split; [done|]. split; [apply visitor_frame_refl | done].
  - eexists _, _. split; [reflexivity|].
    split; [|done].
    constructor; [constructor|..]; simpl; auto with lia; sound_step.
Qed.

Lemma getVisitorId_spec w :
  ∃ id w', getVisitorId w = Returned id w' ∧ visitor_frame w w'.
Proof.
  unfold getVisitorId, bind. rewrite hasAnalyticsConsent_eq.
  destruct (analytics_granted w) eqn:G; simpl.
  2: { destruct (temporaryVisitorId_spec w) as (id & w' & E & F & _).
       eauto. }
  unfold try_catch, bind, localStorage_getItem.
  rewrite (granted_not_denied _ G).
  destruct (str_truthy (localStorage w !! STORAGE_KEYS_VISITOR)).
  { eexists _, _. split; [reflexivity | apply visitor_frame_refl]. }
  unfold get.
  destruct (str_truthy (tempVisitorId w)); unfold ret, generateUUID,
    localStorage_setItem; simpl; rewrite (granted_not_denied _ G); simpl;
    destruct (storage_full (browser w)).
  - destruct (temporaryVisitorId_spec w) as (id & w' & E & F & _). eauto.
  - eexists _, _. split; [reflexivity|].
    constructor; [constructor|..]; simpl; auto with lia; try sound_step;
      intros; by rewrite lookup_insert_ne.
  - destruct (temporaryVisitorId_spec (set_uuid_drawn (S (uuid_drawn w)) w))
      as (id & w' & E & F & _).
    exists id, w'. split; [done|].
    eapply visitor_frame_trans; [|exact F].
    constructor; [constructor|..]; simpl; auto with lia; sound_step.
  - eexists _, _. split; [reflexivity|].
    constructor; [constructor|..]; simpl; auto with lia; try sound_step;
      intros; by rewrite lookup_insert_ne.
Qed.

Lemma quiet_getVisitorId : quiet getVisitorId.
Proof.
  intros w. destruct (getVisitorId_spec w) as (id & w' & E & [F _ _]). eauto.
Qed.

(** Saving, when a write can succeed, makes the session the stored one. *)
Lemma saveSession_spec (s : SessionData) w :
  storage_full (browser w) = false →
  ∃ w', saveSession s w = Returned () w' ∧ frame w w'
        ∧ stored_session w' = Some s ∧ uuid_drawn w' = uuid_drawn w.
Proof.
  intros Hfull. unfold saveSession, bind. rewrite hasAnalyticsConsent_eq.
  destruct (analytics_granted w) eqn:G; simpl.
  - unfold try_catch, bind, localStorage_setItem, modify.
    rewrite (granted_not_denied _ G), Hfull. simpl.
    eexists. split; [reflexivity|].
    assert (Fr : frame w
      (set_tempSession (Some s)
         (set_localStorage
            (<[STORAGE_KEYS_SESSION:=JSON_stringify s]> (localStorage w)) w))).
    { constructor; simpl; auto; [by rewrite lookup_insert_ne | sound_step]. }
    split; [exact Fr|]. split; [|done].
    unfold stored_session. rewrite (frame_granted _ _ Fr), G. simpl.
    rewrite lookup_insert_eq.
    destruct (String.eqb_spec (JSON_stringify s) "") as [E|_].
    + by destruct (JSON_stringify_nonempty s).
    + apply read_stored_stringify.
  - unfold modify. eexists. split; [reflexivity|].
    assert (Fr : frame w (set_tempSession (Some s) w)).
    { constructor; simpl; auto; sound_step. }
    split; [exact Fr|]. split; [|done].
    unfold stored_session. by rewrite (frame_granted _ _ Fr), G.
Qed.

(** Saving never throws, whatever the storage does. *)
Lemma quiet_saveSession (s : SessionData) : quiet (saveSession s).
Proof.
  intros w. unfold saveSession, bind. rewrite hasAnalyticsConsent_eq.
  destruct (analytics_granted w) eqn:G; simpl.
  - unfold try_catch, bind, localStorage_setItem, modify, ret.
    destruct (storage_denied (browser w) || storage_full (browser w)).
    + eexists _, _. split; [reflexivity | apply frame_refl].
    + eexists _, _. split; [reflexivity|].
      constructor; simpl; auto; [by rewrite lookup_insert_ne | sound_step].
  - unfold modify. eexists _, _. split; [reflexivity|].
    constructor; simpl; auto; sound_step.
Qed.

Lemma createNewSession_spec w :
  storage_full (browser w) = false →
  ∃ s w', createNewSession w = Returned s w' ∧ frame w w'
          ∧ stored_session w' = Some s
          ∧ page_views s = 0
          ∧ created_at s = Date_now w
          ∧ last_activity_at s = Date_now w
          ∧ ∃ n, (uuid_drawn w ≤ n < uuid_drawn w')%nat
                 ∧ session_id s = randomUUID (browser w) n.
Proof.
  intros Hfull. unfold createNewSession, bind, get.
  destruct (getVisitorId_spec w) as (vid & w1 & -> & [F1 _ _]).
  unfold generateUUID.
  set (s := {| session_id := randomUUID (browser w1) (uuid_drawn w1);
               visitor_id := vid; created_at := Date_now w;
               last_activity_at := Date_now w; page_views := 0 |}).
  set (w2 := set_uuid_drawn (S (uuid_drawn w1)) w1).
  assert (F2 : frame w1 w2).
  { constructor; simpl; auto with lia; sound_step. }
  destruct (saveSession_spec s w2) as (w3 & -> & F3 & St & U).
  { simpl. by rewrite (frame_browser _ _ F1). }
  exists s, w3. split; [done|].
  split; [eauto using frame_trans|].
  do 4 (split; [done|]).
  exists (uuid_drawn w1). rewrite U. simpl.
  split; [pose proof (frame_uuid _ _ F1); lia|].
  by rewrite (frame_browser _ _ F1).
Qed.

Lemma quiet_createNewSession : quiet createNewSession.
Proof.
  unfold createNewSession.
  apply quiet_bind; [apply quiet_get|]. intros now.
  apply quiet_bind; [apply quiet_getVisitorId|]. intros vid.
  apply quiet_bind.
  { intros w. eexists _, _. split; [reflexivity|].
    constructor; simpl; auto with lia; sound_step. }
  intros sid. apply quiet_bind; [apply quiet_saveSession|].
  intros _. apply quiet_ret.
Qed.

Lemma updateSessionActivity_spec (s : SessionData) w :
  storage_full (browser w) = false →
  ∃ s' w', updateSessionActivity s w = Returned s' w' ∧ frame w w'
           ∧ stored_session w' = Some s'
           ∧ session_id s' = session_id s
           ∧ page_views s' = page_views s + 1
           ∧ last_activity_at s' = Date_now w
           ∧ uuid_drawn w' = uuid_drawn w.
Proof.
  intros Hfull. unfold updateSessionActivity, bind, get.
  set (s' := {| session_id := session_id s; visitor_id := visitor_id s;
                created_at := created_at s; last_activity_at := Date_now w;
                page_views := page_views s + 1 |}).
  destruct (saveSession_spec s' w Hfull) as (w' & -> & F & St & U).
  by exists s', w'.
Qed.

Lemma quiet_updateSessionActivity (s : SessionData) :
  quiet (updateSessionActivity s).
Proof.
  unfold updateSessionActivity.
  apply quiet_bind; [apply quiet_get|]. intros now.
  apply quiet_bind; [apply quiet_saveSession|]. intros _. apply quiet_ret.
Qed.

(** What [getSessionId] and [getSession] do once [getStoredSession] has
    found nothing or a session object. *)
Lemma quiet_after_getStoredSession {A} (f : SessionData → A)
    (o : option SessionData) :
  quiet
    (match Session <$> o with
     | None => let* s := createNewSession in ret (f s)
     | Some session =>
         if negb (is_truthy session) then
           let* s := createNewSession in ret (f s)
         else
           let* expired := isSessionExpired session in
           if expired then let* s := createNewSession in ret (f s)
           else let* s := updateSessionActivity session in ret (f s)
     end).
Proof.
  destruct o as [s|]; simpl.
  - apply quiet_bind; [apply quiet_bind;
                       [apply quiet_get | intros; apply quiet_ret]|].
    intros [|]; (apply quiet_bind; [|intros; apply quiet_ret]).
    + apply quiet_createNewSession.
    + apply (quiet_updateSessionActivity s).
  - apply quiet_bind; [apply quiet_createNewSession|intros; apply quiet_ret].
Qed.

Lemma stored_session_fmap w :
  session_entry_sound w →
  ∃ o : option SessionData, stored_session w = Session <$> o.
Proof.
  intros Hs. destruct (stored_session_sound w Hs) as [E|[s E]].
  - by exists None.
  - by exists (Some s).
Qed.

(** [getSessionId] returns wherever the session entry is sound. *)
Lemma getSessionId_returns w :
  session_entry_sound w →
  ∃ id w', getSessionId w = Returned id w' ∧ frame w w'.
Proof.
  intros Hs. destruct (stored_session_fmap w Hs) as [o E].
  unfold getSessionId, bind at 1. rewrite getStoredSession_eq, E.
  apply (quiet_after_getStoredSession session_id o).
Qed.

(** [getSessionId] when the stored session is still alive. *)
Lemma getSessionId_alive (s : SessionData) w :
  stored_session w = Some s →
  storage_full (browser w) = false →
  Date_now w - last_activity_at s ≤ SESSION_TIMEOUT_MS →
  ∃ (s' : SessionData) w',
    getSessionId w = Returned (session_id s) w' ∧ frame w w'
           ∧ stored_session w' = Some s'
           ∧ session_id s' = session_id s
           ∧ page_views s' = page_views s + 1
           ∧ last_activity_at s' = Date_now w
           ∧ uuid_drawn w' = uuid_drawn w.
Proof.
  intros St Hfull Hlive. unfold getSessionId, bind.
  rewrite getStoredSession_eq, St. cbn [is_truthy negb].
  unfold isSessionExpired, bind, get, ret.
  rewrite bool_decide_eq_false_2 by lia.
  destruct (updateSessionActivity_spec s w Hfull)
    as (s' & w' & -> & F & St' & Hid & Hpv & Hl & U).
  exists s', w'. rewrite Hid. done.
Qed.

(** [getSessionId] when there is no session or it has expired. *)
Lemma getSessionId_fresh w :
  storage_full (browser w) = false →
  (stored_session w = None
   ∨ (∃ s : SessionData,
        stored_session w = Some s
        ∧ Date_now w - last_activity_at s > SESSION_TIMEOUT_MS)
   ∨ ∃ v, stored_session w = Some (Primitive v) ∧ truthy v = false) →
  ∃ s' w', getSessionId w = Returned (session_id s') w' ∧ frame w w'
           ∧ stored_session w' = Some s'
           ∧ page_views s' = 0
           ∧ created_at s' = Date_now w
           ∧ last_activity_at s' = Date_now w
           ∧ ∃ n, (uuid_drawn w ≤ n < uuid_drawn w')%nat
                  ∧ session_id s' = randomUUID (browser w) n.
Proof.
  intros Hfull Hcase. unfold getSessionId, bind. rewrite getStoredSession_eq.
  destruct (createNewSession_spec w Hfull) as (s' & w' & E & Rest).
  destruct Hcase as [-> | [(s & -> & Hexp) | (v & -> & Hv)]].
  - rewrite E. by exists s', w'.
  - cbn [is_truthy negb]. unfold isSessionExpired, bind, get, ret.
    rewrite bool_decide_eq_true_2 by lia. rewrite E. by exists s', w'.
  - cbn [is_truthy]. rewrite Hv. cbn [negb]. rewrite E. by exists s', w'.
Qed.

(** With a truthy primitive under [sr_session], [getSessionId] and
    [getSession] reach [updateSessionActivity], which throws; nothing has
    changed by then. *)
Lemma getSessionId_throws w v :
  stored_session w = Some (Primitive v) → truthy v = true →
  getSessionId w = Threw w ∧ getSession w = Threw w.
Proof.
  intros St Hv. unfold getSessionId, getSession, bind.
  rewrite getStoredSession_eq, St. cbn [is_truthy]. rewrite Hv. done.
Qed.

(** Whatever is stored, [getSessionId] either returns, having changed
    identity state only, or throws before it has changed anything. *)
Lemma getSessionId_outcome w :
  (∃ id w', getSessionId w = Returned id w' ∧ frame w w')
  ∨ getSessionId w = Threw w.
Proof.
  destruct (stored_session w) as [[s|v]|] eqn:St.
  - left. unfold getSessionId, bind at 1. rewrite getStoredSession_eq, St.
    apply (quiet_after_getStoredSession session_id (Some s)).
  - destruct (truthy v) eqn:Hv.
    + right. by apply (getSessionId_throws w v).
    + left. unfold getSessionId, bind at 1. rewrite getStoredSession_eq, St.
      cbn [is_truthy]. rewrite Hv. cbn [negb].
      apply (quiet_after_getStoredSession session_id None).
  - left. unfold getSessionId, bind at 1. rewrite getStoredSession_eq, St.
    apply (quiet_after_getStoredSession session_id None).
Qed.

End Identity_facts.

(** ** Consent store *)

Section Consent_store.
Context `{!JSON ConsentStatus}.


Lemma consent_unreadable_None w :
  consent_unreadable w = true → readable_consent w = None.
Proof.
  unfold consent_unreadable, readable_consent.
  destruct (storage_denied (browser w)); [done|]. simpl.
  destruct (localStorage w !! CONSENT_STORAGE_KEY) as [text|]; [|done].
  destruct (String.eqb text ""); [done|].
  by destruct (JSON_parse text).
Qed.


End Consent_store.

(** ** Sessions *)

Section Sessions.
Context `{!JSON ConsentStatus, !JSON SessionData}.

Lemma getStoredSession_inv w (o : option StoredSession) w' :
  getStoredSession w = Returned o w' → stored_session w = o ∧ w' = w.
Proof. rewrite getStoredSession_eq. intros [= -> ->]. done. Qed.

(** After any call that can write, the stored session is the one whose id
    was returned, and its last activity is the time of the call. *)
Lemma getSessionId_after w id w' :
  storage_full (browser w) = false →
  getSessionId w = Returned id w' →
  frame w w'
  ∧ ∃ s : SessionData,
      stored_session w' = Some s ∧ session_id s = id
      ∧ last_activity_at s = Date_now w.
Proof.
  intros Hfull E.
  destruct (stored_session w) as [[s|v]|] eqn:St.
  - destruct (decide (Date_now w - last_activity_at s ≤ SESSION_TIMEOUT_MS))
      as [Hlive|Hexp].
    + destruct (getSessionId_alive s w St Hfull Hlive)
        as (s' & w1 & E1 & F & St' & Hid & _ & Hl & _).
      rewrite E1 in E. injection E as <- <-. eauto.
    + destruct (getSessionId_fresh w Hfull)
        as (s' & w1 & E1 & F & St' & _ & _ & Hl & _).
      { right. left. exists s. split; [done | lia]. }
      rewrite E1 in E. injection E as <- <-. eauto.
  - destruct (truthy v) eqn:Hv.
    + destruct (getSessionId_throws w v St Hv) as [E1 _].
      rewrite E1 in E. discriminate.
    + destruct (getSessionId_fresh w Hfull)
        as (s' & w1 & E1 & F & St' & _ & _ & Hl & _).
      { right. right. by exists v. }
      rewrite E1 in E. injection E as <- <-. eauto.
  - destruct (getSessionId_fresh w Hfull)
      as (s' & w1 & E1 & F & St' & _ & _ & Hl & _); [by left|].
    rewrite E1 in E. injection E as <- <-. eauto.
Qed.


(** C4.  From a stored session that is still alive, [N] calls of
    [getSessionId], each within 30 minutes of the activity before it, all
    return the id of that session and leave it stored with [page_views]
    raised by [N]. *)
Theorem page_views_counts_calls (s : SessionData) (times : list Z) (w : World) :
  getStoredSession w = Returned (Some s) w →
  storage_full (browser w) = false →
  within_idle_window (last_activity_at s) times →
  ∃ (s' : SessionData) w',
    getSessionId_at times w
    = Returned (replicate (length times) (session_id s)) w'
    ∧ getStoredSession w' = Returned (Some s') w'
    ∧ session_id s' = session_id s
    ∧ page_views s' = page_views s + Z.of_nat (length times)
    ∧ page_views s ≤ page_views s'.
Proof.
  intros St. apply getStoredSession_inv in St as [St _].
  revert s w St.
  induction times as [|t times IH]; intros s w St Hfull Hwin.
  - exists s, w. rewrite getStoredSession_eq, St. simpl.
    repeat split; try done; lia.
  - destruct Hwin as [Ht Hwin]. simpl.
    unfold bind at 1. unfold clock_reads, modify.
    destruct (getSessionId_alive s (set_Date_now t w))
      as (s1 & w1 & E1 & F1 & St1 & Hid1 & Hpv1 & Hl1 & _); [done..|].
    unfold bind at 1. rewrite E1.
    destruct (IH s1 w1 St1) as (s' & w' & E' & St' & Hid' & Hpv' & _).
    { by rewrite (frame_browser _ _ F1). }
    { by rewrite Hl1. }
    unfold bind at 1. rewrite E'. unfold ret.
    exists s', w'. rewrite Hid1. split; [done|].
    split; [done|]. split; [congruence|]. lia.
Qed.

(** C9.  A temporary visitor id handed out while analytics consent was
    absent is the one that the next call persists and returns once consent
    has been granted on the same page, when no visitor id is stored yet and
    storage can be written: no new UUID is drawn. *)
Theorem temporary_visitor_id_is_promoted (w w1 w2 : World) (tmp : string) :
  hasAnalyticsConsent w = Returned false w →
  getVisitorId w = Returned tmp w1 →
  tmp ≠ "" →
  tempVisitorId w2 = tempVisitorId w1 →
  hasAnalyticsConsent w2 = Returned true w2 →
  localStorage w2 !! STORAGE_KEYS_VISITOR = None →
  storage_full (browser w2) = false →
  ∃ w3,
    getVisitorId w2 = Returned tmp w3
    ∧ localStorage w3 !! STORAGE_KEYS_VISITOR = Some tmp
    ∧ uuid_drawn w3 = uuid_drawn w2.
Proof.
  intros Hno E Hne Htmp Hyes Hls Hfull.
  rewrite hasAnalyticsConsent_eq in Hno, Hyes.
  injection Hno as Hno. injection Hyes as Hyes.
  assert (Some tmp = tempVisitorId w1) as T1.
  { unfold getVisitorId, bind in E. rewrite hasAnalyticsConsent_eq, Hno in E.
    simpl in E.
    destruct (temporaryVisitorId_spec w) as (id & w' & E' & _ & T & _).
    rewrite E' in E. injection E as <- <-. done. }
  unfold getVisitorId, bind. rewrite hasAnalyticsConsent_eq, Hyes. simpl.
  unfold try_catch, bind, localStorage_getItem, get.
  rewrite (granted_not_denied _ Hyes), Hls. simpl. rewrite Htmp, <- T1. simpl.
  destruct (String.eqb_spec tmp "") as [->|_]; [done|]. simpl.
  unfold ret, localStorage_setItem.
  rewrite (granted_not_denied _ Hyes), Hfull. simpl.
  eexists. split; [reflexivity|]. simpl. by rewrite lookup_insert_eq.
Qed.

End Sessions.

(** ** Transport *)

Section Transport_facts.
Context `{!JSON ConsentStatus, !JSON SessionData}.

Lemma sendEvent_eq (config : RequiredTrackerConfig) (payload : EventData) w :
  sendEvent config payload w
  = Returned ()
      (set_network
         (network w ++ [{| req_transport := ViaFetch;
                           req_endpoint := track_event_endpoint config;
                           req_api_key := apiKey config;
                           req_body := EventBody payload |}]) w).
Proof. reflexivity. Qed.

Lemma promote_ids_keeps (d : option jsobj) (e : EventData) :
  event_type (promote_ids d e) = event_type e
  ∧ event_data (promote_ids d e) = event_data e
  ∧ ev_session_id (promote_ids d e) = ev_session_id e
  ∧ ev_visitor_id (promote_ids d e) = ev_visitor_id e.
Proof. done. Qed.

(** The builder reads identity (which may create or touch the session) and
    hands nothing to the network. *)
Lemma buildEventPayload_spec (eventType : string) (eventData : option jsobj) w :
  session_entry_sound w →
  ∃ e w', buildEventPayload eventType eventData w = Returned e w'
          ∧ frame w w'
          ∧ event_type e = eventType ∧ event_data e = eventData.
Proof.
  intros Hs. unfold buildEventPayload, bind.
  destruct (getSessionId_returns w Hs) as (sid & w1 & -> & F1).
  destruct (quiet_getVisitorId w1) as (vid & w2 & -> & F2).
  unfold get, ret. eexists _, w2. split; [reflexivity|].
  split; [eauto using frame_trans | done].
Qed.

(** One request leaves, by beacon where the browser has one and by [fetch]
    otherwise. *)
Lemma sendBeacon_spec (config : RequiredTrackerConfig) (eventType : string)
    (eventData : option jsobj) w :
  session_entry_sound w →
  ∃ e w',
    sendBeacon config eventType eventData w = Returned () w'
    ∧ network w' =
        network w ++ [{| req_transport :=
                           (if navigator_sendBeacon (browser w)
                            then ViaBeacon else ViaFetch);
                         req_endpoint := track_event_endpoint config;
                         req_api_key := apiKey config;
                         req_body := EventBody e |}]
    ∧ browser w' = browser w ∧ Date_now w' = Date_now w
    ∧ event_type e = eventType ∧ event_data e = eventData.
Proof.
  intros Hs. unfold sendBeacon, bind.
  destruct (getSessionId_returns w Hs) as (sid & w1 & -> & F1).
  destruct (quiet_getVisitorId w1) as (vid & w2 & -> & F2).
  pose proof (frame_trans _ _ _ F1 F2) as [Hb Hn Hnet _ _ _ _ _ _ _].
  unfold get. rewrite Hb.
  destruct (navigator_sendBeacon (browser w)).
  - eexists _, _. split; [reflexivity|]. simpl. rewrite Hnet. done.
  - rewrite sendEvent_eq. eexists _, _. split; [reflexivity|].
    simpl. rewrite Hnet. done.
Qed.

End Transport_facts.

(** ** Duration floor *)

Section Durations.
Context `{!JSON ConsentStatus, !JSON SessionData}.

(** C7.  With a start time set and a session entry that is absent or a
    session, [trackPropertyDuration] sends nothing while fewer than 3 whole
    seconds have elapsed (so nothing at 2 seconds), and otherwise hands over
    exactly one [property_view] event whose [view_duration_seconds] is the
    number of whole seconds elapsed (4 at 4 seconds). *)
Theorem property_duration_floor (config : RequiredTrackerConfig)
    (propertyId : string) (startTime : Z) (w : World) :
  startTime ≠ 0 →
  session_entry_sound w →
  let seconds := (Date_now w - startTime) `div` 1000 in
  if bool_decide (seconds < 3) then
    propertyTracking.trackPropertyDuration config propertyId startTime w
    = Returned () w
  else
    ∃ r e w',
      propertyTracking.trackPropertyDuration config propertyId startTime w
      = Returned () w'
      ∧ network w' = network w ++ [r]
      ∧ req_body r = EventBody e
      ∧ event_type e = "property_view"
      ∧ field "view_duration_seconds" e = VNum seconds
      ∧ field "property_id" e = VStr propertyId.
Proof.
  intros Hstart Hs seconds. unfold propertyTracking.trackPropertyDuration.
  destruct (Z.eqb_spec startTime 0) as [|_]; [done|].
  unfold seconds_since, bind, get, ret. fold seconds.
  destruct (bool_decide (seconds < 3)); [done|].
  destruct (sendBeacon_spec config "property_view"
              (Some [("property_id", VStr propertyId);
                     ("view_duration_seconds", VNum seconds);
                     ("page_url", href_val w)]) w Hs)
    as (e & w' & E & Hnet & _ & _ & Hty & Hdata).
  eexists _, e, w'. split; [exact E|]. split; [exact Hnet|].
  split; [done|]. split; [done|]. unfold field. rewrite Hdata. done.
Qed.

End Durations.

(** ** Scroll depth *)

Section Scroll_depth.
Context `{!JSON ConsentStatus, !JSON SessionData}.


Lemma crossed_nonzero percent maxScrollDepth m :
  crossed percent maxScrollDepth = Some m → Z.eqb m 0 = false.
Proof.
  unfold crossed, blogTracking.milestones. simpl.
  repeat case_match; intros [= <-]; done.
Qed.

Lemma trackScroll_fires config articleId maxScrollDepth scrollTop docHeight m w :
  crossed (blogTracking.scrollPercent scrollTop docHeight) maxScrollDepth
  = Some m →
  blogTracking.scrollPercent scrollTop docHeight > maxScrollDepth →
  session_entry_sound w →
  ∃ e w',
    blogTracking.trackScroll config articleId maxScrollDepth
      scrollTop docHeight w
    = Returned (blogTracking.scrollPercent scrollTop docHeight) w'
    ∧ network w' =
        network w ++ [{| req_transport := ViaFetch;
                         req_endpoint := track_event_endpoint config;
                         req_api_key := apiKey config;
                         req_body := EventBody e |}]
    ∧ event_type e = "blog_scroll_depth"
    ∧ field "scroll_depth" e = VNum m
    ∧ session_entry_sound w'.
Proof.
  intros Hm Hgt Hs. unfold blogTracking.trackScroll. fold (crossed
    (blogTracking.scrollPercent scrollTop docHeight) maxScrollDepth).
  rewrite Hm, (crossed_nonzero _ _ _ Hm), bool_decide_eq_true_2 by done.
  simpl. unfold bind, get.
  destruct (buildEventPayload_spec "blog_scroll_depth"
              (Some [("article_id", VStr articleId); ("scroll_depth", VNum m);
                     ("page_url", href_val w)]) w Hs)
    as (e & w1 & -> & F & Hty & Hdata).
  rewrite sendEvent_eq. unfold ret.
  eexists e, _. split; [reflexivity|]. simpl.
  rewrite (frame_network _ _ F). split; [done|]. split; [done|].
  split; [unfold field; by rewrite Hdata|].
  exact (frame_sound _ _ F Hs).
Qed.

Lemma trackScroll_silent config articleId maxScrollDepth scrollTop docHeight w :
  crossed (blogTracking.scrollPercent scrollTop docHeight) maxScrollDepth = None
  ∨ blogTracking.scrollPercent scrollTop docHeight ≤ maxScrollDepth →
  blogTracking.trackScroll config articleId maxScrollDepth scrollTop docHeight w
  = Returned (Z.max (blogTracking.scrollPercent scrollTop docHeight)
                    maxScrollDepth) w.
Proof.
  intros Hcase. unfold blogTracking.trackScroll. fold (crossed
    (blogTracking.scrollPercent scrollTop docHeight) maxScrollDepth).
  set (p := blogTracking.scrollPercent scrollTop docHeight) in *.
  destruct (crossed p maxScrollDepth) as [m|] eqn:Hm.
  - destruct Hcase as [|Hle]; [done|].
    rewrite bool_decide_eq_false_2 by lia. rewrite andb_false_r.
    unfold ret. f_equal. lia.
  - case_bool_decide; unfold ret; f_equal; lia.
Qed.

Lemma scroll_through_cons config articleId depth scrollTop docHeight ps :
  scroll_through config articleId depth ((scrollTop, docHeight) :: ps)
  = bind (blogTracking.trackScroll config articleId depth scrollTop docHeight)
         (λ depth', scroll_through config articleId depth' ps).
Proof. reflexivity. Qed.

(** C3, what the code does.  With a session entry that is absent or a
    session, scrolling to 10%, 30%, 60%, back to 40% and then to 100% hands
    over exactly three [blog_scroll_depth] events, with milestones 25, 50 and
    75, not 100: each position reports the lowest milestone above the depth
    recorded so far, so the jump from 60% to 100% reports 75, the depth
    becomes 100 and milestone 100 is never reported, although the reader
    reached the end; nothing is sent on the way back to 40%. *)
Theorem scroll_milestones_fired (config : RequiredTrackerConfig)
    (articleId : string) (positions : list (Z * Z)) (w : World) :
  session_entry_sound w →
  map (λ p, blogTracking.scrollPercent p.1 p.2) positions
  = [10; 30; 60; 40; 100] →
  ∃ r1 r2 r3 w',
    scroll_through config articleId 0 positions w = Returned 100 w'
    ∧ network w' = network w ++ [r1; r2; r3]
    ∧ map event_type (events [r1; r2; r3])
      = ["blog_scroll_depth"; "blog_scroll_depth"; "blog_scroll_depth"]
    ∧ map (field "scroll_depth") (events [r1; r2; r3])
      = [VNum 25; VNum 50; VNum 75].
Proof.
  intros Hs Hpos.
  destruct positions as [|[t1 h1] [|[t2 h2] [|[t3 h3] [|[t4 h4] [|[t5 h5] [|]]]]]];
    try discriminate.
  simpl in Hpos. injection Hpos as H1 H2 H3 H4 H5.
  rewrite scroll_through_cons. unfold bind at 1.
  rewrite trackScroll_silent by (rewrite H1; by left). rewrite H1.
  change (Z.max 10 0) with 10.
  destruct (trackScroll_fires config articleId 10 t2 h2 25 w)
    as (e1 & w1 & E1 & N1 & T1 & D1 & Hs1);
    [by rewrite H2 | rewrite H2; lia | done |].
  rewrite scroll_through_cons. unfold bind at 1. rewrite E1, H2.
  destruct (trackScroll_fires config articleId 30 t3 h3 50 w1)
    as (e2 & w2 & E2 & N2 & T2 & D2 & Hs2);
    [by rewrite H3 | rewrite H3; lia | done |].
  rewrite scroll_through_cons. unfold bind at 1. rewrite E2, H3.
  rewrite scroll_through_cons. unfold bind at 1.
  rewrite trackScroll_silent by (rewrite H4; right; lia). rewrite H4.
  change (Z.max 40 60) with 60.
  destruct (trackScroll_fires config articleId 60 t5 h5 75 w2)
    as (e3 & w3 & E3 & N3 & T3 & D3 & Hs3);
    [by rewrite H5 | rewrite H5; lia | done |].
  rewrite scroll_through_cons. unfold bind at 1. rewrite E3, H5.
  unfold scroll_through, ret.
  eexists _, _, _, w3. split; [done|].
  split.
  { rewrite N3, N2, N1, <- !app_assoc. simpl. reflexivity. }
  simpl. by rewrite T1, T2, T3, D1, D2, D3.
Qed.

End Scroll_depth.

(** ** Search store-and-forward *)

Section Search_facts.
Context `{!JSON ConsentStatus, !JSON SessionData, !JSON SearchTrackingData}.
Variable formatPriceRange : jsval → jsval → string.

(** A facade that may track hands exactly one event to the network. *)
Lemma trackEvent_sends (eventType : string) (eventData : option jsobj)
    (this : StratosTracker) w :
  Tracker.canTrack this = true →
  session_entry_sound w →
  ∃ e w',
    Tracker.trackEvent eventType eventData this w = Returned this w'
    ∧ network w' =
        network w ++ [{| req_transport := ViaFetch;
                         req_endpoint := track_event_endpoint (config this);
                         req_api_key := apiKey (config this);
                         req_body := EventBody e |}]
    ∧ sessionStorage w' = sessionStorage w
    ∧ browser w' = browser w
    ∧ event_type e = eventType ∧ event_data e = eventData.
Proof.
  intros Hcan Hs. unfold Tracker.trackEvent. rewrite Hcan. simpl. unfold bind.
  destruct (buildEventPayload_spec eventType eventData w Hs)
    as (e & w1 & -> & F & Hty & Hdata).
  rewrite sendEvent_eq. unfold ret. eexists e, _. split; [reflexivity|].
  simpl. rewrite (frame_network _ _ F), (frame_sessionStorage _ _ F),
    (frame_browser _ _ F). done.
Qed.

Lemma storeSearchForTracking_spec (X : PartialSearch) w :
  storage_denied (browser w) = false →
  storage_full (browser w) = false →
  searchTracking.storeSearchForTracking X w
  = Returned ()
      (set_sessionStorage
         (<[searchTracking.STORAGE_KEY :=
              JSON_stringify
                (searchTracking.trackingData X (Date_now w)
                   (location_pathname (browser w)))]> (sessionStorage w)) w).
Proof.
  intros Hd Hf.
  unfold searchTracking.storeSearchForTracking, try_catch, bind, get,
    sessionStorage_setItem.
  by rewrite Hd, Hf.
Qed.

Lemma sendPendingSearchEvent_absent (g : option StratosTracker) w :
  sessionStorage w !! searchTracking.STORAGE_KEY = None →
  searchTracking.sendPendingSearchEvent formatPriceRange g w = Returned false w.
Proof.
  intros Habs.
  unfold searchTracking.sendPendingSearchEvent, try_catch, bind,
    sessionStorage_getItem.
  destruct (storage_denied (browser w)); [done|]. by rewrite Habs.
Qed.

(** Reading a pending record: it is removed before anything else is done. *)
Lemma sendPendingSearchEvent_read (g : option StratosTracker)
    (data : SearchTrackingData) w :
  storage_denied (browser w) = false →
  sessionStorage w !! searchTracking.STORAGE_KEY = Some (JSON_stringify data) →
  let w0 := set_sessionStorage
              (delete searchTracking.STORAGE_KEY (sessionStorage w)) w in
  searchTracking.sendPendingSearchEvent formatPriceRange g w
  = if bool_decide (Date_now w - search_timestamp data > 30000)
    then Returned false w0
    else match g with
         | Some tracker =>
             match Tracker.trackEvent "search"
                     (Some (searchTracking.search_event_data formatPriceRange
                              data (Date_now w))) tracker w0 with
             | Returned _ w' => Returned true w'
             | Threw w' => Returned false w'
             end
         | None => Returned false w0
         end.
Proof.
  intros Hd Hst w0.
  unfold searchTracking.sendPendingSearchEvent, try_catch, bind,
    sessionStorage_getItem, sessionStorage_removeItem, parse, get.
  rewrite Hd, Hst.
  destruct (String.eqb_spec (JSON_stringify data) "") as [E|_].
  { by destruct (JSON_stringify_nonempty data). }
  simpl. rewrite Hd, JSON_parse_stringify. unfold ret. simpl.
  fold w0. destruct (bool_decide _); [done|].
  destruct g as [tracker|]; [|done].
  by destruct (Tracker.trackEvent _ _ tracker w0).
Qed.

(** What [location: data.location || data.postcode || ''] and
    [postcode: data.postcode || ''] give on a record that
    [storeSearchForTracking] wrote. *)
Lemma str_or_stored (o : option string) (b : string) :
  str_or (Some (str_or o b)) (str_or (Some b) "") = str_or o b.
Proof.
  destruct o as [a|]; simpl.
  - destruct (String.eqb_spec a "") as [->|Ha].
    + destruct (String.eqb_spec b "") as [->|Hb]; simpl; [done|].
      by destruct (String.eqb_spec b "").
    + by destruct (String.eqb_spec a "").
  - destruct (String.eqb_spec b "") as [->|Hb]; simpl; [done|].
    by destruct (String.eqb_spec b "").
Qed.

Lemma str_or_again (o : option string) :
  str_or (Some (str_or o "")) "" = str_or o "".
Proof.
  destruct o as [a|]; simpl; [|done].
  destruct (String.eqb_spec a "") as [->|Ha]; simpl; [done|].
  by destruct (String.eqb_spec a "").
Qed.

(** The event data that [sendPendingSearchEvent] builds from the record
    that [storeSearchForTracking(X)] wrote at [now] on the page [pathname],
    [delay] milliseconds later, field by field in terms of [X]. *)
Lemma search_event_data_of (X : PartialSearch) (now delay : Z)
    (pathname : string) :
  searchTracking.search_event_data formatPriceRange
    (searchTracking.trackingData X now pathname) (now + delay)
  = [("location",
      VStr (str_or (p_location X) (str_or (p_postcode X) "")));
     ("postcode", VStr (str_or (p_postcode X) ""));
     ("min_price", js_or (p_min_price X) VNull);
     ("max_price", js_or (p_max_price X) VNull);
     ("price_range",
      VStr (formatPriceRange (p_min_price X) (p_max_price X)));
     ("bedrooms", js_or (p_bedrooms X) VNull);
     ("bathrooms", js_or (p_bathrooms X) VNull);
     ("property_type", js_or (of_opt_str (p_property_type X)) VNull);
     ("listing_type", VStr (str_or (p_listing_type X) "sale"));
     ("filters", VObj (default [] (p_filters X)));
     ("filters_count", VNum (default 0 (p_filters_count X)));
     ("source_page", VStr (str_or (p_source_page X) pathname));
     ("source_component",
      VStr (str_or (p_source_component X) "unknown"));
     ("search_timestamp", VNum now);
     ("tracking_delay_ms", VNum delay)].
Proof.
  unfold searchTracking.search_event_data, searchTracking.trackingData.
  cbn [location postcode min_price max_price bedrooms bathrooms property_type
       listing_type filters filters_count source_page source_component
       search_timestamp].
  rewrite str_or_stored, str_or_again.
  replace (now + delay - now) with delay by lia. reflexivity.
Qed.

(** C6.  When more than 30 seconds pass between [storeSearchForTracking(X)]
    and [sendPendingSearchEvent()] (31 seconds, say), the second hands
    nothing to the network and resolves [false], as it does when there is no
    record; it does not throw. *)
Theorem stale_pending_search_dropped (X : PartialSearch)
    (window_StratosTracker : option StratosTracker) (w : World) (delay : Z) :
  storage_full (browser w) = false →
  delay > 30000 →
  ∃ w1 w2,
    searchTracking.storeSearchForTracking X w = Returned () w1
    ∧ searchTracking.sendPendingSearchEvent formatPriceRange
        window_StratosTracker (set_Date_now (Date_now w + delay) w1)
      = Returned false w2
    ∧ network w2 = network w.
Proof.
  intros Hf Hdelay.
  destruct (storage_denied (browser w)) eqn:Hd.
  - exists w, (set_Date_now (Date_now w + delay) w).
    unfold searchTracking.storeSearchForTracking,
      searchTracking.sendPendingSearchEvent, try_catch, bind, get,
      sessionStorage_setItem, sessionStorage_getItem.
    simpl. by rewrite Hd.
  - pose proof (storeSearchForTracking_spec X w Hd Hf) as E1.
    set (w1 := set_sessionStorage _ w) in E1.
    pose proof (sendPendingSearchEvent_read window_StratosTracker
                  (searchTracking.trackingData X (Date_now w)
                     (location_pathname (browser w)))
                  (set_Date_now (Date_now w + delay) w1) Hd) as E2.
    simpl in E2. rewrite lookup_insert_eq in E2. specialize (E2 eq_refl).
    rewrite bool_decide_eq_true_2 in E2 by lia.
    by eexists _, _.
Qed.

End Search_facts.

(** ** Store and forward *)

Section Store_and_forward.
Context `{!JSON ConsentStatus, !JSON SessionData, !JSON SearchTrackingData,
          !Numbers}.

(** C5.  With storage available, a session entry that is absent or a
    session, and a facade on [window] that may track,
    [storeSearchForTracking(X)] followed by [sendPendingSearchEvent()] no
    more than 30 seconds later hands over exactly one [search] event and
    resolves [true].  The event carries the fields of [X] with the defaults
    of the two functions: location (falling back to the postcode), postcode,
    the prices, bedrooms, bathrooms and property type ([null] where falsy),
    the price text that the module's [formatPriceRange] computes from the
    two prices, the listing type
    (default [sale]), the filters and their count, the source page (default:
    the path of the storing page) and component (default [unknown]), the
    time of storing, and as [tracking_delay_ms] the time between the two
    calls (0 when immediate).  The record is gone by then: a second call
    hands over nothing and resolves [false]. *)
Theorem pending_search_forwarded_once (X : PartialSearch)
    (tracker : StratosTracker) (w : World) (delay : Z) :
  storage_denied (browser w) = false →
  storage_full (browser w) = false →
  session_entry_sound w →
  Tracker.canTrack tracker = true →
  delay ≤ 30000 →
  ∃ r e w1 w2,
    searchTracking.storeSearchForTracking X w = Returned () w1
    ∧ searchTracking.sendPendingSearchEvent searchTracking.formatPriceRange
        (Some tracker) (set_Date_now (Date_now w + delay) w1)
      = Returned true w2
    ∧ network w2 = network w ++ [r]
    ∧ req_body r = EventBody e
    ∧ event_type e = "search"
    ∧ event_data e
      = Some
          [("location",
            VStr (str_or (p_location X) (str_or (p_postcode X) "")));
           ("postcode", VStr (str_or (p_postcode X) ""));
           ("min_price", js_or (p_min_price X) VNull);
           ("max_price", js_or (p_max_price X) VNull);
           ("price_range",
            VStr (searchTracking.formatPriceRange
                    (p_min_price X) (p_max_price X)));
           ("bedrooms", js_or (p_bedrooms X) VNull);
           ("bathrooms", js_or (p_bathrooms X) VNull);
           ("property_type", js_or (of_opt_str (p_property_type X)) VNull);
           ("listing_type", VStr (str_or (p_listing_type X) "sale"));
           ("filters", VObj (default [] (p_filters X)));
           ("filters_count", VNum (default 0 (p_filters_count X)));
           ("source_page",
            VStr (str_or (p_source_page X) (location_pathname (browser w))));
           ("source_component",
            VStr (str_or (p_source_component X) "unknown"));
           ("search_timestamp", VNum (Date_now w));
           ("tracking_delay_ms", VNum delay)]
    ∧ field "tracking_delay_ms" e = VNum delay
    ∧ sessionStorage w2 !! searchTracking.STORAGE_KEY = None
    ∧ searchTracking.sendPendingSearchEvent searchTracking.formatPriceRange
        (Some tracker) w2
      = Returned false w2.
Proof.
  intros Hd Hf Hs Hcan Hdelay.
  set (data := searchTracking.trackingData X (Date_now w)
                 (location_pathname (browser w))).
  pose proof (storeSearchForTracking_spec X w Hd Hf) as E1. fold data in E1.
  set (w1 := set_sessionStorage _ w) in E1.
  pose proof (sendPendingSearchEvent_read searchTracking.formatPriceRange
                (Some tracker) data
                (set_Date_now (Date_now w + delay) w1) Hd) as E2.
  simpl in E2. rewrite lookup_insert_eq in E2. specialize (E2 eq_refl).
  rewrite bool_decide_eq_false_2 in E2 by lia.
  match type of E2 with context [Tracker.trackEvent ?t ?d tracker ?w0] =>
    destruct (trackEvent_sends t d tracker w0 Hcan)
      as (e & w2 & E & Hnet & Hss & Hb & Hty & Hdata); [exact Hs|]
  end.
  rewrite E in E2. eexists _, e, w1, w2. split; [done|]. split; [done|].
  split; [exact Hnet|]. split; [done|]. split; [done|].
  unfold data in Hdata. rewrite search_event_data_of in Hdata.
  split; [exact Hdata|].
  assert (Habs : sessionStorage w2 !! searchTracking.STORAGE_KEY = None).
  { rewrite Hss. simpl. apply lookup_delete_eq. }
  split; [unfold field; by rewrite Hdata|].
  split; [done|]. by apply sendPendingSearchEvent_absent.
Qed.

End Store_and_forward.

(** ** The consent gate of the facade *)

Section Consent_gate.
Context `{!JSON ConsentStatus, !JSON SessionData}.

(** Every method that starts with the [canTrack()] guard does nothing when
    tracking is disabled or consent has not been given: the facade and the
    world are as before. *)
Lemma guarded_methods_do_nothing (c : Tracker.Call) (this : StratosTracker) w :
  Tracker.guarded_by_canTrack c = true →
  Tracker.canTrack this = false →
  Tracker.invoke c this w = Returned this w.
Proof.
  intros Hg Hcan.
  destruct c; try discriminate; simpl;
    unfold Tracker.trackPageView, Tracker.trackPropertyView,
      Tracker.trackVirtualTourClick, Tracker.trackMapView,
      Tracker.trackGalleryView, Tracker.trackSimilarPropertiesClick,
      Tracker.trackBlogView, Tracker.trackBlogShare,
      Tracker.trackBlogLinkClick, Tracker.trackRelatedArticleClick,
      Tracker.trackPhoneClick, Tracker.trackEmailClick, Tracker.trackSearch,
      Tracker.trackFilterChange, Tracker.trackCtaClick, Tracker.trackShare,
      Tracker.trackEnquiryStarted, Tracker.trackEnquirySubmitted,
      Tracker.trackEvent;
    by rewrite Hcan.
Qed.

(** With tracking disabled, the three methods guarded by the flag alone do
    nothing either. *)
Lemma disabled_methods_do_nothing (this : StratosTracker) w :
  trackingEnabled (config this) = false →
  (∀ p, Tracker.trackPropertyDuration p this w = Returned this w)
  ∧ (∀ a, Tracker.trackBlogDuration a this w = Returned this w)
  ∧ (∀ d, Tracker.trackSessionEnd d this w = Returned this w).
Proof.
  intros Hoff.
  unfold Tracker.trackPropertyDuration, Tracker.trackBlogDuration,
    Tracker.trackSessionEnd.
  by rewrite Hoff.
Qed.

End Consent_gate.

Section Consent_gate_visits.
#[local] Existing Instance JSON_ConsentStatus.
#[local] Existing Instance JSON_SessionData.

(** C1 at failing inputs.  On a page with no consent record the facade is
    created with [consentGiven = false], and still: [trackSessionEnd] hands a
    [session_end] beacon to the network; [setupPropertyDurationTracking]
    arms a listener that sends a [property_view] beacon when the visitor
    leaves, and [trackPropertyDuration] sends the same; after
    [setupBlogDurationTracking] a scroll sends a [blog_scroll_depth] event
    and leaving sends a [blog_read_time] beacon.  And once the page has
    called [setConsent(false)] on a facade whose stored consent record still
    grants analytics, [trackSessionEnd] writes a new session and visitor id
    to [localStorage]. *)
Theorem consent_gate_missing :
  (∃ tracker w,
       visit_session_end fresh_page = Returned tracker w
       ∧ Tracker.canTrack tracker = false
       ∧ map event_type (events (network w)) = ["session_end"]
       ∧ map req_transport (network w) = [ViaBeacon])
  ∧ (∃ tracker w,
       visit_property fresh_page = Returned tracker w
       ∧ Tracker.canTrack tracker = false
       ∧ map event_type (events (network w)) = ["property_view"]
       ∧ map (field "view_duration_seconds") (events (network w)) = [VNum 4])
  ∧ (∃ tracker w,
       visit_property_direct fresh_page = Returned tracker w
       ∧ Tracker.canTrack tracker = false
       ∧ map event_type (events (network w)) = ["property_view"])
  ∧ (∃ tracker w,
       visit_article fresh_page = Returned tracker w
       ∧ Tracker.canTrack tracker = false
       ∧ map event_type (events (network w))
         = ["blog_scroll_depth"; "blog_read_time"])
  ∧ (∃ tracker w,
       visit_after_setConsent_false consented_page = Returned tracker w
       ∧ Tracker.canTrack tracker = false
       ∧ map event_type (events (network w)) = ["session_end"]
       ∧ is_Some (localStorage w !! STORAGE_KEYS_SESSION)
       ∧ is_Some (localStorage w !! STORAGE_KEYS_VISITOR)).
Proof.
  repeat split; eexists _, _;
    (split; [vm_compute; reflexivity|]); repeat split; try reflexivity;
    vm_compute; eauto.
Qed.

End Consent_gate_visits.

(** ** Favourites *)

Section Favourites.
Context `{!JSON ConsentStatus, !JSON SessionData}.


(** Where the session entry is sound the module function returns whatever
    the network does, and the three failures give the sentinel. *)
Lemma toggleFavourite_module (config : RequiredTrackerConfig)
    (propertyId source : string) (http : HttpOutcome) w :
  session_entry_sound w →
  ∃ r w',
    favouritesModule.toggleFavourite config propertyId source http w
    = Returned r w'
    ∧ (http = NetworkError → r = not_favourited)
    ∧ (∀ json, http = Response false json → r = not_favourited)
    ∧ (http = server_says_not_favourited → r = not_favourited).
Proof.
  intros Hs. unfold favouritesModule.toggleFavourite, bind at 1.
  destruct (quiet_getVisitorId w) as (vid & w1 & -> & F1).
  unfold bind at 1.
  destruct (getSessionId_returns w1 (frame_sound _ _ F1 Hs))
    as (sid & w2 & -> & F2).
  pose proof (frame_sound _ _ F2 (frame_sound _ _ F1 Hs)) as Hs2.
  unfold try_catch, bind at 1, hand_over, modify.
  set (w3 := set_network _ w2).
  assert (Hs3 : session_entry_sound w3) by exact Hs2.
  destruct http as [|ok json].
  { unfold throw, ret. eexists _, _. split; [reflexivity|]. done. }
  destruct ok; simpl.
  - destruct json as [result|]; unfold response_json, bind at 1, ret, throw.
    2: { eexists _, _. split; [reflexivity|]. done. }
    unfold bind at 1.
    destruct (prop result "is_favourited" w3) as [favourited w4|w4] eqn:Ep.
    2: { unfold ret. eexists _, _. split; [reflexivity|].
         split; [done|]. split; [done|]. intros [= ->]. discriminate. }
    unfold bind at 1.
    destruct (buildEventPayload_spec
                (if truthy favourited then "property_favourited"
                 else "property_unfavourited")
                (Some [("property_id", VStr propertyId);
                       ("source", VStr source)]) w4)
      as (e & w5 & -> & _).
    { simpl in Ep. destruct result; try discriminate; by injection Ep as _ <-. }
    unfold bind at 1. rewrite sendEvent_eq. unfold bind at 1.
    destruct (prop result "count" _) as [n w6|w6] eqn:En.
    2: { unfold ret. eexists _, _. split; [reflexivity|].
         split; [done|]. split; [done|]. intros [= ->]. discriminate. }
    unfold ret. eexists _, _. split; [reflexivity|].
    split; [done|]. split; [done|]. intros [= ->].
    simpl in Ep, En. injection Ep as <- _. injection En as <- _. done.
  - destruct json as [error|]; unfold response_json, bind at 1, ret, throw;
      eexists _, _; (split; [reflexivity|]); done.
Qed.

(** With a sound session entry the facade's [toggleFavourite] resolves,
    for every answer of the network.  When tracking is not allowed it
    resolves with [{ is_favourited: false, count: 0 }] and does nothing else;
    it resolves with the same value when the request fails and when the
    response is not ok, and that value is also what a successful answer
    "not favourited, no favourites" resolves to. *)
Lemma toggleFavourite_resolves (propertyId : string)
    (source : option string) (http : HttpOutcome) (this : StratosTracker)
    (w : World) :
  session_entry_sound w →
  ∃ r w',
    Tracker.toggleFavourite propertyId source http this w = Returned r w'
    ∧ (Tracker.canTrack this = false → r = not_favourited ∧ w' = w)
    ∧ (http = NetworkError → r = not_favourited)
    ∧ (∀ json, http = Response false json → r = not_favourited)
    ∧ (http = server_says_not_favourited → r = not_favourited).
Proof.
  intros Hs. unfold Tracker.toggleFavourite.
  destruct (Tracker.canTrack this); simpl.
  - destruct (toggleFavourite_module (config this) propertyId
                (default "unknown" source) http w Hs)
      as (r & w' & E & H1 & H2 & H3).
    exists r, w'. by rewrite E.
  - exists not_favourited, w. done.
Qed.

(** C10, what the code does.  The promise of the facade's [toggleFavourite]
    can reject: [getVisitorId()] and [getSessionId()] are called before the
    [try].  On a facade that may track, when [getStoredSession] finds a
    truthy primitive under [sr_session] (the text [5], say),
    [getSessionId] throws a [TypeError] in [updateSessionActivity], so the
    promise rejects whatever the network would answer, and no request has
    been made. *)
Theorem toggleFavourite_rejects_on_corrupt_session (propertyId : string)
    (source : option string) (http : HttpOutcome) (this : StratosTracker)
    (w : World) (v : jsval) :
  Tracker.canTrack this = true →
  getStoredSession w = Returned (Some (Primitive v)) w →
  truthy v = true →
  ∃ w',
    Tracker.toggleFavourite propertyId source http this w = Threw w'
    ∧ network w' = network w.
Proof.
  intros Hcan St Hv. apply getStoredSession_inv in St as [St _].
  unfold Tracker.toggleFavourite. rewrite Hcan. simpl.
  unfold favouritesModule.toggleFavourite, bind at 1.
  destruct (getVisitorId_spec w) as (vid & w1 & -> & VF).
  unfold bind at 1.
  rewrite <- (visitor_frame_stored _ _ VF) in St.
  destruct (getSessionId_throws w1 v St Hv) as [-> _].
  exists w1. split; [done|]. exact (frame_network _ _ (vf_frame _ _ VF)).
Qed.

End Favourites.

(** ** The properties on the sample page *)

Section On_the_sample_page.
#[local] Existing Instance JSON_ConsentStatus.
#[local] Existing Instance JSON_SessionData.
#[local] Existing Instance JSON_SearchTrackingData.

(** A consent record that does not parse reads as no consent. *)
Example garbled_consent_reads_as_none :
  let w := set_localStorage {[CONSENT_STORAGE_KEY := "{not json"]} fresh_page in
  getConsentStatus w = Returned None w
  ∧ hasAnalyticsConsent w = Returned false w
  ∧ hasMarketingConsent w = Returned false w.
Proof. vm_compute. done. Qed.

(** An accepted one reads as given. *)
Example accepted_consent_reads_back :
  getConsentStatus consented_page
  = Returned (Some analytics_accepted) consented_page
  ∧ hasAnalyticsConsent consented_page = Returned true consented_page.
Proof. vm_compute. done. Qed.





Lemma page_views_counts_calls_witness :
  ∃ (s' : SessionData) w',
    getSessionId_at [1700000060000; 1700000120000; 1700001900000]
      after_first_call
    = Returned ["uuid-b"; "uuid-b"; "uuid-b"] w'
    ∧ getStoredSession w' = Returned (Some s') w'
    ∧ session_id s' = "uuid-b"
    ∧ page_views s' = 0 + 3
    ∧ 0 ≤ page_views s'.
Proof.
  apply (page_views_counts_calls first_session
           [1700000060000; 1700000120000; 1700001900000] after_first_call).
  - vm_compute. reflexivity.
  - reflexivity.
  - simpl. unfold SESSION_TIMEOUT_MS. lia.
Defined.


Lemma temporary_visitor_id_is_promoted_witness :
  ∃ w3,
    getVisitorId (banner_accepts with_temporary_id) = Returned "uuid-a" w3
    ∧ localStorage w3 !! STORAGE_KEYS_VISITOR = Some "uuid-a"
    ∧ uuid_drawn w3 = uuid_drawn (banner_accepts with_temporary_id).
Proof.
  apply (temporary_visitor_id_is_promoted fresh_page with_temporary_id
           (banner_accepts with_temporary_id) "uuid-a").
  - vm_compute. reflexivity.
  - vm_compute. reflexivity.
  - done.
  - reflexivity.
  - vm_compute. reflexivity.
  - vm_compute. reflexivity.
  - reflexivity.
Defined.

(** C9 fails as stated where a visitor id is already stored: the visitor
    was given the temporary id [uuid-a] while consent was absent, and once
    consent is there [getVisitorId] returns the stored id, not the temporary
    one. *)
Lemma stored_visitor_id_replaces_temporary_id :
  ∃ w1 w3,
    hasAnalyticsConsent returning_visitor_page
    = Returned false returning_visitor_page
    ∧ getVisitorId returning_visitor_page = Returned "uuid-a" w1
    ∧ tempVisitorId (banner_accepts w1) = Some "uuid-a"
    ∧ hasAnalyticsConsent (banner_accepts w1)
      = Returned true (banner_accepts w1)
    ∧ getVisitorId (banner_accepts w1) = Returned "old-visitor" w3
    ∧ "old-visitor" ≠ "uuid-a"
    ∧ localStorage w3 !! STORAGE_KEYS_VISITOR = Some "old-visitor".
Proof.
  eexists _, _.
  split; [vm_compute; reflexivity|].
  split; [vm_compute; reflexivity|].
  split; [vm_compute; reflexivity|].
  split; [vm_compute; reflexivity|].
  split; [vm_compute; reflexivity|].
  split; [discriminate | vm_compute; reflexivity].
Qed.

Lemma property_duration_floor_witness :
  propertyTracking.trackPropertyDuration sample_required_config "property-7"
    (Date_now fresh_page - 2000) fresh_page
  = Returned () fresh_page
  ∧ ∃ r e w',
      propertyTracking.trackPropertyDuration sample_required_config
        "property-7" (Date_now fresh_page - 4000) fresh_page
      = Returned () w'
      ∧ network w' = network fresh_page ++ [r]
      ∧ req_body r = EventBody e
      ∧ event_type e = "property_view"
      ∧ field "view_duration_seconds" e = VNum 4
      ∧ field "property_id" e = VStr "property-7".
Proof.
  split.
  - apply (property_duration_floor sample_required_config "property-7"
             (Date_now fresh_page - 2000) fresh_page); [done|].
    intros text H. vm_compute in H. discriminate.
  - apply (property_duration_floor sample_required_config "property-7"
             (Date_now fresh_page - 4000) fresh_page); [done|].
    intros text H. vm_compute in H. discriminate.
Defined.

(** On the sample page the three milestones reported are 25, 50 and 75: the
    reader has reached the end of the article, and milestone 100 is not
    among them. *)
Lemma scroll_reports_75_not_100 :
  ∃ w',
    scroll_through sample_required_config "article-3" 0 sample_scroll
      consented_page
    = Returned 100 w'
    ∧ map (field "scroll_depth") (events (network w'))
      = [VNum 25; VNum 50; VNum 75]
    ∧ map (field "scroll_depth") (events (network w'))
      ≠ [VNum 25; VNum 50; VNum 100].
Proof.
  eexists. split; [vm_compute; reflexivity|].
  split; [reflexivity | discriminate].
Qed.

Lemma scroll_milestones_fired_witness :
  ∃ r1 r2 r3 w',
    scroll_through sample_required_config "article-3" 0 sample_scroll
      consented_page
    = Returned 100 w'
    ∧ network w' = network consented_page ++ [r1; r2; r3]
    ∧ map event_type (events [r1; r2; r3])
      = ["blog_scroll_depth"; "blog_scroll_depth"; "blog_scroll_depth"]
    ∧ map (field "scroll_depth") (events [r1; r2; r3])
      = [VNum 25; VNum 50; VNum 75].
Proof.
  apply (scroll_milestones_fired sample_required_config "article-3"
           sample_scroll consented_page).
  - intros text H. vm_compute in H. discriminate.
  - reflexivity.
Defined.

(** The percentage is the rounded double: 29 pixels of 200 are 14%, since
    the quotient rounds below 0.145. *)
Example scroll_percent_of_doubles :
  blogTracking.scrollPercent 29 200 = 14
  ∧ map (λ p, blogTracking.scrollPercent p.1 p.2) sample_scroll
    = [10; 30; 60; 40; 100].
Proof. split; reflexivity. Qed.

(** A reader who jumps straight to the end of the article is reported at
    25% and never again. *)
Example jump_to_the_end_reports_25_only :
  ∃ w',
    scroll_through sample_required_config "article-3" 0
      [(1000, 1000); (1000, 1000)] consented_page
    = Returned 100 w'
    ∧ map (field "scroll_depth") (events (network w')) = [VNum 25].
Proof. eexists. split; [vm_compute; reflexivity | reflexivity]. Qed.


Lemma pending_search_forwarded_once_witness :
  ∃ r e w1 w2,
    searchTracking.storeSearchForTracking sample_search consented_page
    = Returned () w1
    ∧ searchTracking.sendPendingSearchEvent searchTracking.formatPriceRange
        (Some sample_tracker) (set_Date_now (Date_now consented_page + 0) w1)
      = Returned true w2
    ∧ network w2 = network consented_page ++ [r]
    ∧ req_body r = EventBody e
    ∧ event_type e = "search"
    ∧ event_data e
      = Some
          [("location", VStr "Leeds");
           ("postcode", VStr "");
           ("min_price", VNull);
           ("max_price", VNum 1200);
           ("price_range", VStr "Up to £1k");
           ("bedrooms", VNum 2);
           ("bathrooms", VNull);
           ("property_type", VNull);
           ("listing_type", VStr "let");
           ("filters", VObj [("beds", VStr "2"); ("max_price", VStr "1200")]);
           ("filters_count", VNum 2);
           ("source_page", VStr "/blog/moving-house");
           ("source_component", VStr "hero_search");
           ("search_timestamp", VNum 1700000000000);
           ("tracking_delay_ms", VNum 0)]
    ∧ field "tracking_delay_ms" e = VNum 0
    ∧ sessionStorage w2 !! searchTracking.STORAGE_KEY = None
    ∧ searchTracking.sendPendingSearchEvent searchTracking.formatPriceRange
        (Some sample_tracker) w2
      = Returned false w2.
Proof.
  refine (pending_search_forwarded_once sample_search sample_tracker
            consented_page 0 _ _ _ _ _);
    [reflexivity | reflexivity | | reflexivity | lia].
  intros text H. vm_compute in H. discriminate.
Defined.

Lemma stale_pending_search_dropped_witness :
  ∃ w1 w2,
    searchTracking.storeSearchForTracking sample_search consented_page
    = Returned () w1
    ∧ searchTracking.sendPendingSearchEvent any_price (Some sample_tracker)
        (set_Date_now (Date_now consented_page + 31000) w1)
      = Returned false w2
    ∧ network w2 = network consented_page.
Proof.
  apply (stale_pending_search_dropped any_price sample_search
           (Some sample_tracker) consented_page 31000); [reflexivity | lia].
Defined.

Lemma toggleFavourite_rejects_on_corrupt_session_witness :
  ∃ w',
    Tracker.toggleFavourite "property-7" None server_says_not_favourited
      sample_tracker corrupt_session_page
    = Threw w'
    ∧ network w' = network corrupt_session_page.
Proof.
  apply (toggleFavourite_rejects_on_corrupt_session "property-7" None
           server_says_not_favourited sample_tracker corrupt_session_page
           (VNum 5)).
  - reflexivity.
  - vm_compute. reflexivity.
  - reflexivity.
Defined.

End On_the_sample_page.

(** * Further properties *)

(** ** What no tracking call does *)

Section Harmless.
Context `{!JSON ConsentStatus, !JSON SessionData}.

Lemma harmless_ret {A} (a : A) : harmless (ret a).
Proof. intros w Hs. by exists a, w. Qed.

Lemma harmless_get {A} (f : World → A) : harmless (get f).
Proof. intros w Hs. by exists (f w), w. Qed.

Lemma harmless_bind {A B} (m : M A) (k : A → M B) :
  harmless m → (∀ a, harmless (k a)) → harmless (bind m k).
Proof.
  intros Hm Hk w Hs.
  destruct (Hm w Hs) as (a & w1 & E1 & Hs1 & B1 & C1 & S1 & L1).
  destruct (Hk a w1 Hs1) as (b & w2 & E2 & Hs2 & B2 & C2 & S2 & L2).
  exists b, w2. unfold bind. rewrite E1.
  split; [done|]. split; [done|]. split; [congruence|]. split; [congruence|].
  split; [congruence|]. intros G.
  rewrite L2, L1; [done..|].
  unfold analytics_granted, readable_consent in *. by rewrite B1, C1.
Qed.

Lemma harmless_modify (f : World → World) :
  (∀ w, browser (f w) = browser w ∧ localStorage (f w) = localStorage w
        ∧ sessionStorage (f w) = sessionStorage w) →
  harmless (modify f).
Proof.
  intros Hf w Hs. destruct (Hf w) as (B & L & S).
  exists (), (f w). unfold modify. rewrite B, L, S.
  split; [done|]. split; [|done].
  apply (sound_same w); [by rewrite L | done].
Qed.

Lemma harmless_if {A} (b : bool) (m1 m2 : M A) :
  harmless m1 → harmless m2 → harmless (if b then m1 else m2).
Proof. by destruct b. Qed.

(** Quiet code is harmless once it is known not to write without consent. *)
Lemma quiet_harmless {A} (m : M A) :
  quiet m →
  (∀ w a w', analytics_granted w = false → m w = Returned a w' →
             localStorage w' = localStorage w) →
  harmless m.
Proof.
  intros Q N w Hs. destruct (Q w) as (a & w' & E & F).
  exists a, w'. split; [done|].
  split; [exact (frame_sound _ _ F Hs)|].
  split; [exact (frame_browser _ _ F)|].
  split; [exact (frame_consent _ _ F)|].
  split; [exact (frame_sessionStorage _ _ F) | eauto].
Qed.

Lemma harmless_hasAnalyticsConsent : harmless hasAnalyticsConsent.
Proof. intros w Hs. rewrite hasAnalyticsConsent_eq. by eexists _, _. Qed.

Lemma harmless_getStoredSession : harmless getStoredSession.
Proof. intros w Hs. rewrite getStoredSession_eq. by eexists _, _. Qed.

Lemma harmless_generateUUID : harmless generateUUID.
Proof. intros w Hs. by eexists _, _. Qed.

Lemma harmless_getVisitorId : harmless getVisitorId.
Proof.
  apply quiet_harmless; [apply quiet_getVisitorId|].
  intros w id w' G E. unfold getVisitorId, bind in E.
  rewrite hasAnalyticsConsent_eq, G in E. simpl in E.
  destruct (temporaryVisitorId_spec w) as (id' & w1 & E1 & _ & _ & L).
  rewrite E1 in E. by injection E as <- <-.
Qed.

Lemma harmless_saveSession (s : SessionData) : harmless (saveSession s).
Proof.
  apply quiet_harmless; [apply quiet_saveSession|].
  intros w [] w' G E. unfold saveSession, bind in E.
  rewrite hasAnalyticsConsent_eq, G in E. simpl in E.
  by injection E as <-.
Qed.

Lemma harmless_createNewSession : harmless createNewSession.
Proof.
  unfold createNewSession.
  apply harmless_bind; [apply harmless_get|]. intros now.
  apply harmless_bind; [apply harmless_getVisitorId|]. intros vid.
  apply harmless_bind; [apply harmless_generateUUID|]. intros sid.
  apply harmless_bind; [apply harmless_saveSession|]. intros _.
  apply harmless_ret.
Qed.

Lemma harmless_updateSessionActivity (s : SessionData) :
  harmless (updateSessionActivity s).
Proof.
  unfold updateSessionActivity.
  apply harmless_bind; [apply harmless_get|]. intros now.
  apply harmless_bind; [apply harmless_saveSession|]. intros _.
  apply harmless_ret.
Qed.

Lemma harmless_after_getStoredSession {A} (f : SessionData → A)
    (o : option SessionData) :
  harmless
    (match Session <$> o with
     | None => let* s := createNewSession in ret (f s)
     | Some session =>
         if negb (is_truthy session) then
           let* s := createNewSession in ret (f s)
         else
           let* expired := isSessionExpired session in
           if expired then let* s := createNewSession in ret (f s)
           else let* s := updateSessionActivity session in ret (f s)
     end).
Proof.
  destruct o as [s|]; simpl.
  - apply harmless_bind.
    { apply harmless_bind; [apply harmless_get|].
      intros. apply harmless_ret. }
    intros [|]; (apply harmless_bind; [|intros; apply harmless_ret]).
    + apply harmless_createNewSession.
    + apply (harmless_updateSessionActivity s).
  - apply harmless_bind; [apply harmless_createNewSession|].
    intros. apply harmless_ret.
Qed.

Lemma harmless_getSessionId : harmless getSessionId.
Proof.
  intros w Hs. destruct (stored_session_fmap w Hs) as [o E].
  unfold getSessionId, bind at 1. rewrite getStoredSession_eq, E.
  by apply (harmless_after_getStoredSession session_id o).
Qed.

Lemma harmless_hand_over (r : Request) : harmless (hand_over r).
Proof. by apply harmless_modify. Qed.

Lemma harmless_sendEvent config payload : harmless (sendEvent config payload).
Proof. intros w Hs. rewrite sendEvent_eq. by eexists _, _. Qed.

Lemma harmless_buildEventPayload eventType eventData :
  harmless (buildEventPayload eventType eventData).
Proof.
  unfold buildEventPayload.
  apply harmless_bind; [apply harmless_getSessionId|]. intros sid.
  apply harmless_bind; [apply harmless_getVisitorId|]. intros vid.
  repeat (apply harmless_bind; [apply harmless_get|]; intros ?).
  apply harmless_ret.
Qed.

Lemma harmless_sendBeacon config eventType eventData :
  harmless (sendBeacon config eventType eventData).
Proof.
  unfold sendBeacon.
  apply harmless_bind; [apply harmless_getSessionId|]. intros sid.
  apply harmless_bind; [apply harmless_getVisitorId|]. intros vid.
  repeat (apply harmless_bind; [apply harmless_get|]; intros ?).
  apply harmless_if; [apply harmless_hand_over | apply harmless_sendEvent].
Qed.

Lemma harmless_seconds_since start : harmless (seconds_since start).
Proof.
  unfold seconds_since. apply harmless_bind; [apply harmless_get|].
  intros. apply harmless_ret.
Qed.

Lemma harmless_addEventListener name l : harmless (addEventListener name l).
Proof. by apply harmless_modify. Qed.

Lemma harmless_removeEventListener name l :
  harmless (removeEventListener name l).
Proof. by apply harmless_modify. Qed.

End Harmless.

Create HintDb harmless.

#[local] Hint Resolve harmless_ret harmless_get harmless_hasAnalyticsConsent
  harmless_getStoredSession harmless_generateUUID harmless_getVisitorId
  harmless_saveSession harmless_createNewSession
  harmless_updateSessionActivity harmless_getSessionId harmless_hand_over
  harmless_sendEvent harmless_buildEventPayload harmless_sendBeacon
  harmless_seconds_since harmless_addEventListener
  harmless_removeEventListener : harmless.

(** Goes through a computation written with [bind], [if] and [match]. *)
Ltac harmless_steps :=
  repeat first
    [ solve [auto with harmless]
    | apply harmless_bind; [|intros ?]
    | apply harmless_if
    | match goal with
      | |- harmless (match ?x with _ => _ end) => destruct x
      | |- harmless (modify _) => by apply harmless_modify
      end ].

Section Harmless_facade.
Context `{!JSON ConsentStatus, !JSON SessionData}.

Lemma harmless_trackPropertyDuration config propertyId startTime :
  harmless (propertyTracking.trackPropertyDuration config propertyId startTime).
Proof. unfold propertyTracking.trackPropertyDuration. harmless_steps. Qed.

Lemma harmless_trackBlogDuration config articleId startTime depth :
  harmless (blogTracking.trackBlogDuration config articleId startTime depth).
Proof. unfold blogTracking.trackBlogDuration. harmless_steps. Qed.

Lemma harmless_trackScroll config articleId depth scrollTop docHeight :
  harmless (blogTracking.trackScroll config articleId depth scrollTop docHeight).
Proof. unfold blogTracking.trackScroll. harmless_steps. Qed.

Lemma harmless_setupPropertyDurationTracking propertyId :
  harmless (propertyTracking.setupPropertyDurationTracking propertyId).
Proof.
  unfold propertyTracking.setupPropertyDurationTracking. harmless_steps.
Qed.

Lemma harmless_invoke (c : Tracker.Call) (this : StratosTracker) :
  harmless (Tracker.invoke c this).
Proof.
  pose proof harmless_trackPropertyDuration.
  pose proof harmless_trackBlogDuration.
  pose proof harmless_setupPropertyDurationTracking.
  destruct c; simpl;
    unfold Tracker.trackPageView, Tracker.trackPropertyView,
      Tracker.trackPropertyDuration, Tracker.setupPropertyDurationTracking,
      Tracker.trackVirtualTourClick, Tracker.trackMapView,
      Tracker.trackGalleryView, Tracker.trackSimilarPropertiesClick,
      Tracker.trackBlogView, Tracker.trackBlogDuration,
      Tracker.setupBlogDurationTracking, Tracker.trackBlogShare,
      Tracker.trackBlogLinkClick, Tracker.trackRelatedArticleClick,
      Tracker.trackPhoneClick, Tracker.trackEmailClick, Tracker.trackSearch,
      Tracker.trackFilterChange, Tracker.trackCtaClick, Tracker.trackShare,
      Tracker.trackEnquiryStarted, Tracker.trackEnquirySubmitted,
      Tracker.trackSessionEnd, Tracker.trackEvent,
      pageTracking.trackPageView, pageTracking.trackSessionEnd,
      propertyTracking.trackPropertyView,
      propertyTracking.trackVirtualTourClick, propertyTracking.trackMapView,
      propertyTracking.trackGalleryView,
      propertyTracking.trackSimilarPropertiesClick,
      blogTracking.trackBlogView, blogTracking.setupScrollDepthTracking,
      blogTracking.setupBlogDurationTracking, blogTracking.trackBlogShare,
      blogTracking.trackBlogLinkClick, blogTracking.trackRelatedArticleClick,
      interactionTracking.trackPhoneClick, interactionTracking.trackEmailClick,
      interactionTracking.trackSearch, interactionTracking.trackFilterChange,
      interactionTracking.trackCtaClick, interactionTracking.trackShare,
      enquiryTracking.trackEnquiryStarted,
      enquiryTracking.trackEnquirySubmitted;
    harmless_steps.
Qed.

(** X1.  On a page whose session entry is absent or a session, none of
    the tracking methods of the facade that [Call] lists (every public
    [track...] and [setup...] method except [setupEnquiryFormTracking], which
    queries the document, and the favourites methods, which await the
    network) throws, whatever the storage does otherwise; none touches the
    consent record or [sessionStorage]; the session entry stays sound; and
    while no analytics consent is stored, none writes to [localStorage]
    (identity then lives in memory only), even the methods that lack the
    consent guard. *)
Theorem tracking_calls_never_throw_nor_persist_without_consent
    (c : Tracker.Call) (this : StratosTracker) (w : World) :
  session_entry_sound w →
  ∃ this' w',
    Tracker.invoke c this w = Returned this' w'
    ∧ session_entry_sound w'
    ∧ localStorage w' !! CONSENT_STORAGE_KEY
      = localStorage w !! CONSENT_STORAGE_KEY
    ∧ sessionStorage w' = sessionStorage w
    ∧ (hasAnalyticsConsent w = Returned false w →
       localStorage w' = localStorage w).
Proof.
  intros Hs.
  destruct (harmless_invoke c this w Hs)
    as (this' & w' & E & Hs' & _ & C & S & L).
  exists this', w'. do 4 (split; [done|]).
  rewrite hasAnalyticsConsent_eq. intros [= G]. auto.
Qed.

End Harmless_facade.

(** ** Identity across calls and page loads *)

Section Identity_more.
Context `{!JSON ConsentStatus, !JSON SessionData}.

Lemma temporaryVisitorId_held w id :
  tempVisitorId w = Some id → id ≠ "" →
  temporaryVisitorId w = Returned id w.
Proof.
  intros T Hne. unfold temporaryVisitorId, bind, get. rewrite T.
  by destruct (String.eqb_spec id "").
Qed.

Lemma temporaryVisitorId_nonempty w id w' :
  (∀ n, randomUUID (browser w) n ≠ "") →
  temporaryVisitorId w = Returned id w' →
  id ≠ "" ∧ tempVisitorId w' = Some id ∧ localStorage w' = localStorage w
  ∧ browser w' = browser w.
Proof.
  intros Hu. unfold temporaryVisitorId, bind, get, generateUUID, modify, ret.
  destruct (tempVisitorId w) as [t|] eqn:T.
  - destruct (String.eqb_spec t "") as [->|Hne]; intros [= <- <-]; simpl; auto.
  - intros [= <- <-]; simpl; auto.
Qed.

Lemma str_truthy_Some (o : option string) :
  str_truthy o = true → ∃ s, o = Some s ∧ s ≠ "" ∧ str_or o "" = s.
Proof.
  destruct o as [s|]; [|done]. simpl.
  destruct (String.eqb_spec s ""); [done|]. eauto.
Qed.

Lemma str_truthy_of s : s ≠ "" → str_truthy (Some s) = true.
Proof. simpl. by destruct (String.eqb_spec s ""). Qed.

(** With consent, a stored id is returned as it is. *)
Lemma getVisitorId_stored w s :
  analytics_granted w = true →
  localStorage w !! STORAGE_KEYS_VISITOR = Some s → s ≠ "" →
  getVisitorId w = Returned s w.
Proof.
  intros G L Hne. unfold getVisitorId, bind.
  rewrite hasAnalyticsConsent_eq, G. simpl.
  unfold try_catch, bind, localStorage_getItem.
  rewrite (granted_not_denied _ G), L, (str_truthy_of _ Hne). simpl.
  by destruct (String.eqb_spec s "").
Qed.

(** Without consent, the id in memory is returned as it is. *)
Lemma getVisitorId_memory w id :
  analytics_granted w = false → tempVisitorId w = Some id → id ≠ "" →
  getVisitorId w = Returned id w.
Proof.
  intros G T Hne. unfold getVisitorId, bind.
  rewrite hasAnalyticsConsent_eq, G. simpl.
  by apply temporaryVisitorId_held.
Qed.

(** With consent but a storage that refuses the write, the id in memory is
    returned. *)
Lemma getVisitorId_fallback w id :
  analytics_granted w = true →
  str_truthy (localStorage w !! STORAGE_KEYS_VISITOR) = false →
  storage_full (browser w) = true →
  tempVisitorId w = Some id → id ≠ "" →
  getVisitorId w = Returned id w.
Proof.
  intros G L Hfull T Hne. unfold getVisitorId, bind.
  rewrite hasAnalyticsConsent_eq, G. simpl.
  unfold try_catch, bind, localStorage_getItem, get.
  rewrite (granted_not_denied _ G), L, T, (str_truthy_of _ Hne).
  unfold ret, localStorage_setItem.
  rewrite (granted_not_denied _ G), Hfull. simpl.
  by apply temporaryVisitorId_held.
Qed.

Lemma granted_same w w' :
  browser w' = browser w →
  localStorage w' !! CONSENT_STORAGE_KEY = localStorage w !! CONSENT_STORAGE_KEY →
  analytics_granted w' = analytics_granted w.
Proof.
  intros B C. unfold analytics_granted, readable_consent. by rewrite B, C.
Qed.

Lemma getVisitorId_after_write w v :
  analytics_granted w = true → v ≠ "" →
  let w' := set_localStorage (<[STORAGE_KEYS_VISITOR := v]> (localStorage w)) w in
  getVisitorId w' = Returned v w'.
Proof.
  intros G Hne w'. apply getVisitorId_stored; [| apply lookup_insert_eq | done].
  rewrite <- G. apply granted_same; [done|]. simpl. by rewrite lookup_insert_ne.
Qed.

Lemma getVisitorId_after_refusal w id w1 :
  (∀ n, randomUUID (browser w) n ≠ "") →
  analytics_granted w = true →
  str_truthy (localStorage w !! STORAGE_KEYS_VISITOR) = false →
  storage_full (browser w) = true →
  temporaryVisitorId w = Returned id w1 →
  id ≠ "" ∧ getVisitorId w1 = Returned id w1.
Proof.
  intros Hu G St Hfull E.
  destruct (temporaryVisitorId_nonempty _ _ _ Hu E) as (N & T & L & B).
  split; [done|]. apply getVisitorId_fallback; try done.
  - rewrite <- G. apply granted_same; [done | by rewrite L].
  - by rewrite L.
  - by rewrite B.
Qed.

(** The helper behind X2: the next call returns the same id. *)
Lemma getVisitorId_again w id w1 :
  (∀ n, randomUUID (browser w) n ≠ "") →
  getVisitorId w = Returned id w1 →
  id ≠ "" ∧ ∃ w2, getVisitorId w1 = Returned id w2.
Proof.
  intros Hu. unfold getVisitorId at 1, bind. rewrite hasAnalyticsConsent_eq.
  destruct (analytics_granted w) eqn:G; simpl.
  2: { intros E.
       destruct (temporaryVisitorId_nonempty _ _ _ Hu E) as (N & T & L & B).
       split; [done|]. exists w1. apply getVisitorId_memory; [|done..].
       rewrite <- G. apply granted_same; [done | by rewrite L]. }
  pose proof (granted_not_denied _ G) as Hd.
  unfold try_catch, bind, localStorage_getItem. rewrite Hd.
  destruct (str_truthy (localStorage w !! STORAGE_KEYS_VISITOR)) eqn:St.
  { destruct (str_truthy_Some _ St) as (s & L & Hne & ->).
    intros [= <- <-]. split; [done|]. exists w.
    by apply getVisitorId_stored. }
  unfold get.
  destruct (str_truthy (tempVisitorId w)) eqn:Tt.
  - destruct (str_truthy_Some _ Tt) as (t & T & Hne & ->).
    unfold ret, localStorage_setItem. rewrite Hd. simpl.
    destruct (storage_full (browser w)) eqn:Hfull.
    + intros E.
      destruct (getVisitorId_after_refusal w id w1 Hu G St Hfull E). eauto.
    + intros [= <- <-]. split; [done|]. eexists.
      by apply getVisitorId_after_write.
  - unfold ret, generateUUID, localStorage_setItem. simpl. rewrite Hd. simpl.
    destruct (storage_full (browser w)) eqn:Hfull.
    + intros E.
      destruct (getVisitorId_after_refusal
                  (set_uuid_drawn (S (uuid_drawn w)) w) id w1 Hu G St Hfull E).
      eauto.
    + intros [= <- <-]. split; [auto|]. eexists.
      apply (getVisitorId_after_write (set_uuid_drawn (S (uuid_drawn w)) w));
        auto.
Qed.

(** X2.  Within one page a visitor id is stable: whatever the consent and
    the storage, the call after one that returned [id] returns [id] again
    (UUIDs being non-empty strings). *)
Theorem visitor_id_is_stable (w w1 : World) (id : string) :
  (∀ n, randomUUID (browser w) n ≠ "") →
  getVisitorId w = Returned id w1 →
  ∃ w2, getVisitorId w1 = Returned id w2.
Proof.
  intros Hu E. by destruct (getVisitorId_again w id w1 Hu E) as [_ ?].
Qed.

(** X3.  With analytics consent and a storage that accepts writes, the id
    that [getVisitorId] returns is the one persisted under [sr_visitor], and
    any later page load that finds this entry and the consent returns the
    same id without drawing a UUID. *)
Theorem persisted_visitor_is_recognised (w w1 : World) (id : string) :
  (∀ n, randomUUID (browser w) n ≠ "") →
  hasAnalyticsConsent w = Returned true w →
  storage_full (browser w) = false →
  getVisitorId w = Returned id w1 →
  localStorage w1 !! STORAGE_KEYS_VISITOR = Some id
  ∧ ∀ w2, hasAnalyticsConsent w2 = Returned true w2 →
          localStorage w2 !! STORAGE_KEYS_VISITOR
          = localStorage w1 !! STORAGE_KEYS_VISITOR →
          getVisitorId w2 = Returned id w2.
Proof.
  intros Hu Hyes Hfull E.
  rewrite hasAnalyticsConsent_eq in Hyes. injection Hyes as G.
  destruct (getVisitorId_again w id w1 Hu E) as [Hne _].
  assert (L1 : localStorage w1 !! STORAGE_KEYS_VISITOR = Some id).
  { revert E. unfold getVisitorId, bind.
    rewrite hasAnalyticsConsent_eq, G. simpl.
    unfold try_catch, bind, localStorage_getItem, get.
    rewrite (granted_not_denied _ G).
    destruct (str_truthy (localStorage w !! STORAGE_KEYS_VISITOR)) eqn:St.
    { destruct (str_truthy_Some _ St) as (s & L & _ & ->).
      by intros [= <- <-]. }
    destruct (str_truthy (tempVisitorId w)); unfold ret, generateUUID,
      localStorage_setItem; simpl; rewrite (granted_not_denied _ G), Hfull;
      simpl; intros [= <- <-]; simpl; apply lookup_insert_eq. }
  split; [done|]. intros w2 Hyes2 L2.
  rewrite hasAnalyticsConsent_eq in Hyes2. injection Hyes2 as G2.
  apply getVisitorId_stored; [done | by rewrite L2 | done].
Qed.

(** The helper behind X4. *)
Lemma getSession_getSessionId w :
  session_entry_sound w →
  ∃ s w', getSession w = Returned (Some s) w'
          ∧ getSessionId w = Returned (session_id s) w'.
Proof.
  intros Hs. unfold getSession, getSessionId, bind.
  rewrite getStoredSession_eq.
  destruct (stored_session_sound w Hs) as [->|[s ->]].
  - destruct (quiet_createNewSession w) as (s' & w' & -> & _).
    unfold ret. eauto.
  - cbn [is_truthy negb]. unfold isSessionExpired, bind, get, ret.
    destruct (bool_decide _).
    + destruct (quiet_createNewSession w) as (s' & w' & -> & _). eauto.
    + destruct (quiet_updateSessionActivity s w) as (s' & w' & -> & _). eauto.
Qed.

(** X4.  Where the session entry is absent or a session, [getSession]
    never returns [null] (its declared type allows it): it returns a
    session, does to the world exactly what [getSessionId] does, and the id
    that [getSessionId] returns is the id of that session. *)
Theorem getSession_agrees_with_getSessionId (w : World) :
  session_entry_sound w →
  ∃ s w', getSession w = Returned (Some s) w'
          ∧ getSessionId w = Returned (session_id s) w'.
Proof. apply getSession_getSessionId. Qed.

End Identity_more.

(** ** Clearing, initialising, and the consent transitions *)

Section Consent_transitions.
Context `{!JSON ConsentStatus, !JSON SessionData}.

Lemma clearAllTrackingData_spec w :
  ∃ w', clearAllTrackingData w = Returned () w'
        ∧ tempVisitorId w' = None ∧ tempSession w' = None
        ∧ stored_session w' = None
        ∧ frame w w'
        ∧ (storage_denied (browser w) = false →
           localStorage w' !! STORAGE_KEYS_VISITOR = None
           ∧ localStorage w' !! STORAGE_KEYS_SESSION = None).
Proof.
  unfold clearAllTrackingData, bind, modify, try_catch, localStorage_removeItem,
    ret.
  simpl. destruct (storage_denied (browser w)) eqn:Hd; simpl.
  - eexists. split; [reflexivity|]. simpl. do 2 (split; [done|]).
    split; [|split; [constructor; simpl; auto; sound_step | done]].
    unfold stored_session, analytics_granted, readable_consent. simpl.
    by rewrite Hd.
  - rewrite Hd. eexists. split; [reflexivity|]. simpl.
    do 2 (split; [done|]).
    assert (LS : delete STORAGE_KEYS_VISITOR
                   (delete STORAGE_KEYS_SESSION (localStorage w))
                 !! STORAGE_KEYS_SESSION = None).
    { by rewrite lookup_delete_ne, lookup_delete_eq. }
    split.
    { unfold stored_session. simpl. rewrite LS.
      by destruct (analytics_granted _). }
    split.
    { constructor; simpl; auto; [by rewrite !lookup_delete_ne|].
      intros _. by apply sound_absent. }
    intros _. split; [apply lookup_delete_eq | done].
Qed.

Lemma clearAllTrackingData_eq w :
  clearAllTrackingData w
  = Returned ()
      (if storage_denied (browser w)
       then set_tempSession None (set_tempVisitorId None w)
       else set_localStorage
              (delete STORAGE_KEYS_VISITOR
                 (delete STORAGE_KEYS_SESSION (localStorage w)))
              (set_tempSession None (set_tempVisitorId None w))).
Proof.
  unfold clearAllTrackingData, bind, modify, try_catch, localStorage_removeItem,
    ret.
  destruct w as [b now drawn ls ss tv ts cur lst cells net].
  cbn [browser set_tempSession set_tempVisitorId set_localStorage
       localStorage].
  destruct (storage_denied b) eqn:Hd; [reflexivity|].
  cbn [browser set_tempSession set_tempVisitorId set_localStorage
       localStorage].
  rewrite Hd. reflexivity.
Qed.

Lemma delete_tracking_twice (m : gmap string string) :
  delete STORAGE_KEYS_VISITOR
    (delete STORAGE_KEYS_SESSION
       (delete STORAGE_KEYS_VISITOR (delete STORAGE_KEYS_SESSION m)))
  = delete STORAGE_KEYS_VISITOR (delete STORAGE_KEYS_SESSION m).
Proof.
  rewrite (delete_id (delete STORAGE_KEYS_VISITOR _) STORAGE_KEYS_SESSION).
  - apply delete_delete_eq.
  - by rewrite lookup_delete_ne, lookup_delete_eq.
Qed.

(** X5.  [clearAllTrackingData] never throws; afterwards no visitor id is
    held in memory, no session is found, the two storage entries are gone
    wherever storage can be reached, and the consent record is as before.
    Clearing again changes nothing. *)
Theorem clearing_forgets_identity (w : World) :
  ∃ w',
    clearAllTrackingData w = Returned () w'
    ∧ tempVisitorId w' = None
    ∧ getStoredSession w' = Returned None w'
    ∧ localStorage w' !! CONSENT_STORAGE_KEY
      = localStorage w !! CONSENT_STORAGE_KEY
    ∧ (storage_denied (browser w) = false →
       localStorage w' !! STORAGE_KEYS_VISITOR = None
       ∧ localStorage w' !! STORAGE_KEYS_SESSION = None)
    ∧ clearAllTrackingData w' = Returned () w'.
Proof.
  destruct (clearAllTrackingData_spec w) as (w' & E & T & _ & St & F & K).
  exists w'. split; [done|]. split; [done|].
  rewrite getStoredSession_eq, St. split; [done|].
  split; [apply (frame_consent _ _ F)|]. split; [done|].
  rewrite clearAllTrackingData_eq in E. injection E as <-.
  rewrite clearAllTrackingData_eq.
  destruct w as [b now drawn ls ss tv ts cur lst cells net].
  cbn [browser set_tempSession set_tempVisitorId set_localStorage
       localStorage Date_now uuid_drawn sessionStorage tempVisitorId
       tempSession currentPropertyDurationTracking listeners scroll_cells
       network].
  destruct (storage_denied b) eqn:Hd.
  - cbn [browser set_tempSession set_tempVisitorId set_localStorage
         localStorage Date_now uuid_drawn sessionStorage tempVisitorId
         tempSession currentPropertyDurationTracking listeners scroll_cells
         network].
    by rewrite Hd.
  - cbn [browser set_tempSession set_tempVisitorId set_localStorage
         localStorage Date_now uuid_drawn sessionStorage tempVisitorId
         tempSession currentPropertyDurationTracking listeners scroll_cells
         network].
    rewrite Hd. by rewrite delete_tracking_twice.
Qed.

(** X6.  [init] is idempotent and touches nothing but the facade: the
    facade it returns is returned unchanged by every later [init], so the
    page-load and session start times are set once. *)
Theorem init_is_idempotent (this : StratosTracker) (w : World) :
  ∃ this1,
    Tracker.init this w = Returned this1 w
    ∧ ∀ w2, Tracker.init this1 w2 = Returned this1 w2.
Proof.
  unfold Tracker.init.
  destruct (consentGiven this) eqn:C; simpl.
  - destruct (isInitialized this) eqn:I.
    + exists this. split; [done|]. intros w2. by rewrite C, I.
    + eexists. split; [reflexivity|]. intros w2. simpl. by rewrite C.
  - exists this. split; [done|]. intros w2. by rewrite C.
Qed.

(** X7.  [setConsent(false)] never throws and stops tracking: the facade
    it returns may not track and is no longer initialised, the identity kept
    in memory and the stored session are gone, nothing is sent, and every
    method behind the [canTrack()] guard is from then on a no-op, at any
    later time. *)
Theorem setConsent_false_stops_tracking (this : StratosTracker) (w : World) :
  ∃ this' w',
    Tracker.setConsent false this w = Returned this' w'
    ∧ Tracker.canTrack this' = false
    ∧ isInitialized this' = false
    ∧ tempVisitorId w' = None
    ∧ getStoredSession w' = Returned None w'
    ∧ network w' = network w
    ∧ ∀ c w2, Tracker.guarded_by_canTrack c = true →
              Tracker.invoke c this' w2 = Returned this' w2.
Proof.
  unfold Tracker.setConsent. simpl. unfold bind.
  destruct (clearAllTrackingData_spec w) as (w' & -> & T & _ & St & F & _).
  unfold ret. eexists _, w'. split; [reflexivity|].
  assert (Hcan : Tracker.canTrack
                   (Tracker.set_isInitialized false
                      (Tracker.set_consentGiven false this)) = false).
  { unfold Tracker.canTrack. simpl. apply andb_false_r. }
  split; [done|]. split; [done|]. split; [done|].
  rewrite getStoredSession_eq, St. split; [done|].
  split; [apply (frame_network _ _ F)|].
  intros c w2 Hg. by apply guarded_methods_do_nothing.
Qed.

(** An event built while the stored session is alive carries its id and
    counts as one more page view. *)
Lemma buildEventPayload_alive eventType eventData (s : SessionData) w :
  stored_session w = Some s →
  storage_full (browser w) = false →
  Date_now w - last_activity_at s ≤ SESSION_TIMEOUT_MS →
  ∃ e (s' : SessionData) w',
    buildEventPayload eventType eventData w = Returned e w'
    ∧ frame w w'
    ∧ stored_session w' = Some s'
    ∧ session_id s' = session_id s
    ∧ page_views s' = page_views s + 1
    ∧ last_activity_at s' = Date_now w
    ∧ ev_session_id e = session_id s
    ∧ event_type e = eventType ∧ event_data e = eventData.
Proof.
  intros St Hfull Hlive. unfold buildEventPayload, bind.
  destruct (getSessionId_alive s w St Hfull Hlive)
    as (s' & w1 & -> & F1 & St1 & Hid & Hpv & Hl & _).
  destruct (getVisitorId_spec w1) as (vid & w2 & -> & VF).
  unfold get, ret. eexists _, s', w2. split; [reflexivity|].
  split; [eauto using frame_trans, vf_frame|].
  rewrite (visitor_frame_stored _ _ VF). done.
Qed.

(** X9.  Every event sent through [trackEvent] while the stored session is
    alive carries that session's id, counts as one page view and renews the
    idle window: afterwards the stored session has one more [page_views] and
    its last activity is the time of the event. *)
Theorem every_event_counts_a_page_view (eventType : string)
    (eventData : option jsobj) (this : StratosTracker) (s : SessionData)
    (w : World) :
  Tracker.canTrack this = true →
  getStoredSession w = Returned (Some s) w →
  storage_full (browser w) = false →
  Date_now w - last_activity_at s ≤ SESSION_TIMEOUT_MS →
  ∃ r e (s' : SessionData) w',
    Tracker.trackEvent eventType eventData this w = Returned this w'
    ∧ network w' = network w ++ [r]
    ∧ req_body r = EventBody e
    ∧ event_type e = eventType
    ∧ ev_session_id e = session_id s
    ∧ getStoredSession w' = Returned (Some s') w'
    ∧ session_id s' = session_id s
    ∧ page_views s' = page_views s + 1
    ∧ last_activity_at s' = Date_now w.
Proof.
  intros Hcan St Hfull Hlive.
  rewrite getStoredSession_eq in St. injection St as St.
  unfold Tracker.trackEvent. rewrite Hcan. simpl. unfold bind.
  destruct (buildEventPayload_alive eventType eventData s w St Hfull Hlive)
    as (e & s' & w1 & -> & F & St' & Hid & Hpv & Hl & He & Hty & _).
  rewrite sendEvent_eq. unfold ret.
  eexists _, e, s', _. split; [reflexivity|]. simpl.
  rewrite (frame_network _ _ F). do 4 (split; [done|]).
  rewrite getStoredSession_eq.
  assert (stored_session (set_network (network w ++
            [{| req_transport := ViaFetch;
                req_endpoint := track_event_endpoint (config this);
                req_api_key := apiKey (config this);
                req_body := EventBody e |}]) w1) = Some s') as -> by exact St'.
  done.
Qed.

End Consent_transitions.

Section Consent_granted.
Context `{!JSON ConsentStatus, !JSON SessionData}.

Lemma getSession_fresh w :
  storage_full (browser w) = false →
  stored_session w = None →
  ∃ s w', getSession w = Returned (Some s) w' ∧ frame w w'
          ∧ stored_session w' = Some s
          ∧ page_views s = 0 ∧ last_activity_at s = Date_now w.
Proof.
  intros Hfull St. unfold getSession, bind. rewrite getStoredSession_eq, St.
  destruct (createNewSession_spec w Hfull)
    as (s0 & w0 & -> & F & St0 & Hpv0 & _ & Hl0 & _).
  unfold ret. by exists s0, w0.
Qed.

Lemma init_spec (this : StratosTracker) w :
  consentGiven this = true →
  ∃ this', Tracker.init this w = Returned this' w
           ∧ isInitialized this' = true
           ∧ consentGiven this' = true
           ∧ config this' = config this.
Proof.
  intros C. unfold Tracker.init. rewrite C. simpl.
  destruct (isInitialized this) eqn:I.
  - by exists this.
  - eexists. split; [reflexivity|]. done.
Qed.

Lemma stored_session_in_localStorage w (s : SessionData) :
  analytics_granted w = true → stored_session w = Some s →
  is_Some (localStorage w !! STORAGE_KEYS_SESSION).
Proof.
  intros G. unfold stored_session. rewrite G.
  by destruct (localStorage w !! STORAGE_KEYS_SESSION).
Qed.

Lemma trackPageView_alive additionalData (this : StratosTracker)
    (s : SessionData) w :
  Tracker.canTrack this = true →
  stored_session w = Some s →
  storage_full (browser w) = false →
  Date_now w - last_activity_at s ≤ SESSION_TIMEOUT_MS →
  ∃ e (s' : SessionData) w',
    Tracker.trackPageView additionalData this w = Returned this w'
    ∧ network w' =
        network w ++ [{| req_transport := ViaFetch;
                         req_endpoint := track_event_endpoint (config this);
                         req_api_key := apiKey (config this);
                         req_body := EventBody e |}]
    ∧ analytics_granted w' = analytics_granted w
    ∧ event_type e = "page_view"
    ∧ ev_session_id e = session_id s
    ∧ stored_session w' = Some s'
    ∧ session_id s' = session_id s
    ∧ page_views s' = page_views s + 1.
Proof.
  intros Hcan St Hfull Hlive.
  unfold Tracker.trackPageView. rewrite Hcan. simpl.
  unfold pageTracking.trackPageView, bind, get.
  match goal with |- context [buildEventPayload ?t ?d w] =>
    destruct (buildEventPayload_alive t d s w St Hfull Hlive)
      as (e & s' & w1 & -> & F & St' & Hid & Hpv & _ & He & Hty & _)
  end.
  rewrite sendEvent_eq. unfold ret.
  eexists e, s', _. split; [reflexivity|]. simpl.
  rewrite (frame_network _ _ F). split; [done|].
  split; [exact (frame_granted _ _ F)|]. do 2 (split; [done|]).
  split; [exact St' | done].
Qed.


End Consent_granted.

(** ** Duration tracking *)

Section Duration_listeners.
Context `{!JSON ConsentStatus, !JSON SessionData}.

Lemma filter_keeps_base (x : EventName * Listener)
    (base : list (EventName * Listener)) :
  Forall (λ r, is_property_handler r = false) base →
  is_property_handler x = true →
  filter (λ r, r ≠ x) base = base.
Proof.
  intros Hbase Hx. induction Hbase as [|r base Hr _ IH]; [done|].
  rewrite filter_cons_True; [by rewrite IH|]. intros ->. congruence.
Qed.

Lemma remove_handlers (q : string) (base : list (EventName * Listener)) :
  Forall (λ r, is_property_handler r = false) base →
  filter (λ r, r ≠ (visibilitychange, propertyVisibilityHandler q))
    (filter (λ r, r ≠ (pagehide, propertyDurationHandler q))
       (filter (λ r, r ≠ (beforeunload, propertyDurationHandler q))
          (base ++ property_handlers q)))
  = base.
Proof.
  intros Hbase.
  do 3 (rewrite list.filter_app, (filter_keeps_base _ base) by done).
  unfold property_handlers.
  repeat (rewrite filter_cons;
          destruct (decide _) as [Hd|Hd];
          [try (exfalso; by apply Hd) | try (exfalso; apply Hd; done)];
          clear Hd).
  rewrite filter_nil. apply app_nil_r.
Qed.

Lemma setupPropertyDurationTracking_spec (p : string)
    (base : list (EventName * Listener)) w :
  Forall (λ r, is_property_handler r = false) base →
  listeners w = base ++ handlers_of (currentPropertyDurationTracking w) →
  ∃ w', propertyTracking.setupPropertyDurationTracking p w = Returned () w'
        ∧ currentPropertyDurationTracking w' = Some p
        ∧ listeners w' = base ++ property_handlers p
        ∧ network w' = network w
        ∧ localStorage w' = localStorage w.
Proof.
  intros Hbase Hls.
  unfold propertyTracking.setupPropertyDurationTracking, bind at 1, get.
  case_bool_decide as Hcur.
  { rewrite Hcur in Hls. by exists w. }
  destruct (currentPropertyDurationTracking w) as [q|] eqn:Ecur.
  - unfold bind, removeEventListener, addEventListener, modify. simpl.
    eexists. split; [reflexivity|]. simpl. rewrite Hls. simpl.
    rewrite (remove_handlers q base Hbase).
    by rewrite <- !app_assoc.
  - unfold bind, addEventListener, modify, ret. simpl.
    eexists. split; [reflexivity|]. simpl. rewrite Hls. simpl.
    by rewrite app_nil_r, <- !app_assoc.
Qed.

Lemma setup_properties_spec (ps : list string)
    (base : list (EventName * Listener)) w :
  Forall (λ r, is_property_handler r = false) base →
  listeners w = base ++ handlers_of (currentPropertyDurationTracking w) →
  ∃ w', setup_properties ps w = Returned () w'
        ∧ currentPropertyDurationTracking w'
          = foldl (λ _ p, Some p) (currentPropertyDurationTracking w) ps
        ∧ listeners w' = base ++ handlers_of (currentPropertyDurationTracking w')
        ∧ network w' = network w
        ∧ localStorage w' = localStorage w.
Proof.
  intros Hbase. revert w. induction ps as [|p ps IH]; intros w Hls.
  - by exists w.
  - destruct (setupPropertyDurationTracking_spec p base w Hbase Hls)
      as (w1 & E1 & C1 & L1 & N1 & S1).
    destruct (IH w1) as (w2 & E2 & C2 & L2 & N2 & S2).
    { by rewrite C1. }
    exists w2. simpl. unfold bind. rewrite E1.
    split; [done|]. rewrite C2, C1. split; [done|].
    split; [by rewrite L2, C2, C1|]. split; congruence.
Qed.

(** X10.  On a page where no property has been tracked yet, after
    [setupPropertyDurationTracking] has been called for any list of
    properties (repeats included) and then for [p], the listeners registered
    are those of before plus the three handlers of [p], each once: the
    handlers of every earlier property have been removed and a repeated call
    adds nothing.  Nothing is sent or stored. *)
Theorem property_duration_handlers_of_last_only (ps : list string)
    (p : string) (w : World) :
  currentPropertyDurationTracking w = None →
  Forall (λ r, is_property_handler r = false) (listeners w) →
  ∃ w',
    setup_properties (ps ++ [p]) w = Returned () w'
    ∧ listeners w' = listeners w ++ property_handlers p
    ∧ currentPropertyDurationTracking w' = Some p
    ∧ network w' = network w
    ∧ localStorage w' = localStorage w.
Proof.
  intros Hcur Hbase.
  destruct (setup_properties_spec (ps ++ [p]) (listeners w) w Hbase)
    as (w' & E & C & L & N & S).
  { by rewrite Hcur, app_nil_r. }
  rewrite foldl_app in C. simpl in C. rewrite C in L.
  by exists w'.
Qed.

(** Sending by beacon: the request appended, everything else as the
    identity code leaves it. *)
Lemma sendBeacon_full (config : RequiredTrackerConfig) (eventType : string)
    (eventData : option jsobj) w :
  session_entry_sound w →
  ∃ e w1,
    sendBeacon config eventType eventData w
    = Returned ()
        (set_network
           (network w1 ++ [{| req_transport :=
                                (if navigator_sendBeacon (browser w)
                                 then ViaBeacon else ViaFetch);
                              req_endpoint := track_event_endpoint config;
                              req_api_key := apiKey config;
                              req_body := EventBody e |}]) w1)
    ∧ frame w w1
    ∧ event_type e = eventType ∧ event_data e = eventData.
Proof.
  intros Hs. unfold sendBeacon, bind.
  destruct (getSessionId_returns w Hs) as (sid & w1 & -> & F1).
  destruct (quiet_getVisitorId w1) as (vid & w2 & -> & F2).
  pose proof (frame_trans _ _ _ F1 F2) as F.
  unfold get. rewrite (frame_browser _ _ F).
  destruct (navigator_sendBeacon (browser w)).
  - eexists _, w2. split; [reflexivity|]. done.
  - rewrite sendEvent_eq. eexists _, w2. split; [reflexivity|]. done.
Qed.

Lemma trackPropertyDuration_sends config propertyId startTime w :
  startTime ≠ 0 →
  3000 ≤ Date_now w - startTime →
  session_entry_sound w →
  ∃ r e w',
    propertyTracking.trackPropertyDuration config propertyId startTime w
    = Returned () w'
    ∧ network w' = network w ++ [r]
    ∧ listeners w' = listeners w
    ∧ Date_now w' = Date_now w
    ∧ session_entry_sound w'
    ∧ req_body r = EventBody e
    ∧ event_type e = "property_view"
    ∧ field "view_duration_seconds" e
      = VNum ((Date_now w - startTime) `div` 1000)
    ∧ field "property_id" e = VStr propertyId.
Proof.
  intros Hstart Hel Hs. unfold propertyTracking.trackPropertyDuration.
  destruct (Z.eqb_spec startTime 0) as [|_]; [done|].
  unfold seconds_since, bind, get, ret.
  rewrite bool_decide_eq_false_2.
  2: { assert (3 ≤ (Date_now w - startTime) `div` 1000); [|lia].
       apply Z.div_le_lower_bound; lia. }
  match goal with |- context [sendBeacon ?c ?t ?d w] =>
    destruct (sendBeacon_full c t d w Hs) as (e & w1 & -> & F & Hty & Hdata)
  end.
  eexists _, e, _. split; [reflexivity|]. simpl.
  rewrite (frame_network _ _ F), (frame_listeners _ _ F), (frame_now _ _ F).
  do 3 (split; [done|]).
  split; [exact (frame_sound _ _ F Hs)|].
  do 2 (split; [done|]). unfold field. rewrite Hdata. done.
Qed.

(** X11.  Leaving a property page sends one duration beacon per event
    delivered, not one per visit: with the three handlers of
    [setupPropertyDurationTracking] registered and at least 3 seconds on the
    page, and a session entry that is absent or a session, [beforeunload]
    sends a [property_view] beacon and the [pagehide] that follows sends a
    second one with the same duration. *)
Theorem leaving_sends_a_beacon_per_event (p : string) (this : StratosTracker)
    (w : World) :
  listeners w = property_handlers p →
  propertyViewStartTime this ≠ 0 →
  3000 ≤ Date_now w - propertyViewStartTime this →
  session_entry_sound w →
  ∃ r1 r2 w1 w2,
    Tracker.dispatchEvent Ev_beforeunload this w = Returned this w1
    ∧ Tracker.dispatchEvent Ev_pagehide this w1 = Returned this w2
    ∧ network w2 = network w ++ [r1; r2]
    ∧ map event_type (events [r1; r2]) = ["property_view"; "property_view"]
    ∧ map (field "view_duration_seconds") (events [r1; r2])
      = [VNum ((Date_now w - propertyViewStartTime this) `div` 1000);
         VNum ((Date_now w - propertyViewStartTime this) `div` 1000)].
Proof.
  intros Hls Hstart Hel Hs.
  destruct (trackPropertyDuration_sends (config this) p
              (propertyViewStartTime this) w Hstart Hel Hs)
    as (r1 & e1 & w1 & E1 & N1 & L1 & T1 & Hs1 & B1 & Ty1 & D1 & _).
  destruct (trackPropertyDuration_sends (config this) p
              (propertyViewStartTime this) w1 Hstart)
    as (r2 & e2 & w2 & E2 & N2 & L2 & T2 & _ & B2 & Ty2 & D2 & _);
    [by rewrite T1 | exact Hs1 |].
  exists r1, r2, w1, w2.
  split.
  { unfold Tracker.dispatchEvent, bind at 1, get. rewrite Hls. simpl.
    unfold bind, try_catch. by rewrite E1. }
  split.
  { unfold Tracker.dispatchEvent, bind at 1, get. rewrite L1, Hls. simpl.
    unfold bind, try_catch. by rewrite E2. }
  split; [by rewrite N2, N1, <- app_assoc|].
  unfold events. simpl. unfold event_of. rewrite B1, B2. simpl.
  by rewrite Ty1, Ty2, D1, D2, T1.
Qed.

(** X14.  With a session entry that is absent or a session,
    [trackBlogDuration] with a start time set sends nothing while
    fewer than 5 whole seconds have elapsed, and otherwise exactly one
    [blog_read_time] request carrying the whole seconds elapsed and the
    scroll depth it was given. *)
Theorem blog_duration_floor (config : RequiredTrackerConfig)
    (articleId : string) (startTime depth : Z) (w : World) :
  startTime ≠ 0 →
  session_entry_sound w →
  let seconds := (Date_now w - startTime) `div` 1000 in
  if bool_decide (seconds < 5) then
    blogTracking.trackBlogDuration config articleId startTime depth w
    = Returned () w
  else
    ∃ r e w',
      blogTracking.trackBlogDuration config articleId startTime depth w
      = Returned () w'
      ∧ network w' = network w ++ [r]
      ∧ req_body r = EventBody e
      ∧ event_type e = "blog_read_time"
      ∧ field "read_duration_seconds" e = VNum seconds
      ∧ field "max_scroll_depth" e = VNum depth
      ∧ field "article_id" e = VStr articleId.
Proof.
  intros Hstart Hs seconds. unfold blogTracking.trackBlogDuration.
  destruct (Z.eqb_spec startTime 0) as [|_]; [done|].
  unfold seconds_since, bind, get, ret. fold seconds.
  destruct (bool_decide (seconds < 5)); [done|].
  match goal with |- context [sendBeacon ?c ?t ?d w] =>
    destruct (sendBeacon_full c t d w Hs) as (e & w1 & -> & F & Hty & Hdata)
  end.
  eexists _, e, _. split; [reflexivity|]. simpl.
  rewrite (frame_network _ _ F).
  do 3 (split; [done|]). unfold field. rewrite Hdata. done.
Qed.

(** X20.  A property view starts the clock of the duration: with a session
    entry that is absent or a session, after [trackPropertyView] on a facade
    that may track, [trackPropertyDuration] at least 3 seconds later sends
    one more request, a [property_view] whose [view_duration_seconds] is the
    whole seconds since the view. *)
Theorem view_then_duration (propertyId : string) (additionalData : option jsobj)
    (this : StratosTracker) (w : World) (elapsed : Z) :
  Tracker.canTrack this = true →
  Date_now w ≠ 0 →
  3000 ≤ elapsed →
  session_entry_sound w →
  ∃ this1 w1 r e w2,
    Tracker.trackPropertyView propertyId additionalData this w
    = Returned this1 w1
    ∧ Tracker.trackPropertyDuration propertyId this1
        (set_Date_now (Date_now w + elapsed) w1)
      = Returned this1 w2
    ∧ network w2 = network w1 ++ [r]
    ∧ req_body r = EventBody e
    ∧ event_type e = "property_view"
    ∧ field "view_duration_seconds" e = VNum (elapsed `div` 1000).
Proof.
  intros Hcan Hnow Hel Hs.
  unfold Tracker.trackPropertyView. rewrite Hcan. simpl.
  unfold bind at 1, get. 
  set (this1 := Tracker.set_propertyViewStartTime (Date_now w) this).
  unfold bind at 1.
  assert (∃ w1, propertyTracking.trackPropertyView (config this1) propertyId
                  additionalData w = Returned () w1
                ∧ session_entry_sound w1) as (w1 & E1 & Hs1).
  { unfold propertyTracking.trackPropertyView, bind, get.
    match goal with |- context [buildEventPayload ?t ?d w] =>
      destruct (buildEventPayload_spec t d w Hs) as (e & w1 & -> & F & _)
    end.
    rewrite sendEvent_eq. eexists. split; [reflexivity|].
    exact (frame_sound _ _ F Hs). }
  change (config this) with (config this1). rewrite E1. unfold ret.
  assert (Hen : trackingEnabled (config this1) = true).
  { unfold Tracker.canTrack in Hcan. simpl.
    by destruct (trackingEnabled (config this)). }
  set (w1' := set_Date_now (Date_now w + elapsed) w1).
  destruct (trackPropertyDuration_sends (config this1) propertyId
              (Date_now w) w1' Hnow)
    as (r & e & w2 & E2 & N2 & _ & _ & _ & B2 & Ty2 & D2 & _);
    [simpl; lia | exact Hs1 |].
  exists this1, w1, r, e, w2. split; [done|].
  split.
  { unfold Tracker.trackPropertyDuration.
    change (propertyViewStartTime this1) with (Date_now w).
    rewrite Hen. cbn [negb orb].
    destruct (Z.eqb_spec (Date_now w) 0) as [|_]; [done|].
    unfold bind. fold w1'. by rewrite E2. }
  split; [done|]. split; [done|]. split; [done|].
  rewrite D2. simpl. do 2 f_equal. lia.
Qed.

(** X19.  With tracking switched off by [setTrackingEnabled(false)], every
    public tracking method except the two that only arm listeners is a
    no-op, whether or not consent has been given. *)
Theorem disabled_tracking_does_nothing (c : Tracker.Call)
    (this : StratosTracker) (w : World) :
  arms_listeners c = false →
  Tracker.invoke c (Tracker.setTrackingEnabled false this) w
  = Returned (Tracker.setTrackingEnabled false this) w.
Proof.
  intros Harm.
  destruct (Tracker.guarded_by_canTrack c) eqn:Hg.
  - by apply guarded_methods_do_nothing.
  - destruct (disabled_methods_do_nothing
                (Tracker.setTrackingEnabled false this) w eq_refl)
      as (H1 & H2 & H3).
    destruct c; try discriminate; simpl; auto.
Qed.

End Duration_listeners.

(** ** Scroll milestones, for any reader *)

Section Scroll_milestones.
Context `{!JSON ConsentStatus, !JSON SessionData}.

Lemma crossed_Some percent maxScrollDepth m :
  crossed percent maxScrollDepth = Some m →
  maxScrollDepth < m ∧ m ≤ percent ∧ m ∈ blogTracking.milestones.
Proof.
  unfold crossed. intros H. apply find_some in H. destruct H as [Hin H].
  apply andb_prop in H. destruct H as [H1 H2].
  apply bool_decide_eq_true in H1, H2.
  split; [lia|]. split; [lia|]. by apply list_elem_of_In.
Qed.

Lemma increasing_from_weaken lo lo' ms :
  lo' ≤ lo → increasing_from lo ms → increasing_from lo' ms.
Proof. destruct ms as [|m ms]; simpl; [done|]. intros ? [? ?]. split; [lia|done]. Qed.

Lemma milestones_fired_cons r e m rs :
  req_body r = EventBody e → field "scroll_depth" e = VNum m →
  milestones_fired (r :: rs) = m :: milestones_fired rs.
Proof.
  intros Hb Hf. unfold milestones_fired, events. simpl.
  unfold event_of at 1. rewrite Hb. simpl.
  unfold milestone_of at 1. by rewrite Hf.
Qed.

Lemma is_milestone m :
  m ∈ blogTracking.milestones → m = 25 ∨ m = 50 ∨ m = 75 ∨ m = 100.
Proof.
  unfold blogTracking.milestones. rewrite !elem_of_cons, elem_of_nil. tauto.
Qed.

(** [j] milestones lie at or below [lo]; the increasing ones above it are
    at most [4 - j]. *)
Lemma increasing_milestones_bound ms lo j :
  0 ≤ j ≤ 4 → 25 * j ≤ Z.max lo 0 →
  increasing_from lo ms →
  Forall (λ m, m ∈ blogTracking.milestones) ms →
  Z.of_nat (length ms) + j ≤ 4.
Proof.
  revert lo j. induction ms as [|m ms IH]; intros lo j Hj Hlo Hinc Hall.
  - simpl. lia.
  - destruct Hinc as [Hlt Hinc]. inversion Hall as [|? ? Hm Hall']; subst.
    apply is_milestone in Hm.
    specialize (IH m (j + 1)). simpl length.
    rewrite Nat2Z.inj_succ. 
    assert (Z.of_nat (length ms) + (j + 1) ≤ 4); [|lia].
    apply IH; [lia | lia | done | done].
Qed.

Lemma omap_no_longer {A B} (f : A → option B) (l : list A) :
  (length (omap f l) ≤ length l)%nat.
Proof.
  induction l as [|a l IH]; [done|].
  change (omap f (a :: l))
    with (match f a with Some y => y :: omap f l | None => omap f l end).
  destruct (f a); simpl length; lia.
Qed.

Lemma events_cons r e rs :
  req_body r = EventBody e → events (r :: rs) = e :: events rs.
Proof. intros Hb. unfold events. simpl. unfold event_of at 1. by rewrite Hb. Qed.

Lemma scroll_through_milestones (config : RequiredTrackerConfig)
    (articleId : string) (positions : list (Z * Z)) (depth : Z) (w : World) :
  session_entry_sound w →
  ∃ depth' w' rs,
    scroll_through config articleId depth positions w = Returned depth' w'
    ∧ network w' = network w ++ rs
    ∧ depth ≤ depth'
    ∧ Forall (λ e, event_type e = "blog_scroll_depth") (events rs)
    ∧ length (milestones_fired rs) = length rs
    ∧ increasing_from depth (milestones_fired rs)
    ∧ Forall (λ m, m ∈ blogTracking.milestones ∧ m ≤ depth')
        (milestones_fired rs).
Proof.
  revert depth w.
  induction positions as [|[scrollTop docHeight] ps IH]; intros depth w Hs.
  - exists depth, w, []. simpl. rewrite app_nil_r. unfold ret.
    repeat split; try done.
  - rewrite scroll_through_cons. unfold bind.
    set (p := blogTracking.scrollPercent scrollTop docHeight).
    destruct (crossed p depth) as [m|] eqn:Hm.
    + destruct (crossed_Some _ _ _ Hm) as (Hlt & Hle & Hin).
      destruct (trackScroll_fires config articleId depth scrollTop docHeight
                  m w Hm) as (e & w1 & -> & Hnet & Hty & Hf & Hs1);
        [fold p; lia | exact Hs |].
      fold p. set (r := Build_Request _ _ _ _) in Hnet.
      destruct (IH p w1 Hs1)
        as (d' & w' & rs & -> & Hnet' & Hd & Htys & Hlen & Hinc & Hall).
      exists d', w', (r :: rs). split; [reflexivity|].
      split; [by rewrite Hnet', Hnet, <- app_assoc|].
      split; [lia|].
      rewrite (events_cons r e rs eq_refl).
      split; [by constructor|].
      rewrite (milestones_fired_cons r e m rs eq_refl Hf).
      split; [simpl; by rewrite Hlen|].
      split.
      { split; [done|]. by apply (increasing_from_weaken p). }
      constructor; [split; [done|lia] | done].
    + rewrite (trackScroll_silent config articleId depth scrollTop docHeight w)
        by (left; exact Hm).
      fold p.
      destruct (IH (Z.max p depth) w Hs)
        as (d' & w' & rs & -> & Hnet' & Hd & Htys & Hlen & Hinc & Hall).
      exists d', w', rs. split; [reflexivity|]. split; [done|].
      split; [lia|]. split; [done|]. split; [done|]. split; [|done].
      apply (increasing_from_weaken (Z.max p depth)); [lia|done].
Qed.

(** X12.  With a session entry that is absent or a session, however the
    reader scrolls on from any recorded depth (0 when
    [setupScrollDepthTracking] is called), the scroll tracker returns and
    every request it sends is a [blog_scroll_depth] event carrying a
    milestone: the milestones are strictly increasing, out of 25, 50, 75 and
    100, each above the depth the scrolling started from and none above the
    depth it ends with.  So no milestone is reported twice, never more than
    four events are sent, and the recorded depth never decreases. *)
Theorem scroll_milestones_strictly_increase (config : RequiredTrackerConfig)
    (articleId : string) (positions : list (Z * Z)) (depth : Z) (w : World) :
  session_entry_sound w →
  ∃ depth' w' rs,
    scroll_through config articleId depth positions w = Returned depth' w'
    ∧ network w' = network w ++ rs
    ∧ depth ≤ depth'
    ∧ length (events rs) = length rs
    ∧ Forall (λ e, event_type e = "blog_scroll_depth") (events rs)
    ∧ length (milestones_fired rs) = length rs
    ∧ increasing_from depth (milestones_fired rs)
    ∧ Forall (λ m, m ∈ blogTracking.milestones ∧ m ≤ depth')
        (milestones_fired rs)
    ∧ (length rs ≤ 4)%nat.
Proof.
  intros Hs.
  destruct (scroll_through_milestones config articleId positions depth w Hs)
    as (d' & w' & rs & E & Hnet & Hd & Htys & Hlen & Hinc & Hall).
  exists d', w', rs. do 3 (split; [done|]).
  split.
  { apply Nat.le_antisymm.
    - unfold events. apply omap_no_longer.
    - rewrite <- Hlen. unfold milestones_fired. apply omap_no_longer. }
  do 4 (split; [done|]).
  assert (Forall (λ m, m ∈ blogTracking.milestones) (milestones_fired rs))
    as Hall'.
  { eapply list.Forall_impl; [exact Hall|]. by intros m [? _]. }
  pose proof (increasing_milestones_bound (milestones_fired rs) depth 0
                ltac:(lia) ltac:(lia) Hinc Hall') as Hb.
  rewrite Hlen in Hb. lia.
Qed.

End Scroll_milestones.

(** ** Object spread *)

Lemma obj_get_obj_set k k' v (o : jsobj) :
  obj_get k (obj_set k' v o) = if String.eqb k k' then v else obj_get k o.
Proof.
  induction o as [|[k0 v0] o IH]; simpl.
  - done.
  - destruct (String.eqb_spec k' k0) as [->|Hne]; simpl.
    + destruct (String.eqb_spec k k0); done.
    + rewrite IH.
      destruct (String.eqb_spec k k0) as [->|]; [|done].
      destruct (String.eqb_spec k0 k'); [congruence | done].
Qed.

Lemma obj_spread_snoc (base extra : jsobj) k v :
  obj_spread base (extra ++ [(k, v)]) = obj_set k v (obj_spread base extra).
Proof. unfold obj_spread. by rewrite foldl_app. Qed.

Lemma obj_get_spread_absent k (base extra : jsobj) :
  k ∉ extra.*1 → obj_get k (obj_spread base extra) = obj_get k base.
Proof.
  revert base. induction extra as [|[k0 v0] extra IH]; intros base Hk.
  - done.
  - simpl in Hk. apply not_elem_of_cons in Hk as [Hne Hk].
    change (obj_spread base ((k0, v0) :: extra))
      with (obj_spread (obj_set k0 v0 base) extra).
    rewrite IH by done. rewrite obj_get_obj_set.
    destruct (String.eqb_spec k k0); [congruence | done].
Qed.

Lemma obj_get_spread_last k v (base extra1 extra2 : jsobj) :
  k ∉ extra2.*1 →
  obj_get k (obj_spread base (extra1 ++ (k, v) :: extra2)) = v.
Proof.
  intros Hk.
  assert (obj_spread base (extra1 ++ (k, v) :: extra2)
          = obj_spread (obj_set k v (obj_spread base extra1)) extra2) as ->.
  { unfold obj_spread. by rewrite foldl_app. }
  rewrite obj_get_spread_absent by done. rewrite obj_get_obj_set.
  by rewrite String.eqb_refl.
Qed.

Section Additional_data.
Context `{!JSON ConsentStatus, !JSON SessionData}.

Lemma buildEventPayload_ids (eventType : string) (eventData : option jsobj) w :
  session_entry_sound w →
  ∃ e w', buildEventPayload eventType eventData w = Returned e w'
          ∧ frame w w'
          ∧ event_type e = eventType ∧ event_data e = eventData
          ∧ property_id e
            = (if truthy (opt_get "property_id" eventData)
               then opt_get "property_id" eventData else VUndef)
          ∧ article_id e
            = (if truthy (opt_get "article_id" eventData)
               then opt_get "article_id" eventData else VUndef).
Proof.
  intros Hs. unfold buildEventPayload, bind.
  destruct (getSessionId_returns w Hs) as (sid & w1 & -> & F1).
  destruct (quiet_getVisitorId w1) as (vid & w2 & -> & F2).
  unfold get, ret. eexists _, w2. split; [reflexivity|].
  split; [eauto using frame_trans | done].
Qed.

(** X13.  With a session entry that is absent or a session, what the caller
    passes as [additionalData] wins over what [trackPropertyView] writes
    itself: the one [property_view] event carries,
    for a key of [additionalData], the value given last for it.  A
    [property_id] among them replaces the [propertyId] argument in the event
    data and, when truthy, in the payload's own [property_id]. *)
Theorem additional_data_overrides (config : RequiredTrackerConfig)
    (propertyId : string) (extra1 extra2 : jsobj) (k : string) (v : jsval)
    (w : World) :
  k ∉ extra2.*1 →
  session_entry_sound w →
  ∃ r e w',
    propertyTracking.trackPropertyView config propertyId
      (Some (extra1 ++ (k, v) :: extra2)) w
    = Returned () w'
    ∧ network w' = network w ++ [r]
    ∧ req_body r = EventBody e
    ∧ event_type e = "property_view"
    ∧ field k e = v
    ∧ (k = "property_id" →
       property_id e = if truthy v then v else VUndef).
Proof.
  intros Hk Hs. unfold propertyTracking.trackPropertyView, bind, get.
  match goal with |- context [buildEventPayload ?t ?d w] =>
    destruct (buildEventPayload_ids t d w Hs)
      as (e & w1 & -> & F & Hty & Hdata & Hpid & _)
  end.
  rewrite sendEvent_eq. eexists _, e, _. split; [reflexivity|]. simpl.
  rewrite (frame_network _ _ F). do 3 (split; [done|]).
  assert (field k e = v) as Hf.
  { unfold field. rewrite Hdata. simpl. by apply obj_get_spread_last. }
  split; [done|]. intros ->. rewrite Hpid.
  unfold field in Hf. rewrite Hdata in Hf. by rewrite Hf.
Qed.

End Additional_data.

(** ** The pending search record *)

Section Pending_search.
Context `{!JSON ConsentStatus, !JSON SessionData, !JSON SearchTrackingData}.
Variable formatPriceRange : jsval → jsval → string.

(** [trackEvent] either returns, leaving [sessionStorage] alone and having
    handed over at most one request, or throws before it has changed
    anything. *)
Lemma trackEvent_outcome (eventType : string) (eventData : option jsobj)
    (this : StratosTracker) w :
  (∃ w', Tracker.trackEvent eventType eventData this w = Returned this w'
         ∧ sessionStorage w' = sessionStorage w
         ∧ (network w' = network w ∨ ∃ r, network w' = network w ++ [r])
         ∧ (Tracker.canTrack this = false → w' = w))
  ∨ Tracker.trackEvent eventType eventData this w = Threw w.
Proof.
  unfold Tracker.trackEvent.
  destruct (Tracker.canTrack this) eqn:Hcan; simpl.
  2: { left. exists w. unfold ret. auto. }
  unfold buildEventPayload, bind.
  destruct (getSessionId_outcome w) as [(sid & w1 & -> & F1) | ->];
    [left | by right].
  destruct (quiet_getVisitorId w1) as (vid & w2 & -> & F2).
  pose proof (frame_trans _ _ _ F1 F2) as F.
  unfold get, ret. rewrite sendEvent_eq.
  eexists. split; [reflexivity|]. simpl.
  split; [exact (frame_sessionStorage _ _ F)|].
  split; [|done]. right. rewrite (frame_network _ _ F). by eexists.
Qed.


(** X17.  A pending search is lost when the facade on [window] may not
    track: [sendPendingSearchEvent] finds a fresh record, calls
    [trackEvent], which does nothing, and resolves [true] although nothing
    was handed to the network; the record is gone, so a later call, with
    whatever facade, sends nothing either. *)
Theorem pending_search_lost_without_consent (data : SearchTrackingData)
    (tracker : StratosTracker) (w : World) :
  storage_denied (browser w) = false →
  sessionStorage w !! searchTracking.STORAGE_KEY = Some (JSON_stringify data) →
  Date_now w - search_timestamp data ≤ 30000 →
  Tracker.canTrack tracker = false →
  ∃ w',
    searchTracking.sendPendingSearchEvent formatPriceRange (Some tracker) w
    = Returned true w'
    ∧ network w' = network w
    ∧ ∀ g w2,
        sessionStorage w2 = sessionStorage w' →
        ∃ w3, searchTracking.sendPendingSearchEvent formatPriceRange g w2
              = Returned false w3
              ∧ network w3 = network w2.
Proof.
  intros Hd Hst Hfresh Hcan.
  pose proof (sendPendingSearchEvent_read formatPriceRange (Some tracker)
                data w Hd Hst) as E.
  simpl in E. rewrite bool_decide_eq_false_2 in E by lia.
  unfold Tracker.trackEvent in E. rewrite Hcan in E. simpl in E.
  unfold ret in E.
  eexists. split; [exact E|]. split; [done|].
  intros g w2 Hss. exists w2. split; [|done].
  apply sendPendingSearchEvent_absent.
  rewrite Hss. simpl. apply lookup_delete_eq.
Qed.

End Pending_search.

(** ** The latest search *)

Section Latest_search.
Context `{!JSON ConsentStatus, !JSON SessionData, !JSON SearchTrackingData,
          !Numbers}.

(** X15.  The pending record holds one search, the latest.  With storage
    available, a session entry that is absent or a session, and a facade
    that may track, a second [storeSearchForTracking] replaces what the
    first one stored, and the [sendPendingSearchEvent] that follows within
    30 seconds hands over exactly one [search] event.  Every field of it
    comes from the second search [X2], with the defaults of the two
    functions, the time of the second call as [search_timestamp] and the
    time since then as [tracking_delay_ms]; nothing of the first search is
    in it. *)
Theorem latest_search_wins (X1 X2 : PartialSearch) (tracker : StratosTracker)
    (w : World) (t2 delay : Z) :
  storage_denied (browser w) = false →
  storage_full (browser w) = false →
  session_entry_sound w →
  Tracker.canTrack tracker = true →
  delay ≤ 30000 →
  ∃ w1 w2 r e w3,
    searchTracking.storeSearchForTracking X1 w = Returned () w1
    ∧ searchTracking.storeSearchForTracking X2 (set_Date_now t2 w1)
      = Returned () w2
    ∧ searchTracking.sendPendingSearchEvent searchTracking.formatPriceRange
        (Some tracker) (set_Date_now (t2 + delay) w2)
      = Returned true w3
    ∧ network w3 = network w ++ [r]
    ∧ req_body r = EventBody e
    ∧ event_type e = "search"
    ∧ event_data e
      = Some
          [("location",
            VStr (str_or (p_location X2) (str_or (p_postcode X2) "")));
           ("postcode", VStr (str_or (p_postcode X2) ""));
           ("min_price", js_or (p_min_price X2) VNull);
           ("max_price", js_or (p_max_price X2) VNull);
           ("price_range",
            VStr (searchTracking.formatPriceRange
                    (p_min_price X2) (p_max_price X2)));
           ("bedrooms", js_or (p_bedrooms X2) VNull);
           ("bathrooms", js_or (p_bathrooms X2) VNull);
           ("property_type", js_or (of_opt_str (p_property_type X2)) VNull);
           ("listing_type", VStr (str_or (p_listing_type X2) "sale"));
           ("filters", VObj (default [] (p_filters X2)));
           ("filters_count", VNum (default 0 (p_filters_count X2)));
           ("source_page",
            VStr (str_or (p_source_page X2) (location_pathname (browser w))));
           ("source_component",
            VStr (str_or (p_source_component X2) "unknown"));
           ("search_timestamp", VNum t2);
           ("tracking_delay_ms", VNum delay)].
Proof.
  intros Hd Hf Hs Hcan Hdelay.
  pose proof (storeSearchForTracking_spec X1 w Hd Hf) as E1.
  set (w1 := set_sessionStorage _ w) in E1.
  pose proof (storeSearchForTracking_spec X2 (set_Date_now t2 w1) Hd Hf) as E2.
  set (w2 := set_sessionStorage _ (set_Date_now t2 w1)) in E2.
  pose proof (sendPendingSearchEvent_read searchTracking.formatPriceRange
                (Some tracker)
                (searchTracking.trackingData X2 t2
                   (location_pathname (browser w)))
                (set_Date_now (t2 + delay) w2) Hd) as E3.
  simpl in E3. rewrite lookup_insert_eq in E3. specialize (E3 eq_refl).
  rewrite bool_decide_eq_false_2 in E3 by lia.
  match type of E3 with context [Tracker.trackEvent ?t ?d tracker ?w0] =>
    destruct (trackEvent_sends t d tracker w0 Hcan)
      as (e & w3 & E & Hnet & _ & _ & Hty & Hdata); [exact Hs|]
  end.
  rewrite E in E3. eexists w1, w2, _, e, w3.
  split; [done|]. split; [done|]. split; [exact E3|].
  split; [exact Hnet|]. split; [done|]. split; [done|].
  by rewrite search_event_data_of in Hdata.
Qed.

End Latest_search.

(** ** Favourites, when the server answers *)

Section Favourite_answers.
Context `{!JSON ConsentStatus, !JSON SessionData}.

(** X18.  With a session entry that is absent or a session, when the server
    answers a toggle with an object, the facade's [toggleFavourite] hands
    over two requests, the toggle and then one
    analytics event named after what the server said
    ([property_favourited] when [is_favourited] is truthy,
    [property_unfavourited] otherwise), and resolves with the server's
    [is_favourited] and its [count], or 0 where the count is missing or
    falsy. *)
Theorem favourite_event_follows_server (propertyId : string)
    (source : option string) (answer : jsobj) (this : StratosTracker)
    (w : World) :
  Tracker.canTrack this = true →
  session_entry_sound w →
  ∃ r1 r2 visitorId sessionId e w',
    Tracker.toggleFavourite propertyId source
      (Response true (Some (VObj answer))) this w
    = Returned {| is_favourited := obj_get "is_favourited" answer;
                  count := js_or (obj_get "count" answer) (VNum 0) |} w'
    ∧ network w' = network w ++ [r1; r2]
    ∧ req_endpoint r1 = apiUrl (config this) +:+ "/functions/v1/toggle-favourite"
    ∧ req_body r1
      = FavouriteBody visitorId sessionId propertyId (default "unknown" source)
    ∧ req_body r2 = EventBody e
    ∧ event_type e
      = (if truthy (obj_get "is_favourited" answer)
         then "property_favourited" else "property_unfavourited")
    ∧ field "property_id" e = VStr propertyId
    ∧ field "source" e = VStr (default "unknown" source).
Proof.
  intros Hcan Hs. unfold Tracker.toggleFavourite. rewrite Hcan. simpl.
  unfold favouritesModule.toggleFavourite, bind at 1.
  destruct (quiet_getVisitorId w) as (vid & w1 & -> & F1).
  unfold bind at 1.
  pose proof (frame_sound _ _ F1 Hs) as Hs1.
  destruct (getSessionId_returns w1 Hs1) as (sid & w2 & -> & F2).
  pose proof (frame_sound _ _ F2 Hs1) as Hs2.
  unfold try_catch, bind at 1, hand_over, modify.
  set (r1 := Build_Request _ _ _ _).
  set (w3 := set_network _ w2).
  unfold response_json, prop. simpl. unfold bind at 1, ret at 1.
  unfold bind at 1, ret at 1. unfold bind at 1.
  match goal with |- context [buildEventPayload ?t ?d w3] =>
    destruct (buildEventPayload_spec t d w3 Hs2)
      as (e & w4 & -> & F4 & Hty & Hdata)
  end.
  unfold bind at 1. rewrite sendEvent_eq. unfold bind at 1, ret.
  eexists r1, _, vid, sid, e, _. split; [reflexivity|]. simpl.
  rewrite (frame_network _ _ F4). simpl.
  rewrite (frame_network _ _ F2), (frame_network _ _ F1).
  split; [by rewrite <- app_assoc|].
  do 4 (split; [done|]). unfold field. rewrite Hdata. done.
Qed.

(** X26.  A toggle that fails leaves its one request and no analytics
    event: with a session entry that is absent or a session, when the
    request fails, or the response is not ok (whatever its
    body), the facade's [toggleFavourite] hands over the toggle request only
    and resolves with [{ is_favourited: false, count: 0 }]. *)
Theorem failed_toggle_sends_no_event (propertyId : string)
    (source : option string) (http : HttpOutcome) (this : StratosTracker)
    (w : World) :
  Tracker.canTrack this = true →
  session_entry_sound w →
  http = NetworkError ∨ (∃ json, http = Response false json) →
  ∃ r1 visitorId sessionId w',
    Tracker.toggleFavourite propertyId source http this w
    = Returned not_favourited w'
    ∧ network w' = network w ++ [r1]
    ∧ req_body r1
      = FavouriteBody visitorId sessionId propertyId (default "unknown" source).
Proof.
  intros Hcan Hs Hhttp. unfold Tracker.toggleFavourite. rewrite Hcan. simpl.
  unfold favouritesModule.toggleFavourite, bind at 1.
  destruct (quiet_getVisitorId w) as (vid & w1 & -> & F1).
  unfold bind at 1.
  destruct (getSessionId_returns w1 (frame_sound _ _ F1 Hs))
    as (sid & w2 & -> & F2).
  unfold try_catch, bind at 1, hand_over, modify.
  set (r1 := Build_Request _ _ _ _).
  assert (Hnet : network (set_network (network w2 ++ [r1]) w2)
                 = network w ++ [r1]).
  { simpl. by rewrite (frame_network _ _ F2), (frame_network _ _ F1). }
  destruct Hhttp as [->|[json ->]].
  - unfold throw, ret. eexists r1, vid, sid, _.
    split; [reflexivity|]. split; [exact Hnet | done].
  - simpl. destruct json as [v|]; unfold response_json, bind, ret, throw;
      eexists r1, vid, sid, _;
      (split; [reflexivity|]); (split; [exact Hnet | done]).
Qed.

End Favourite_answers.

(** ** Search parameters from the URL *)

Lemma count_filter_count (params : list (string * string)) (acc : jsobj * Z) :
  (foldl count_filter acc params).2
  = acc.2 + Z.of_nat (length (List.filter is_filter params)).
Proof.
  revert acc. induction params as [|kv params IH]; intros acc.
  - simpl. lia.
  - cbn [foldl List.filter]. rewrite IH. unfold count_filter.
    fold (is_filter kv). destruct (is_filter kv); simpl; lia.
Qed.

Lemma count_filter_absent k (params : list (string * string))
    (acc : jsobj * Z) :
  k ∉ params.*1 →
  obj_get k (foldl count_filter acc params).1 = obj_get k acc.1.
Proof.
  revert acc. induction params as [|[k0 v0] params IH]; intros acc Hk; simpl.
  - done.
  - simpl in Hk. apply not_elem_of_cons in Hk as [Hne Hk].
    rewrite IH by done. unfold count_filter, assign_filter. simpl.
    destruct (negb (String.eqb v0 "") && negb (String.eqb v0 "false"));
      [|done].
    simpl. destruct (String.eqb k0 "__proto__"); [done|].
    rewrite obj_get_obj_set.
    destruct (String.eqb_spec k k0); [congruence | done].
Qed.

Lemma extractSearchParamsFromUrl_returns (params : list (string * string)) w :
  ∃ r, extractSearchParamsFromUrl params w = Returned r w.
Proof.
  unfold extractSearchParamsFromUrl, try_catch.
  case_bool_decide; unfold bind, get, ret; by eexists.
Qed.

(** X21.  [extractSearchParamsFromUrl] never throws and changes nothing; it
    gives [null] exactly when the query string has no parameter, and
    otherwise a record whose [filters_count] is the number of parameters
    whose value is neither empty nor the text [false], which lies between 0
    and the number of parameters. *)
Theorem extracted_filters_are_counted (params : list (string * string))
    (w : World) :
  ∃ r,
    extractSearchParamsFromUrl params w = Returned r w
    ∧ (r = None ↔ params = [])
    ∧ ∀ d, r = Some d →
        p_filters_count d
        = Some (Z.of_nat (length (List.filter is_filter params)))
        ∧ (length (List.filter is_filter params) ≤ length params)%nat
        ∧ p_source_component d = Some "url_direct".
Proof.
  unfold extractSearchParamsFromUrl, try_catch.
  case_bool_decide as Hp.
  - exists None. unfold ret. split; [done|]. split; [done|]. by intros d.
  - unfold bind, get, ret. eexists. split; [reflexivity|].
    split; [split; [done | by intros ->]|].
    intros d [= <-]. simpl. unfold collect_filters.
    rewrite count_filter_count. simpl.
    split; [done|]. split; [apply List.filter_length_le | done].
Qed.

(** X22.  The [filters] object that [extractSearchParamsFromUrl] builds
    holds, for a parameter given more than once, the last of its values
    that count as a filter; the parameter is any but [__proto__], under
    which an object literal stores no string. *)
Theorem extracted_filter_holds_last_value (params1 params2 : list (string * string))
    (k v : string) (w : World) :
  k ≠ "__proto__" →
  is_filter (k, v) = true →
  k ∉ params2.*1 →
  ∃ d,
    extractSearchParamsFromUrl (params1 ++ (k, v) :: params2) w
    = Returned (Some d) w
    ∧ ∃ filters, p_filters d = Some filters ∧ obj_get k filters = VStr v.
Proof.
  intros Hproto Hv Hk. unfold extractSearchParamsFromUrl, try_catch.
  rewrite bool_decide_eq_false_2 by (by destruct params1).
  unfold bind, get, ret. eexists. split; [reflexivity|]. simpl.
  eexists. split; [reflexivity|].
  unfold collect_filters. rewrite foldl_app. simpl.
  rewrite count_filter_absent by done.
  unfold count_filter at 1. fold (is_filter (k, v)). rewrite Hv. simpl.
  unfold assign_filter.
  destruct (String.eqb_spec k "__proto__") as [|_]; [done|].
  rewrite obj_get_obj_set. by rewrite String.eqb_refl.
Qed.

(** ** The search page on load *)

Section Search_page_facts.
Context `{!JSON ConsentStatus, !JSON SessionData, !JSON SearchTrackingData}.
Variable formatPriceRange : jsval → jsval → string.

(** What [trackEvent] leaves behind: nothing, or one event of the type
    with the data given. *)
Lemma trackEvent_at_most_one (eventType : string) (eventData : option jsobj)
    (this : StratosTracker) w :
  session_entry_sound w →
  ∃ w', Tracker.trackEvent eventType eventData this w = Returned this w'
        ∧ session_entry_sound w'
        ∧ browser w' = browser w
        ∧ (network w' = network w
           ∨ ∃ r e, network w' = network w ++ [r]
                    ∧ req_body r = EventBody e ∧ event_type e = eventType
                    ∧ event_data e = eventData).
Proof.
  intros Hs. unfold Tracker.trackEvent.
  destruct (Tracker.canTrack this) eqn:Hcan; simpl.
  2: { exists w. unfold ret. auto. }
  unfold bind.
  destruct (buildEventPayload_spec eventType eventData w Hs)
    as (e & w1 & -> & F & Hty & Hdata).
  rewrite sendEvent_eq. unfold ret. eexists. split; [reflexivity|]. simpl.
  split; [exact (frame_sound _ _ F Hs)|].
  split; [exact (frame_browser _ _ F)|].
  right. rewrite (frame_network _ _ F). by eexists _, e.
Qed.

Lemma sendPendingSearchEvent_cases (g : option StratosTracker) w :
  session_entry_sound w →
  ∃ b w',
    searchTracking.sendPendingSearchEvent formatPriceRange g w = Returned b w'
    ∧ session_entry_sound w'
    ∧ browser w' = browser w
    ∧ (network w' = network w
       ∨ (b = true
          ∧ ∃ r e text data,
              network w' = network w ++ [r]
              ∧ req_body r = EventBody e ∧ event_type e = "search"
              ∧ sessionStorage w !! searchTracking.STORAGE_KEY = Some text
              ∧ JSON_parse text = Some data
              ∧ event_data e
                = Some (searchTracking.search_event_data formatPriceRange
                          data (Date_now w)))).
Proof.
  intros Hs.
  unfold searchTracking.sendPendingSearchEvent, try_catch, bind,
    sessionStorage_getItem, sessionStorage_removeItem, parse, get.
  destruct (storage_denied (browser w)) eqn:Hd.
  { unfold ret. exists false, w. auto. }
  destruct (sessionStorage w !! searchTracking.STORAGE_KEY) as [text|] eqn:Hst.
  2: { unfold ret. exists false, w. auto. }
  destruct (String.eqb text "").
  { unfold ret. exists false, w. auto. }
  simpl. rewrite Hd.
  set (w0 := set_sessionStorage _ w).
  destruct (JSON_parse text) as [data|] eqn:Hparse.
  2: { unfold throw, ret. exists false, w0. auto. }
  unfold ret at 1. simpl.
  destruct (bool_decide _).
  { unfold ret. exists false, w0. auto. }
  destruct g as [tracker|].
  2: { unfold ret. exists false, w0. auto. }
  match goal with |- context [Tracker.trackEvent ?t ?d tracker w0] =>
    destruct (trackEvent_at_most_one t d tracker w0 Hs)
      as (w1 & -> & Hs1 & Hb1 & Hnet)
  end.
  unfold ret. exists true, w1. split; [done|]. split; [done|].
  split; [done|].
  destruct Hnet as [Hnet|(r & e & Hnet & Hb & Hty & Hdata)].
  - left. by rewrite Hnet.
  - right. split; [done|]. by exists r, e, text, data.
Qed.

(** What [initSearchTracking] does after [sendPendingSearchEvent]. *)
Lemma initSearchTracking_cases (location_search : string)
    (params : list (string * string)) (results_count : jsval)
    (g : option StratosTracker) w :
  session_entry_sound w →
  ∃ b w1 w',
    searchTracking.sendPendingSearchEvent formatPriceRange g w = Returned b w1
    ∧ initSearchTracking formatPriceRange location_search params results_count
        g w
      = Returned () w'
    ∧ (network w' = network w1
       ∨ b = false
         ∧ ∃ r e d,
             network w' = network w1 ++ [r]
             ∧ req_body r = EventBody e ∧ event_type e = "search"
             ∧ location_search ≠ ""
             ∧ extractSearchParamsFromUrl params w1 = Returned (Some d) w1
             ∧ 0 < default 0 (p_filters_count d)
             ∧ event_data e = Some (direct_search_event_data d results_count)).
Proof.
  intros Hs. unfold initSearchTracking, bind at 1.
  destruct (sendPendingSearchEvent_cases g w Hs)
    as (b & w1 & E & Hs1 & _ & _).
  exists b, w1. rewrite E.
  destruct b; simpl.
  { unfold ret. exists w1. auto. }
  destruct (String.eqb_spec location_search "") as [|Hloc]; simpl.
  { unfold ret. exists w1. auto. }
  unfold bind at 1.
  destruct (extractSearchParamsFromUrl_returns params w1) as (r & Hex).
  rewrite Hex.
  destruct r as [d|]; [|unfold ret; exists w1; auto].
  case_bool_decide as Hcount; [|unfold ret; exists w1; auto].
  destruct g as [tracker|]; [|unfold ret; exists w1; auto].
  unfold bind.
  match goal with |- context [Tracker.trackEvent ?t ?d tracker w1] =>
    destruct (trackEvent_at_most_one t d tracker w1 Hs1)
      as (w2 & -> & _ & _ & Hnet2)
  end.
  unfold ret. exists w2. split; [done|]. split; [done|].
  destruct Hnet2 as [Hnet2|(r & e & Hnet2 & Hb & Hty & Hdata)].
  - by left.
  - right. split; [done|]. by exists r, e, d.
Qed.


End Search_page_facts.

Section Search_page_events.
Context `{!JSON ConsentStatus, !JSON SessionData, !JSON SearchTrackingData,
          !Numbers}.


End Search_page_events.

(** ** Enquiry forms *)

Section Enquiry_form_facts.
Context `{!JSON ConsentStatus, !JSON SessionData}.

Lemma count_events_cons eventType r e rs :
  req_body r = EventBody e →
  count_events eventType (r :: rs)
  = ((if decide (event_type e = eventType) then 1 else 0)
     + count_events eventType rs)%nat.
Proof.
  intros Hb. unfold count_events, events. simpl.
  unfold event_of at 1. rewrite Hb. simpl.
  rewrite filter_cons. by destruct (decide _).
Qed.

Lemma trackEnquiryStarted_spec config enquiryData w :
  session_entry_sound w →
  ∃ r e w',
    enquiryTracking.trackEnquiryStarted config enquiryData w = Returned () w'
    ∧ session_entry_sound w'
    ∧ network w' = network w ++ [r]
    ∧ req_body r = EventBody e ∧ event_type e = "enquiry_started".
Proof.
  intros Hs. unfold enquiryTracking.trackEnquiryStarted, bind, get.
  match goal with |- context [buildEventPayload ?t ?d w] =>
    destruct (buildEventPayload_spec t d w Hs) as (e & w1 & -> & F & Hty & _)
  end.
  rewrite sendEvent_eq. eexists _, e, _. split; [reflexivity|]. simpl.
  split; [exact (frame_sound _ _ F Hs)|].
  by rewrite (frame_network _ _ F).
Qed.

Lemma trackEnquirySubmitted_spec config enquiryData w :
  session_entry_sound w →
  ∃ r e w',
    enquiryTracking.trackEnquirySubmitted config enquiryData w = Returned () w'
    ∧ session_entry_sound w'
    ∧ network w' = network w ++ [r]
    ∧ req_body r = EventBody e ∧ event_type e = "enquiry_submitted".
Proof.
  intros Hs. unfold enquiryTracking.trackEnquirySubmitted, bind, get.
  match goal with |- context [buildEventPayload ?t ?d w] =>
    destruct (buildEventPayload_spec t d w Hs) as (e & w1 & -> & F & Hty & _)
  end.
  rewrite sendEvent_eq. eexists _, e, _. split; [reflexivity|]. simpl.
  split; [exact (frame_sound _ _ F Hs)|].
  by rewrite (frame_network _ _ F).
Qed.

Lemma form_events_spec (config : RequiredTrackerConfig) (formSelector : string)
    (options : option jsobj) (es : list FormEvent) (form : FormTracking) w :
  session_entry_sound w →
  ∃ form' w' rs,
    form_events config formSelector options es form w = Returned form' w'
    ∧ network w' = network w ++ rs
    ∧ count_events "enquiry_started" rs
      = (if negb (hasStartedTracking form)
            && focuses_on (armed_inputs form) es then 1 else 0)%nat
    ∧ count_events "enquiry_submitted" rs
      = length (List.filter is_submit es).
Proof.
  revert form w. induction es as [|ev es IH]; intros form w Hs.
  - exists form, w, []. simpl. rewrite app_nil_r, andb_false_r. done.
  - simpl form_events. unfold bind at 1.
    destruct ev as [i|phone telephone message comments]; simpl form_event.
    + case_bool_decide as Hi.
      * destruct form as [armed started]. cbn [armed_inputs hasStartedTracking] in *.
        destruct started; cbn [negb].
        -- unfold ret at 1.
           match goal with |- context [form_events _ _ _ es ?f w] =>
             destruct (IH f w Hs)
               as (form' & w' & rs & -> & Hnet & Hst & Hsub)
           end.
           exists form', w', rs. simpl in Hst. done.
        -- unfold bind at 1.
           match goal with
           |- context [enquiryTracking.trackEnquiryStarted ?c ?d w] =>
             destruct (trackEnquiryStarted_spec c d w Hs)
               as (r & e & w1 & -> & Hs1 & Hnet1 & Hb & Hty)
           end.
           unfold ret at 1.
           match goal with |- context [form_events _ _ _ es ?f w1] =>
             destruct (IH f w1 Hs1)
               as (form' & w' & rs & -> & Hnet & Hst & Hsub)
           end.
           exists form', w', (r :: rs). split; [done|].
           split; [by rewrite Hnet, Hnet1, <- app_assoc|].
           rewrite !(count_events_cons _ r e rs Hb), Hty, Hst, Hsub.
           simpl. rewrite bool_decide_eq_true_2 by done. simpl.
           split; repeat case_decide; done.
      * unfold ret at 1.
        destruct (IH form w Hs)
          as (form' & w' & rs & -> & Hnet & Hst & Hsub).
        exists form', w', rs. do 2 (split; [done|]).
        simpl. rewrite bool_decide_eq_false_2 by done. done.
    + unfold bind at 1.
      match goal with
      |- context [enquiryTracking.trackEnquirySubmitted ?c ?d w] =>
        destruct (trackEnquirySubmitted_spec c d w Hs)
          as (r & e & w1 & -> & Hs1 & Hnet1 & Hb & Hty)
      end.
      unfold ret at 1.
      destruct (IH form w1 Hs1)
        as (form' & w' & rs & -> & Hnet & Hst & Hsub).
      exists form', w', (r :: rs). split; [done|].
      split; [by rewrite Hnet, Hnet1, <- app_assoc|].
      rewrite !(count_events_cons _ r e rs Hb), Hty, Hst, Hsub.
      simpl. split; repeat case_decide; done.
Qed.

(** X24.  On a form armed by the facade's [setupEnquiryFormTracking], with
    a session entry that is absent or a session, whatever the visitor does,
    in any order, the handlers return and hand over one [enquiry_submitted]
    event per submission and exactly one [enquiry_started] event if an input
    of the form is ever focused, none otherwise. *)
Theorem enquiry_started_is_sent_once (formSelector : string)
    (options : option jsobj) (forms : list (list nat)) (this : StratosTracker)
    (form : FormTracking) (es : list FormEvent) (w : World) :
  form ∈ setupEnquiryFormTracking forms this →
  session_entry_sound w →
  ∃ form' w' rs,
    form_events (config this) formSelector options es form w
    = Returned form' w'
    ∧ network w' = network w ++ rs
    ∧ count_events "enquiry_started" rs
      = (if focuses_on (armed_inputs form) es then 1 else 0)%nat
    ∧ count_events "enquiry_submitted" rs
      = length (List.filter is_submit es).
Proof.
  intros Hform Hsound.
  assert (hasStartedTracking form = false) as Hs.
  { unfold setupEnquiryFormTracking in Hform.
    destruct (Tracker.canTrack this); simpl in Hform.
    - apply list_elem_of_fmap in Hform as (inputs & -> & _). done.
    - by apply elem_of_nil in Hform. }
  destruct (form_events_spec (config this) formSelector options es form w
              Hsound)
    as (form' & w' & rs & E & Hnet & Hst & Hsub).
  rewrite Hs in Hst. by exists form', w', rs.
Qed.

End Enquiry_form_facts.

(** ** Session queries *)

Section Session_query_facts.
Context `{!JSON ConsentStatus, !JSON SessionData}.


End Session_query_facts.

(** ** The further properties on the sample page *)

(** The sample pages hold no session entry. *)
Ltac no_session_entry :=
  let text := fresh "text" in
  let H := fresh "H" in
  intros text H; vm_compute in H; discriminate.

Section Further_on_the_sample_page.
#[local] Existing Instance JSON_ConsentStatus.
#[local] Existing Instance JSON_SessionData.
#[local] Existing Instance JSON_SearchTrackingData.

Lemma sample_uuid_nonempty (n : nat) : sample_uuid n ≠ "".
Proof. unfold sample_uuid. simpl. discriminate. Qed.

Lemma visitor_id_is_stable_witness :
  ∃ w2, getVisitorId with_temporary_id = Returned "uuid-a" w2.
Proof.
  apply (visitor_id_is_stable fresh_page with_temporary_id "uuid-a").
  - exact sample_uuid_nonempty.
  - vm_compute. reflexivity.
Defined.

Lemma persisted_visitor_is_recognised_witness :
  localStorage (world_of (getVisitorId consented_page)) !! STORAGE_KEYS_VISITOR
  = Some "uuid-a"
  ∧ ∀ w2, hasAnalyticsConsent w2 = Returned true w2 →
          localStorage w2 !! STORAGE_KEYS_VISITOR
          = localStorage (world_of (getVisitorId consented_page))
              !! STORAGE_KEYS_VISITOR →
          getVisitorId w2 = Returned "uuid-a" w2.
Proof.
  apply (persisted_visitor_is_recognised consented_page
           (world_of (getVisitorId consented_page)) "uuid-a").
  - exact sample_uuid_nonempty.
  - vm_compute. reflexivity.
  - reflexivity.
  - vm_compute. reflexivity.
Defined.


Lemma every_event_counts_a_page_view_witness :
  ∃ r e (s' : SessionData) w',
    Tracker.trackEvent "cta_click" None sample_tracker after_first_call
    = Returned sample_tracker w'
    ∧ network w' = network after_first_call ++ [r]
    ∧ req_body r = EventBody e
    ∧ event_type e = "cta_click"
    ∧ ev_session_id e = session_id first_session
    ∧ getStoredSession w' = Returned (Some s') w'
    ∧ session_id s' = session_id first_session
    ∧ page_views s' = page_views first_session + 1
    ∧ last_activity_at s' = Date_now after_first_call.
Proof.
  apply (every_event_counts_a_page_view "cta_click" None sample_tracker
           first_session after_first_call).
  - reflexivity.
  - vm_compute. reflexivity.
  - reflexivity.
  - vm_compute. discriminate.
Defined.

Lemma property_duration_handlers_of_last_only_witness :
  ∃ w',
    setup_properties
      (["property-7"; "property-8"; "property-7"] ++ ["property-9"]) fresh_page
    = Returned () w'
    ∧ listeners w' = listeners fresh_page ++ property_handlers "property-9"
    ∧ currentPropertyDurationTracking w' = Some "property-9"
    ∧ network w' = network fresh_page
    ∧ localStorage w' = localStorage fresh_page.
Proof.
  apply (property_duration_handlers_of_last_only
           ["property-7"; "property-8"; "property-7"] "property-9" fresh_page).
  - reflexivity.
  - apply Forall_nil_2.
Defined.

Lemma leaving_sends_a_beacon_per_event_witness :
  ∃ r1 r2 w1 w2,
    Tracker.dispatchEvent Ev_beforeunload tracker_on_property
      property_page_on_exit
    = Returned tracker_on_property w1
    ∧ Tracker.dispatchEvent Ev_pagehide tracker_on_property w1
      = Returned tracker_on_property w2
    ∧ network w2 = network property_page_on_exit ++ [r1; r2]
    ∧ map event_type (events [r1; r2]) = ["property_view"; "property_view"]
    ∧ map (field "view_duration_seconds") (events [r1; r2])
      = [VNum 4; VNum 4].
Proof.
  apply (leaving_sends_a_beacon_per_event "property-7" tracker_on_property
           property_page_on_exit).
  - reflexivity.
  - vm_compute. discriminate.
  - vm_compute. discriminate.
  - no_session_entry.
Defined.

Lemma additional_data_overrides_witness :
  ∃ r e w',
    propertyTracking.trackPropertyView sample_required_config "property-7"
      (Some ([("price", VNum 250000)]
             ++ ("property_id", VStr "property-8") :: [])) fresh_page
    = Returned () w'
    ∧ network w' = network fresh_page ++ [r]
    ∧ req_body r = EventBody e
    ∧ event_type e = "property_view"
    ∧ field "property_id" e = VStr "property-8"
    ∧ ("property_id" = "property_id" →
       property_id e
       = if truthy (VStr "property-8") then VStr "property-8" else VUndef).
Proof.
  apply (additional_data_overrides sample_required_config "property-7"
           [("price", VNum 250000)] [] "property_id" (VStr "property-8")
           fresh_page).
  - apply not_elem_of_nil.
  - no_session_entry.
Defined.

Lemma blog_duration_floor_witness :
  ∃ r e w',
    blogTracking.trackBlogDuration sample_required_config "article-3"
      (Date_now fresh_page - 6000) 30 fresh_page
    = Returned () w'
    ∧ network w' = network fresh_page ++ [r]
    ∧ req_body r = EventBody e
    ∧ event_type e = "blog_read_time"
    ∧ field "read_duration_seconds" e = VNum 6
    ∧ field "max_scroll_depth" e = VNum 30
    ∧ field "article_id" e = VStr "article-3".
Proof.
  apply (blog_duration_floor sample_required_config "article-3"
           (Date_now fresh_page - 6000) 30 fresh_page).
  - vm_compute. discriminate.
  - no_session_entry.
Defined.

Lemma latest_search_wins_witness :
  ∃ w1 w2 r e w3,
    searchTracking.storeSearchForTracking sample_search consented_page
    = Returned () w1
    ∧ searchTracking.storeSearchForTracking second_search
        (set_Date_now 1700000005000 w1)
      = Returned () w2
    ∧ searchTracking.sendPendingSearchEvent searchTracking.formatPriceRange
        (Some sample_tracker) (set_Date_now (1700000005000 + 200) w2)
      = Returned true w3
    ∧ network w3 = network consented_page ++ [r]
    ∧ req_body r = EventBody e
    ∧ event_type e = "search"
    ∧ event_data e
      = Some
          [("location", VStr "York");
           ("postcode", VStr "");
           ("min_price", VNum 200000);
           ("max_price", VNull);
           ("price_range", VStr "£200k+");
           ("bedrooms", VNum 3);
           ("bathrooms", VNull);
           ("property_type", VStr "house");
           ("listing_type", VStr "sale");
           ("filters",
            VObj [("beds", VStr "3"); ("min_price", VStr "200000")]);
           ("filters_count", VNum 2);
           ("source_page", VStr "/blog/moving-house");
           ("source_component", VStr "hero_search");
           ("search_timestamp", VNum 1700000005000);
           ("tracking_delay_ms", VNum 200)].
Proof.
  refine (latest_search_wins sample_search second_search sample_tracker
            consented_page 1700000005000 200 _ _ _ _ _);
    [reflexivity | reflexivity | no_session_entry | reflexivity | lia].
Defined.


Lemma pending_search_lost_without_consent_witness :
  let data := searchTracking.trackingData sample_search 1700000000000 "/" in
  let w := set_sessionStorage
             {[searchTracking.STORAGE_KEY := JSON_stringify data]} fresh_page in
  ∃ w',
    searchTracking.sendPendingSearchEvent any_price
      (Some tracker_without_consent) w
    = Returned true w'
    ∧ network w' = network w
    ∧ ∀ g w2,
        sessionStorage w2 = sessionStorage w' →
        ∃ w3, searchTracking.sendPendingSearchEvent any_price g w2
              = Returned false w3
              ∧ network w3 = network w2.
Proof.
  apply (pending_search_lost_without_consent any_price
           (searchTracking.trackingData sample_search 1700000000000 "/")
           tracker_without_consent
           (set_sessionStorage
              {[searchTracking.STORAGE_KEY :=
                  JSON_stringify
                    (searchTracking.trackingData sample_search 1700000000000
                       "/")]} fresh_page)).
  - reflexivity.
  - apply lookup_singleton_eq.
  - simpl. lia.
  - reflexivity.
Defined.

Lemma favourite_event_follows_server_witness :
  ∃ r1 r2 visitorId sessionId e w',
    Tracker.toggleFavourite "property-7" None
      (Response true
         (Some (VObj [("is_favourited", VBool true); ("count", VNum 3)])))
      sample_tracker consented_page
    = Returned {| is_favourited := VBool true; count := VNum 3 |} w'
    ∧ network w' = network consented_page ++ [r1; r2]
    ∧ req_endpoint r1 = "https://api.example/functions/v1/toggle-favourite"
    ∧ req_body r1 = FavouriteBody visitorId sessionId "property-7" "unknown"
    ∧ req_body r2 = EventBody e
    ∧ event_type e = "property_favourited"
    ∧ field "property_id" e = VStr "property-7"
    ∧ field "source" e = VStr "unknown".
Proof.
  apply (favourite_event_follows_server "property-7" None
           [("is_favourited", VBool true); ("count", VNum 3)]
           sample_tracker consented_page).
  - reflexivity.
  - no_session_entry.
Defined.

Lemma failed_toggle_sends_no_event_witness :
  ∃ r1 visitorId sessionId w',
    Tracker.toggleFavourite "property-7" None NetworkError sample_tracker
      consented_page
    = Returned not_favourited w'
    ∧ network w' = network consented_page ++ [r1]
    ∧ req_body r1 = FavouriteBody visitorId sessionId "property-7" "unknown".
Proof.
  apply (failed_toggle_sends_no_event "property-7" None NetworkError
           sample_tracker consented_page).
  - reflexivity.
  - no_session_entry.
  - left. reflexivity.
Defined.

Lemma disabled_tracking_does_nothing_witness :
  Tracker.invoke (Tracker.c_trackSessionEnd None)
    (Tracker.setTrackingEnabled false sample_tracker) consented_page
  = Returned (Tracker.setTrackingEnabled false sample_tracker) consented_page.
Proof.
  apply (disabled_tracking_does_nothing (Tracker.c_trackSessionEnd None)
           sample_tracker consented_page).
  reflexivity.
Defined.

Lemma view_then_duration_witness :
  ∃ this1 w1 r e w2,
    Tracker.trackPropertyView "property-7" None sample_tracker consented_page
    = Returned this1 w1
    ∧ Tracker.trackPropertyDuration "property-7" this1
        (set_Date_now (Date_now consented_page + 4000) w1)
      = Returned this1 w2
    ∧ network w2 = network w1 ++ [r]
    ∧ req_body r = EventBody e
    ∧ event_type e = "property_view"
    ∧ field "view_duration_seconds" e = VNum (4000 `div` 1000).
Proof.
  apply (view_then_duration "property-7" None sample_tracker consented_page
           4000).
  - reflexivity.
  - vm_compute. discriminate.
  - lia.
  - no_session_entry.
Defined.

Lemma extracted_filter_holds_last_value_witness :
  ∃ d,
    extractSearchParamsFromUrl
      ([("beds", "2")] ++ ("beds", "3") :: [("q", "Leeds")]) fresh_page
    = Returned (Some d) fresh_page
    ∧ ∃ filters, p_filters d = Some filters
                 ∧ obj_get "beds" filters = VStr "3".
Proof.
  apply (extracted_filter_holds_last_value [("beds", "2")] [("q", "Leeds")]
           "beds" "3" fresh_page).
  - discriminate.
  - reflexivity.
  - apply not_elem_of_cons. split; [discriminate | apply not_elem_of_nil].
Defined.

Lemma enquiry_started_is_sent_once_witness :
  ∃ form' w' rs,
    form_events (config sample_tracker) "#enquiry" None sample_form_visit
      (attach_form_listeners [0; 1; 2]%nat) consented_page
    = Returned form' w'
    ∧ network w' = network consented_page ++ rs
    ∧ count_events "enquiry_started" rs
      = (if focuses_on [0; 1; 2]%nat sample_form_visit then 1 else 0)%nat
    ∧ count_events "enquiry_submitted" rs
      = length (List.filter is_submit sample_form_visit).
Proof.
  apply (enquiry_started_is_sent_once "#enquiry" None [[0; 1; 2]%nat]
           sample_tracker (attach_form_listeners [0; 1; 2]%nat)
           sample_form_visit consented_page).
  - apply list_elem_of_singleton. reflexivity.
  - no_session_entry.
Defined.


Lemma tracking_calls_never_throw_nor_persist_without_consent_witness :
  ∃ this' w',
    Tracker.invoke (Tracker.c_trackSessionEnd None) tracker_without_consent
      fresh_page
    = Returned this' w'
    ∧ session_entry_sound w'
    ∧ localStorage w' !! CONSENT_STORAGE_KEY
      = localStorage fresh_page !! CONSENT_STORAGE_KEY
    ∧ sessionStorage w' = sessionStorage fresh_page
    ∧ (hasAnalyticsConsent fresh_page = Returned false fresh_page →
       localStorage w' = localStorage fresh_page).
Proof.
  apply (tracking_calls_never_throw_nor_persist_without_consent
           (Tracker.c_trackSessionEnd None) tracker_without_consent
           fresh_page).
  no_session_entry.
Defined.

Lemma getSession_agrees_with_getSessionId_witness :
  ∃ s w', getSession consented_page = Returned (Some s) w'
          ∧ getSessionId consented_page = Returned (session_id s) w'.
Proof.
  apply (getSession_agrees_with_getSessionId consented_page).
  no_session_entry.
Defined.

Lemma scroll_milestones_strictly_increase_witness :
  ∃ depth' w' rs,
    scroll_through sample_required_config "article-3" 0 sample_scroll
      consented_page
    = Returned depth' w'
    ∧ network w' = network consented_page ++ rs
    ∧ 0 ≤ depth'
    ∧ length (events rs) = length rs
    ∧ Forall (λ e, event_type e = "blog_scroll_depth") (events rs)
    ∧ length (milestones_fired rs) = length rs
    ∧ increasing_from 0 (milestones_fired rs)
    ∧ Forall (λ m, m ∈ blogTracking.milestones ∧ m ≤ depth')
        (milestones_fired rs)
    ∧ (length rs ≤ 4)%nat.
Proof.
  apply (scroll_milestones_strictly_increase sample_required_config
           "article-3" sample_scroll 0 consented_page).
  no_session_entry.
Defined.


End Further_on_the_sample_page.
